(** * Chamber-finder scraper: a shallow embedding and its properties

    The repository holds two scripts, [scraping.py] and [scrapping.py],
    that drive a headless browser over the chamber directory, collect the
    listings of every state page and write one JSON file per state.

    Python values are modelled as the script uses them:
    - a [str] is a sequence of code points ([list N]);
    - an exception is a value of [exn]; a call that may raise returns a
      [result];
    - the browser (Selenium) is an external collaborator: a record of
      operations over an abstract world, so that every statement below is
      quantified over every browser behaviour;
    - the dictionaries are association lists in insertion order, as the
      orchestrator iterates them in that order. *)

From Stdlib Require Import List NArith ZArith Bool Lia String Ascii.
Import ListNotations.

Set Implicit Arguments.
Set Warnings "-register-all".

(** ** Python strings *)

Definition pystr := list N.

(** A string literal of the script (ASCII only). *)
Definition str (s : string) : pystr :=
  List.map N_of_ascii (list_ascii_of_string s).

Definition chr_eqb : N -> N -> bool := N.eqb.

Fixpoint str_eqb (a b : pystr) : bool :=
  match a, b with
  | [], [] => true
  | x :: a', y :: b' => chr_eqb x y && str_eqb a' b'
  | _, _ => false
  end.

(** [str.isspace] on one code point: the characters [str.strip()] removes. *)
Definition isspace (c : N) : bool :=
  ((9 <=? c) && (c <=? 13) || (28 <=? c) && (c <=? 32)
   || (c =? 133) || (c =? 160) || (c =? 5760)
   || (8192 <=? c) && (c <=? 8202)
   || (c =? 8232) || (c =? 8233) || (c =? 8239) || (c =? 8287)
   || (c =? 12288))%N.

Fixpoint lstrip (s : pystr) : pystr :=
  match s with
  | [] => []
  | c :: t => if isspace c then lstrip t else s
  end.

Fixpoint rstrip (s : pystr) : pystr :=
  match s with
  | [] => []
  | c :: t =>
      match rstrip t with
      | [] => if isspace c then [] else [c]
      | r => c :: r
      end
  end.

(** [s.strip()] *)
Definition strip (s : pystr) : pystr := rstrip (lstrip s).

(** [p.startswith] seen from the prefix: [startswith p s] is [s.startswith(p)]. *)
Fixpoint startswith (p s : pystr) : bool :=
  match p, s with
  | [], _ => true
  | x :: p', y :: s' => chr_eqb x y && startswith p' s'
  | _ :: _, [] => false
  end.

(** [sub in s] *)
Fixpoint contains (sub s : pystr) : bool :=
  startswith sub s ||
  match s with
  | [] => false
  | _ :: t => contains sub t
  end.

(** [s.split(sep)] for a separator of one code point, the only use the
    scripts make of it. *)
Fixpoint split (sep : N) (s : pystr) : list pystr :=
  match s with
  | [] => [[]]
  | c :: t =>
      if chr_eqb c sep then [] :: split sep t
      else match split sep t with
           | [] => [[c]]
           | w :: ws => (c :: w) :: ws
           end
  end.

(** [re.sub('[...]', rep, s)] for a character class. *)
Definition re_sub_class (cls : list N) (rep : pystr) (s : pystr) : pystr :=
  flat_map (fun c => if existsb (chr_eqb c) cls then rep else [c]) s.

(** ** Exceptions *)

(** Every exception the scripts can meet is a subclass of [Exception], so
    [except Exception] catches each of them.  An exception carries the text
    [print] shows for it. *)
Inductive exn_class : Type :=
| TimeoutException
| NoSuchElementException
| StaleElementReferenceException
| WebDriverException
| IndexError
| OSError.

Inductive exn : Type :=
| Exception (cls : exn_class) (msg : pystr).

Definition exn_str (e : exn) : pystr :=
  match e with Exception _ m => m end.

Inductive result (A : Type) : Type :=
| Ok (a : A)
| Raise (e : exn).
Arguments Ok {A} a.
Arguments Raise {A} e.

(** [l[0]] *)
Definition index0 {A} (l : list A) : result A :=
  match l with
  | [] => Raise (Exception IndexError (str "list index out of range"))
  | x :: _ => Ok x
  end.

(** The line feed, written [\n] in the scripts. *)
Definition LF : N := 10.

(** ** Python dictionaries with string keys, in insertion order *)

Section Dict.
Variable V : Type.

Definition dict := list (pystr * V).

Fixpoint dict_get (d : dict) (k : pystr) : option V :=
  match d with
  | [] => None
  | (k', v) :: d' => if str_eqb k' k then Some v else dict_get d' k
  end.

(** [d[k] = v]: an existing key keeps its place, a new one goes last. *)
Fixpoint dict_set (d : dict) (k : pystr) (v : V) : dict :=
  match d with
  | [] => [(k, v)]
  | (k', v') :: d' =>
      if str_eqb k' k then (k', v) :: d' else (k', v') :: dict_set d' k v
  end.

(** [not d] *)
Definition dict_is_empty (d : dict) : bool :=
  match d with [] => true | _ => false end.
End Dict.

(** ** Values the scripts hand to [json.dump] *)

Inductive pyval : Type :=
| VNone
| VStr (s : pystr)
| VList (l : list pyval)
| VDict (d : list (pystr * pyval)).

(** ** The browser: Selenium's driver and elements as a collaborator *)

Inductive By : Type := ById | ByTagName | ByCssSelector.

Record Browser : Type := {
  World : Type;
  Elem : Type;
  (** [webdriver.Chrome(options=...)] with the options' arguments *)
  b_chrome : list pystr -> World -> World * result unit;
  (** [driver.get(url)] *)
  b_get : pystr -> World -> World * result unit;
  (** [WebDriverWait(driver, t).until(EC.presence_of_element_located((by, sel)))] *)
  b_wait_presence : N -> By -> pystr -> World -> World * result Elem;
  (** [WebDriverWait(driver, t).until(EC.presence_of_all_elements_located((by, sel)))] *)
  b_wait_presence_all : N -> By -> pystr -> World -> World * result (list Elem);
  (** [driver.find_elements(by, sel)] ([None]) or [el.find_elements(by, sel)] *)
  b_find_elements : option Elem -> By -> pystr -> World -> World * result (list Elem);
  (** [el.find_element(by, sel)] *)
  b_find_element : Elem -> By -> pystr -> World -> World * result Elem;
  (** [el.get_attribute(name)]: a string or [None] *)
  b_get_attribute : Elem -> pystr -> World -> World * result (option pystr);
  (** [el.text] *)
  b_text : Elem -> World -> World * result pystr;
  (** [driver.quit()] *)
  b_quit : World -> World * result unit
}.

(** What the script did to the outside, in order. *)
Inductive Event (E : Type) : Type :=
| EChrome (args : list pystr)
| EGet (url : pystr)
| EWaitPresence (timeout : N) (by_ : By) (sel : pystr)
| EWaitPresenceAll (timeout : N) (by_ : By) (sel : pystr)
| EFindElements (scope : option E) (by_ : By) (sel : pystr)
| EFindElement (scope : E) (by_ : By) (sel : pystr)
| EGetAttribute (el : E) (name : pystr)
| EText (el : E)
| ESleep (seconds : N)
| EQuit.
Arguments EChrome {E} args.
Arguments EGet {E} url.
Arguments EWaitPresence {E} timeout by_ sel.
Arguments EWaitPresenceAll {E} timeout by_ sel.
Arguments ESleep {E} seconds.
Arguments EQuit {E}.

(** ** The file system *)

Record FS : Type := {
  cwd : pystr;
  dirs : list pystr;
  files : list (pystr * pystr);
  (** the paths the system refuses to create or write: no permission, a
      name it does not accept, a full disk *)
  deny : pystr -> bool
}.

Definition abspath (f : FS) (p : pystr) : pystr := cwd f ++ str "/" ++ p.

Definition fs_exists (f : FS) (p : pystr) : bool :=
  existsb (str_eqb (abspath f p)) (dirs f)
  || existsb (fun e => str_eqb (abspath f p) (fst e)) (files f).

Definition fs_read (f : FS) (path : pystr) : option pystr :=
  dict_get (files f) path.

(** ** The state of a run and the monad of the scripts *)

Section Run.
Variable B : Browser.

Record State : Type := {
  world : World B;
  trace : list (Event (Elem B));
  stdout : list pystr;
  fs : FS
}.

Definition M (A : Type) : Type := State -> State * result A.

Definition ret {A} (a : A) : M A := fun s => (s, Ok a).

Definition bind {A C} (c : M A) (k : A -> M C) : M C :=
  fun s =>
    match c s with
    | (s1, Ok a) => k a s1
    | (s1, Raise e) => (s1, Raise e)
    end.

(** [try: c  except Exception as e: h e] *)
Definition try_except {A} (c : M A) (h : exn -> M A) : M A :=
  fun s =>
    match c s with
    | (s1, Ok a) => (s1, Ok a)
    | (s1, Raise e) => h e s1
    end.

Definition lift_result {A} (r : result A) : M A := fun s => (s, r).

(** One call into the browser: the world moves on and the call is
    recorded, whether it returns or raises. *)
Definition invoke {A} (ev : Event (Elem B))
    (op : World B -> World B * result A) : M A :=
  fun s =>
    let (w, r) := op (world s) in
    ({| world := w; trace := trace s ++ [ev];
        stdout := stdout s; fs := fs s |}, r).

Definition Chrome (args : list pystr) : M unit :=
  invoke (EChrome args) (b_chrome B args).
Definition driver_get (url : pystr) : M unit :=
  invoke (EGet url) (b_get B url).
Definition wait_presence (t : N) (by_ : By) (sel : pystr) : M (Elem B) :=
  invoke (EWaitPresence t by_ sel) (b_wait_presence B t by_ sel).
Definition wait_presence_all (t : N) (by_ : By) (sel : pystr)
    : M (list (Elem B)) :=
  invoke (EWaitPresenceAll t by_ sel) (b_wait_presence_all B t by_ sel).
Definition find_elements (scope : option (Elem B)) (by_ : By) (sel : pystr)
    : M (list (Elem B)) :=
  invoke (EFindElements scope by_ sel) (b_find_elements B scope by_ sel).
Definition find_element (el : Elem B) (by_ : By) (sel : pystr) : M (Elem B) :=
  invoke (EFindElement el by_ sel) (b_find_element B el by_ sel).
Definition get_attribute (el : Elem B) (name : pystr) : M (option pystr) :=
  invoke (EGetAttribute el name) (b_get_attribute B el name).
Definition text (el : Elem B) : M pystr :=
  invoke (EText el) (b_text B el).
Definition driver_quit : M unit :=
  invoke EQuit (b_quit B).

(** [time.sleep(n)] *)
Definition sleep (n : N) : M unit :=
  fun s => ({| world := world s; trace := trace s ++ [ESleep n];
               stdout := stdout s; fs := fs s |}, Ok tt).

(** [print(line)] *)
Definition print (line : pystr) : M unit :=
  fun s => ({| world := world s; trace := trace s;
               stdout := stdout s ++ [line]; fs := fs s |}, Ok tt).

Definition with_fs (f : FS) (s : State) : State :=
  {| world := world s; trace := trace s; stdout := stdout s; fs := f |}.

(** [os.path.exists(p)] *)
Definition path_exists (p : pystr) : M bool :=
  fun s => (s, Ok (fs_exists (fs s) p)).

(** [os.makedirs(p)] *)
Definition makedirs (p : pystr) : M unit :=
  fun s =>
    let f := fs s in
    if deny f (abspath f p) || fs_exists f p then
      (s, Raise (Exception OSError (abspath f p)))
    else
      (with_fs {| cwd := cwd f; dirs := dirs f ++ [abspath f p];
                  files := files f; deny := deny f |} s, Ok tt).

(** [os.chdir(p)] *)
Definition chdir (p : pystr) : M unit :=
  fun s =>
    let f := fs s in
    if existsb (str_eqb (abspath f p)) (dirs f) then
      (with_fs {| cwd := abspath f p; dirs := dirs f;
                  files := files f; deny := deny f |} s, Ok tt)
    else (s, Raise (Exception OSError (abspath f p))).

(** [with open(name, "w", encoding="utf-8") as f: f.write(content)] *)
Definition write_file (name content : pystr) : M unit :=
  fun s =>
    let f := fs s in
    if deny f (abspath f name) then
      (s, Raise (Exception OSError (abspath f name)))
    else
      (with_fs {| cwd := cwd f; dirs := dirs f;
                  files := dict_set (files f) (abspath f name) content;
                  deny := deny f |} s, Ok tt).

(** [for x in xs: body x] *)
Fixpoint for_each {X} (xs : list X) (body : X -> M unit) : M unit :=
  match xs with
  | [] => ret tt
  | x :: rest => bind (body x) (fun _ => for_each rest body)
  end.

(** A loop over a local variable that the body updates as its last
    step: when an iteration raises, the variable holds what the earlier
    iterations left in it. *)
Fixpoint for_acc {X L} (xs : list X) (body : X -> L -> M L) (l : L)
    : State -> State * (L * result unit) :=
  match xs with
  | [] => fun s => (s, (l, Ok tt))
  | x :: rest =>
      fun s =>
        match body x l s with
        | (s1, Ok l1) => for_acc rest body l1 s1
        | (s1, Raise e) => (s1, (l, Raise e))
        end
  end.
End Run.

Arguments ret {B A} a.
Arguments lift_result {B A} r.
Arguments driver_quit {B}.
Arguments Chrome {B} args.
Arguments driver_get {B} url.
Arguments wait_presence {B} t by_ sel.
Arguments wait_presence_all {B} t by_ sel.
Arguments find_elements {B} scope by_ sel.
Arguments find_element {B} el by_ sel.
Arguments get_attribute {B} el name.
Arguments text {B} el.
Arguments print {B} line.
Arguments sleep {B} n.
Arguments path_exists {B} p.
Arguments makedirs {B} p.
Arguments chdir {B} p.
Arguments write_file {B} name content.

Declare Scope py_scope.
Delimit Scope py_scope with py.
Notation "x <- c ;; k" := (bind c (fun x => k))
  (at level 61, c at next level, right associativity) : py_scope.
Notation "c ;; k" := (bind c (fun _ => k))
  (at level 61, right associativity) : py_scope.

(** ** [json.dump(obj, f, indent=4)]

    The encoder of Python's [json] with its defaults ([ensure_ascii=True])
    and [indent=4]: items are separated by a comma, each on a line of its
    own, four spaces deeper per level; a key is followed by a colon and a
    space; an empty list is [[]] and an empty dict is [{}]. *)

Definition hexdigit (k : N) : N := (if k <? 10 then 48 + k else 87 + k)%N.

(** ['{0:04x}'.format(n)] *)
Definition hex4 (n : N) : pystr :=
  [hexdigit ((n / 4096) mod 16); hexdigit ((n / 256) mod 16);
   hexdigit ((n / 16) mod 16); hexdigit (n mod 16)]%N.

Definition u_escape (n : N) : pystr := [92; 117]%N ++ hex4 n.

(** The replacement of one character by [py_encode_basestring_ascii]. *)
Definition escape_char (c : N) : pystr :=
  (if c =? 34 then [92; 34]
   else if c =? 92 then [92; 92]
   else if c =? 10 then [92; 110]
   else if c =? 13 then [92; 114]
   else if c =? 9 then [92; 116]
   else if c =? 8 then [92; 98]
   else if c =? 12 then [92; 102]
   else if (32 <=? c) && (c <=? 126) then [c]
   else if c <? 65536 then u_escape c
   else
     let n := c - 65536 in
     u_escape (N.lor 55296 (N.land (N.shiftr n 10) 1023))
     ++ u_escape (N.lor 56320 (N.land n 1023)))%N.

Definition encode_basestring_ascii (s : pystr) : pystr :=
  [34%N] ++ flat_map escape_char s ++ [34%N].

Definition newline_indent (lvl : nat) : pystr := LF :: repeat 32%N (4 * lvl).

Fixpoint join (sep : pystr) (l : list pystr) : pystr :=
  match l with
  | [] => []
  | [x] => x
  | x :: r => x ++ sep ++ join sep r
  end.

Fixpoint json_encode (lvl : nat) (v : pyval) : pystr :=
  match v with
  | VNone => str "null"
  | VStr s => encode_basestring_ascii s
  | VList [] => str "[]"
  | VList l =>
      str "[" ++ newline_indent (S lvl)
      ++ join (str "," ++ newline_indent (S lvl))
              (List.map (json_encode (S lvl)) l)
      ++ newline_indent lvl ++ str "]"
  | VDict [] => str "{}"
  | VDict d =>
      str "{" ++ newline_indent (S lvl)
      ++ join (str "," ++ newline_indent (S lvl))
              (List.map (fun kv =>
                           match kv with
                           | (k, x) => encode_basestring_ascii k ++ str ": "
                                       ++ json_encode (S lvl) x
                           end) d)
      ++ newline_indent lvl ++ str "}"
  end.

(** ** [json.loads]

    The decoder of Python's [json] on the part of JSON the scripts write:
    objects, arrays, strings and [null] (numbers, [true] and [false] are
    not read). *)

Definition hexval (c : N) : option N :=
  (if (48 <=? c) && (c <=? 57) then Some (c - 48)
   else if (97 <=? c) && (c <=? 102) then Some (c - 87)
   else if (65 <=? c) && (c <=? 70) then Some (c - 55)
   else None)%N.

(** [int(s[pos+1:pos+5], 16)] *)
Definition decode_uXXXX (a b c d : N) : option N :=
  match hexval a, hexval b, hexval c, hexval d with
  | Some x, Some y, Some z, Some w => Some (((x * 16 + y) * 16 + z) * 16 + w)%N
  | _, _, _, _ => None
  end.

(** The characters a backslash may introduce, [u] apart. *)
Definition unescape (e : N) : option N :=
  (if e =? 34 then Some 34
   else if e =? 92 then Some 92
   else if e =? 47 then Some 47
   else if e =? 98 then Some 8
   else if e =? 102 then Some 12
   else if e =? 110 then Some 10
   else if e =? 114 then Some 13
   else if e =? 116 then Some 9
   else None)%N.

Definition is_high_surrogate (u : N) : bool := ((55296 <=? u) && (u <=? 56319))%N.
Definition is_low_surrogate (u : N) : bool := ((56320 <=? u) && (u <=? 57343))%N.

Definition push (c : N) (r : option (pystr * pystr)) : option (pystr * pystr) :=
  match r with
  | Some (x, rest) => Some (c :: x, rest)
  | None => None
  end.

(** [scanstring]: the input starts right after the opening quote; the
    result is the string and what follows its closing quote. *)
Fixpoint scanstring (s : pystr) : option (pystr * pystr) :=
  match s with
  | [] => None
  | c :: t =>
      if (c =? 34)%N then Some ([], t)
      else if (c =? 92)%N then
        match t with
        | [] => None
        | e :: t1 =>
            if (e =? 117)%N then
              match t1 with
              | a :: b :: c1 :: d :: t2 =>
                  match decode_uXXXX a b c1 d with
                  | None => None
                  | Some uni =>
                      match t2 with
                      | b1 :: u1 :: a2 :: b2 :: c2 :: d2 :: t3 =>
                          if is_high_surrogate uni && (b1 =? 92)%N && (u1 =? 117)%N
                          then
                            match decode_uXXXX a2 b2 c2 d2 with
                            | None => None
                            | Some uni2 =>
                                if is_low_surrogate uni2 then
                                  push (65536 + N.lor (N.shiftl (uni - 55296) 10)
                                                      (uni2 - 56320))%N
                                       (scanstring t3)
                                else push uni (scanstring t2)
                            end
                          else push uni (scanstring t2)
                      | _ => push uni (scanstring t2)
                      end
                  end
              | _ => None
              end
            else
              match unescape e with
              | Some x => push x (scanstring t1)
              | None => None
              end
        end
      else if (c <? 32)%N then None
      else push c (scanstring t)
  end.

Definition is_json_ws (c : N) : bool :=
  ((c =? 32) || (c =? 9) || (c =? 10) || (c =? 13))%N.

Fixpoint skip_ws (s : pystr) : pystr :=
  match s with
  | c :: t => if is_json_ws c then skip_ws t else s
  | [] => []
  end.

(** [dict(pairs)]: a repeated key keeps its first place and its last value. *)
Definition dict_of_pairs (l : list (pystr * pyval)) : list (pystr * pyval) :=
  fold_left (fun d kv => dict_set d (fst kv) (snd kv)) l [].

Section Decoder.
(** [scan_once], one level down *)
Variable scan : pystr -> option (pyval * pystr).

(** The items of an array, the input at the first item. *)
Fixpoint array_items (fuel : nat) (s : pystr) : option (list pyval * pystr) :=
  match fuel with
  | O => None
  | S f =>
      match scan s with
      | None => None
      | Some (v, s1) =>
          match skip_ws s1 with
          | c :: s2 =>
              if (c =? 93)%N then Some ([v], s2)
              else if (c =? 44)%N then
                match array_items f (skip_ws s2) with
                | Some (vs, s3) => Some (v :: vs, s3)
                | None => None
                end
              else None
          | [] => None
          end
      end
  end.

(** [JSONArray]: the input starts right after the opening bracket. *)
Definition JSONArray (fuel : nat) (s : pystr) : option (pyval * pystr) :=
  match skip_ws s with
  | c :: s1 =>
      if (c =? 93)%N then Some (VList [], s1)
      else
        match array_items fuel (skip_ws s) with
        | Some (vs, s2) => Some (VList vs, s2)
        | None => None
        end
  | [] => None
  end.

(** The members of an object, the input at the quote of the first key. *)
Fixpoint object_pairs (fuel : nat) (s : pystr)
    : option (list (pystr * pyval) * pystr) :=
  match fuel with
  | O => None
  | S f =>
      match s with
      | q :: s0 =>
          if (q =? 34)%N then
            match scanstring s0 with
            | None => None
            | Some (k, s1) =>
                match skip_ws s1 with
                | c :: s2 =>
                    if (c =? 58)%N then
                      match scan (skip_ws s2) with
                      | None => None
                      | Some (v, s3) =>
                          match skip_ws s3 with
                          | c' :: s4 =>
                              if (c' =? 125)%N then Some ([(k, v)], s4)
                              else if (c' =? 44)%N then
                                match object_pairs f (skip_ws s4) with
                                | Some (kvs, s5) => Some ((k, v) :: kvs, s5)
                                | None => None
                                end
                              else None
                          | [] => None
                          end
                      end
                    else None
                | [] => None
                end
            end
          else None
      | [] => None
      end
  end.

(** [JSONObject]: the input starts right after the opening brace. *)
Definition JSONObject (fuel : nat) (s : pystr) : option (pyval * pystr) :=
  match skip_ws s with
  | c :: s1 =>
      if (c =? 125)%N then Some (VDict [], s1)
      else
        match object_pairs fuel (skip_ws s) with
        | Some (kvs, s2) => Some (VDict (dict_of_pairs kvs), s2)
        | None => None
        end
  | [] => None
  end.
End Decoder.

Fixpoint scan_once (fuel : nat) (s : pystr) : option (pyval * pystr) :=
  match fuel with
  | O => None
  | S f =>
      match s with
      | [] => None
      | c :: t =>
          if (c =? 34)%N then
            match scanstring t with
            | Some (x, r) => Some (VStr x, r)
            | None => None
            end
          else if (c =? 123)%N then JSONObject (scan_once f) f t
          else if (c =? 91)%N then JSONArray (scan_once f) f t
          else if startswith (str "null") s then Some (VNone, skipn 4 s)
          else None
      end
  end.

(** [json.loads(s)]: one value, surrounded by white space only.  No text
    nests deeper or holds more items than it has characters. *)
Definition json_loads (s : pystr) : option pyval :=
  match scan_once (S (List.length s)) (skip_ws s) with
  | Some (v, r) => match skip_ws r with [] => Some v | _ => None end
  | None => None
  end.


(** Truth of a string and of a string-or-[None]. *)
Definition truthy (s : pystr) : bool :=
  match s with [] => false | _ => true end.

Definition opt_val (o : option pystr) : pyval :=
  match o with None => VNone | Some x => VStr x end.

(** ** The script [scraping.py] *)

Module Scraping.

Definition BASE_URL : pystr := str "https://www.uschamber.com".
Definition MAIN_PAGE : pystr := BASE_URL ++ str "/co/chambers".

Definition sanitize_filename (name : pystr) : result pystr :=
  let name := strip name in
  match (if contains [LF] name then index0 (split LF name) else Ok name) with
  | Raise e => Raise e
  | Ok name =>
      (* the class: backslash / * ? : double-quote < > | *)
      Ok (re_sub_class [92; 47; 42; 63; 58; 34; 60; 62; 124]%N (str "_") name)
  end.

Section WithBrowser.
Variable B : Browser.
Local Open Scope py_scope.

(** The body of [for link in links]. *)
Definition state_link (link : Elem B) (state_links : dict pystr)
    : M B (dict pystr) :=
  href <- get_attribute link (str "href") ;;
  t <- text link ;;
  let state_name := strip t in
  match href with
  | Some h =>
      if truthy h && truthy state_name
         && contains (str "/co/chambers/") h
         && negb (str_eqb h MAIN_PAGE)
      then ret (dict_set state_links state_name h)
      else ret state_links
  | None => ret state_links
  end.

Definition get_state_links : M B (dict pystr) :=
  fun s =>
    let state_links : dict pystr := [] in
    let on_error (e : exn) (state_links : dict pystr) : M B (dict pystr) :=
      print (str "Error while trying to get state links: " ++ exn_str e) ;;
      ret state_links in
    match wait_presence 10 ById (str "chamber-finder-js") s with
    | (s1, Raise e) => on_error e state_links s1
    | (s1, Ok container) =>
        match find_elements (Some container) ByTagName (str "a") s1 with
        | (s2, Raise e) => on_error e state_links s2
        | (s2, Ok links) =>
            match for_acc links state_link state_links s2 with
            | (s3, (state_links, Ok _)) => (s3, Ok state_links)
            | (s3, (state_links, Raise e)) => on_error e state_links s3
            end
        end
    end.

(** [item.find_element(By.TAG_NAME, "h3").text.strip()] *)
Definition heading_text (item : Elem B) : M B pystr :=
  h <- find_element item ByTagName (str "h3") ;;
  t <- text h ;;
  ret (strip t).

Definition chamber_name (item : Elem B) : M B pystr :=
  try_except (heading_text item) (fun _ => ret (str "N/A")).

(** [item.find_element(By.CSS_SELECTOR, ".chamber-finder__address").text.strip()] *)
Definition address_text (item : Elem B) : M B pystr :=
  a <- find_element item ByCssSelector (str ".chamber-finder__address") ;;
  t <- text a ;;
  ret (strip t).

Definition chamber_address (item : Elem B) : M B pystr :=
  try_except (address_text item) (fun _ => ret (str "N/A")).

(** [for a in links: ... break] with [website] as its result. *)
Fixpoint first_external (links : list (Elem B)) : M B (option pystr) :=
  match links with
  | [] => ret None
  | a :: rest =>
      href <- get_attribute a (str "href") ;;
      match href with
      | Some h =>
          if truthy h && startswith (str "http") h
             && negb (contains BASE_URL h)
          then ret (Some h)
          else first_external rest
      | None => first_external rest
      end
  end.

Definition chamber_website (item : Elem B) : M B (option pystr) :=
  try_except
    (links <- find_elements (Some item) ByTagName (str "a") ;;
     first_external links)
    (fun _ => ret None).

(** The body of [for item in chamber_items]. *)
Definition chamber (item : Elem B) (chambers : list pyval)
    : M B (list pyval) :=
  name <- chamber_name item ;;
  address <- chamber_address item ;;
  website <- chamber_website item ;;
  ret (chambers ++ [VDict [(str "name", VStr name);
                           (str "address", VStr address);
                           (str "website", opt_val website)]]).

Definition scrape_state (state_name state_url : pystr) : M B (list pyval) :=
  print ([LF] ++ str "Scraping state: " ++ state_name
         ++ [LF] ++ str "URL: " ++ state_url) ;;
  driver_get state_url ;;
  fun s =>
    match wait_presence_all 10 ByCssSelector
            (str ".chamber-finder__content") s with
    | (s1, Raise e) =>
        (print (str "Timed out waiting for chamber items on " ++ state_name
                ++ str ": " ++ exn_str e) ;;
         ret []) s1
    | (s1, Ok _) =>
        (sleep 2 ;;
         fun s2 =>
           let chambers : list pyval := [] in
           let on_error (e : exn) (chambers : list pyval) :=
             print (str "Error scraping chambers for " ++ state_name
                    ++ str ": " ++ exn_str e) ;;
             ret chambers in
           match find_elements None ByCssSelector
                   (str ".chamber-finder__content") s2 with
           | (s3, Raise e) => on_error e chambers s3
           | (s3, Ok chamber_items) =>
               match for_acc chamber_items chamber chambers s3 with
               | (s4, (chambers, Ok _)) => (s4, Ok chambers)
               | (s4, (chambers, Raise e)) => on_error e chambers s4
               end
           end) s1
    end.

Definition save_state_data (state_name : pystr) (chambers : list pyval)
    : M B unit :=
  safe_state_name <- lift_result (sanitize_filename state_name) ;;
  let output_data := VDict [(state_name, VList chambers)] in
  let filename := safe_state_name ++ str ".json" in
  write_file filename (json_encode 0 output_data) ;;
  print (str "Saved data for " ++ state_name ++ str " in " ++ filename).

(** The body of [for state_name, state_url in state_links.items()]. *)
Definition main_state (kv : pystr * pystr) : M B unit :=
  match kv with
  | (state_name, state_url) =>
      chambers <- scrape_state state_name state_url ;;
      save_state_data state_name chambers
  end.

Definition main : M B unit :=
  Chrome [str "--headless"; str "--disable-gpu"] ;;
  driver_get MAIN_PAGE ;;
  sleep 3 ;;
  state_links <- get_state_links ;;
  if dict_is_empty state_links then
    print (str "No state links found. Please verify the page structure.") ;;
    driver_quit
  else
    let output_dir := str "chambers_by_state" in
    present <- path_exists output_dir ;;
    (if negb present then makedirs output_dir else ret tt) ;;
    chdir output_dir ;;
    for_each state_links main_state ;;
    driver_quit.
End WithBrowser.

End Scraping.

(** ** The script [scrapping.py] *)

Module Scrapping.

Definition BASE_URL : pystr := str "https://www.uschamber.com".
Definition MAIN_PAGE : pystr := BASE_URL ++ str "/co/chambers".

Definition sanitize_filename (name : pystr) : result pystr :=
  let name := strip name in
  match (if contains [LF] name then index0 (split LF name) else Ok name) with
  | Raise e => Raise e
  | Ok name =>
      (* the class: backslash / * ? : double-quote < > | *)
      Ok (re_sub_class [92; 47; 42; 63; 58; 34; 60; 62; 124]%N (str "_") name)
  end.

Section WithBrowser.
Variable B : Browser.
Local Open Scope py_scope.

(** The body of [for link in links]. *)
Definition state_link (link : Elem B) (state_links : dict pystr)
    : M B (dict pystr) :=
  href <- get_attribute link (str "href") ;;
  t <- text link ;;
  let state_name := strip t in
  match href with
  | Some h =>
      if truthy h && truthy state_name
         && contains (str "/co/chambers/") h
         && negb (str_eqb h MAIN_PAGE)
      then ret (dict_set state_links state_name h)
      else ret state_links
  | None => ret state_links
  end.

Definition get_state_links : M B (dict pystr) :=
  fun s =>
    let state_links : dict pystr := [] in
    let on_error (e : exn) (state_links : dict pystr) : M B (dict pystr) :=
      print (str "Error while trying to get state links: " ++ exn_str e) ;;
      ret state_links in
    match wait_presence 10 ById (str "chamber-finder-js") s with
    | (s1, Raise e) => on_error e state_links s1
    | (s1, Ok container) =>
        match find_elements (Some container) ByTagName (str "a") s1 with
        | (s2, Raise e) => on_error e state_links s2
        | (s2, Ok links) =>
            match for_acc links state_link state_links s2 with
            | (s3, (state_links, Ok _)) => (s3, Ok state_links)
            | (s3, (state_links, Raise e)) => on_error e state_links s3
            end
        end
    end.

(** [item.find_element(By.TAG_NAME, "h3").text.strip()] *)
Definition heading_text (item : Elem B) : M B pystr :=
  h <- find_element item ByTagName (str "h3") ;;
  t <- text h ;;
  ret (strip t).

Definition chamber_name (item : Elem B) : M B pystr :=
  try_except (heading_text item) (fun _ => ret (str "N/A")).

(** [item.find_element(By.CSS_SELECTOR, ".chamber-finder__address").text.strip()] *)
Definition address_text (item : Elem B) : M B pystr :=
  a <- find_element item ByCssSelector (str ".chamber-finder__address") ;;
  t <- text a ;;
  ret (strip t).

Definition chamber_address (item : Elem B) : M B pystr :=
  try_except (address_text item) (fun _ => ret (str "N/A")).

(** [for a in links: ... break] with [website] as its result. *)
Fixpoint first_external (links : list (Elem B)) : M B (option pystr) :=
  match links with
  | [] => ret None
  | a :: rest =>
      href <- get_attribute a (str "href") ;;
      match href with
      | Some h =>
          if truthy h && startswith (str "http") h
             && negb (contains BASE_URL h)
          then ret (Some h)
          else first_external rest
      | None => first_external rest
      end
  end.

Definition chamber_website (item : Elem B) : M B (option pystr) :=
  try_except
    (links <- find_elements (Some item) ByTagName (str "a") ;;
     first_external links)
    (fun _ => ret None).

(** The body of [for item in chamber_items]. *)
Definition chamber (item : Elem B) (chambers : list pyval)
    : M B (list pyval) :=
  name <- chamber_name item ;;
  address <- chamber_address item ;;
  website <- chamber_website item ;;
  ret (chambers ++ [VDict [(str "name", VStr name);
                           (str "address", VStr address);
                           (str "website", opt_val website)]]).

Definition scrape_state (state_name state_url : pystr) : M B (list pyval) :=
  print ([LF] ++ str "Scraping state: " ++ state_name
         ++ [LF] ++ str "URL: " ++ state_url) ;;
  driver_get state_url ;;
  fun s =>
    match wait_presence_all 10 ByCssSelector
            (str ".chamber-finder__content") s with
    | (s1, Raise e) =>
        (print (str "Timed out waiting for chamber items on " ++ state_name
                ++ str ": " ++ exn_str e) ;;
         ret []) s1
    | (s1, Ok _) =>
        (sleep 2 ;;
         fun s2 =>
           let chambers : list pyval := [] in
           let on_error (e : exn) (chambers : list pyval) :=
             print (str "Error scraping chambers for " ++ state_name
                    ++ str ": " ++ exn_str e) ;;
             ret chambers in
           match find_elements None ByCssSelector
                   (str ".chamber-finder__content") s2 with
           | (s3, Raise e) => on_error e chambers s3
           | (s3, Ok chamber_items) =>
               match for_acc chamber_items chamber chambers s3 with
               | (s4, (chambers, Ok _)) => (s4, Ok chambers)
               | (s4, (chambers, Raise e)) => on_error e chambers s4
               end
           end) s1
    end.

Definition save_state_data (state_name : pystr) (chambers : list pyval)
    : M B unit :=
  safe_state_name <- lift_result (sanitize_filename state_name) ;;
  let output_data := VDict [(state_name, VList chambers)] in
  let filename := safe_state_name ++ str ".json" in
  write_file filename (json_encode 0 output_data) ;;
  print (str "Saved data for " ++ state_name ++ str " in " ++ filename).

(** The body of [for state_name, state_url in state_links.items()]. *)
Definition main_state (kv : pystr * pystr) : M B unit :=
  match kv with
  | (state_name, state_url) =>
      chambers <- scrape_state state_name state_url ;;
      save_state_data state_name chambers
  end.

Definition main : M B unit :=
  Chrome [str "--headless"; str "--disable-gpu"] ;;
  driver_get MAIN_PAGE ;;
  sleep 3 ;;
  state_links <- get_state_links ;;
  if dict_is_empty state_links then
    print (str "No state links found. Please verify the page structure.") ;;
    driver_quit
  else
    let output_dir := str "chambers_by_state" in
    present <- path_exists output_dir ;;
    (if negb present then makedirs output_dir else ret tt) ;;
    chdir output_dir ;;
    for_each state_links main_state ;;
    driver_quit.
End WithBrowser.

End Scrapping.

(** ** A browser over a fixed site, for concrete runs

    A page shows the anchors of the state list (when its container is
    there) and the cards of the chambers; nothing ever goes stale. *)

Module Fixture.

Record Card : Type := {
  card_heading : option pystr;
  card_address : option pystr;
  card_hrefs : list (option pystr)
}.

Record Page : Type := {
  page_links : option (list (option pystr * pystr));
  page_cards : list Card
}.

Inductive Node : Type :=
| NContainer (links : list (option pystr * pystr))
| NAnchor (href : option pystr) (label : pystr)
| NCard (c : Card)
| NText (t : pystr).

Definition timeout : exn := Exception TimeoutException (str "Message: ").
Definition missing : exn :=
  Exception NoSuchElementException (str "Message: no such element").

Section Site.
Variable site : pystr -> Page.

Definition wait_one (t : N) (by_ : By) (sel url : pystr)
    : pystr * result Node :=
  match by_, page_links (site url) with
  | ById, Some l =>
      if str_eqb sel (str "chamber-finder-js") then (url, Ok (NContainer l))
      else (url, Raise timeout)
  | _, _ => (url, Raise timeout)
  end.

Definition cards (by_ : By) (sel url : pystr) : list Node :=
  match by_ with
  | ByCssSelector =>
      if str_eqb sel (str ".chamber-finder__content")
      then List.map NCard (page_cards (site url)) else []
  | _ => []
  end.

Definition wait_all (t : N) (by_ : By) (sel url : pystr)
    : pystr * result (list Node) :=
  match cards by_ sel url with
  | [] => (url, Raise timeout)
  | l => (url, Ok l)
  end.

Definition all_in (scope : option Node) (by_ : By) (sel url : pystr)
    : pystr * result (list Node) :=
  match scope, by_ with
  | None, _ => (url, Ok (cards by_ sel url))
  | Some (NContainer l), ByTagName =>
      if str_eqb sel (str "a")
      then (url, Ok (List.map (fun p => NAnchor (fst p) (snd p)) l))
      else (url, Ok [])
  | Some (NCard c), ByTagName =>
      if str_eqb sel (str "a")
      then (url, Ok (List.map (fun h => NAnchor h []) (card_hrefs c)))
      else (url, Ok [])
  | _, _ => (url, Ok [])
  end.

Definition one_in (scope : Node) (by_ : By) (sel url : pystr)
    : pystr * result Node :=
  let found (o : option pystr) :=
    match o with
    | Some t => (url, Ok (NText t))
    | None => (url, Raise missing)
    end in
  match scope, by_ with
  | NCard c, ByTagName =>
      if str_eqb sel (str "h3") then found (card_heading c)
      else (url, Raise missing)
  | NCard c, ByCssSelector =>
      if str_eqb sel (str ".chamber-finder__address")
      then found (card_address c)
      else (url, Raise missing)
  | _, _ => (url, Raise missing)
  end.

Definition attribute (el : Node) (name url : pystr)
    : pystr * result (option pystr) :=
  match el with
  | NAnchor h _ => if str_eqb name (str "href") then (url, Ok h)
                   else (url, Ok None)
  | _ => (url, Ok None)
  end.

Definition text_of (el : Node) (url : pystr) : pystr * result pystr :=
  match el with
  | NAnchor _ l => (url, Ok l)
  | NText t => (url, Ok t)
  | _ => (url, Ok [])
  end.

Definition browser : Browser := {|
  World := pystr;
  Elem := Node;
  b_chrome := fun _ url => (url, Ok tt);
  b_get := fun url _ => (url, Ok tt);
  b_wait_presence := wait_one;
  b_wait_presence_all := wait_all;
  b_find_elements := all_in;
  b_find_element := one_in;
  b_get_attribute := attribute;
  b_text := text_of;
  b_quit := fun url => (url, Ok tt)
|}.

(** On the page [url], nothing printed, an empty directory. *)
Definition on_page (url : pystr) (refuse : pystr -> bool) : State browser := {|
  world := (url : World browser);
  trace := [];
  stdout := [];
  fs := {| cwd := str "/work"; dirs := [str "/work"]; files := [];
           deny := refuse |}
|}.

(** Before the run: no page, nothing printed, an empty directory. *)
Definition start (refuse : pystr -> bool) : State browser := {|
  world := ([] : World browser);
  trace := [];
  stdout := [];
  fs := {| cwd := str "/work"; dirs := [str "/work"]; files := [];
           deny := refuse |}
|}.
End Site.

Definition texas_url : pystr := str "https://www.uschamber.com/co/chambers/texas".
Definition ohio_url : pystr := str "https://www.uschamber.com/co/chambers/ohio".

Definition austin : Card := {|
  card_heading := Some (str "Austin Chamber");
  card_address := Some (str "123 Main St");
  card_hrefs := [None; Some (str "https://www.uschamber.com/co");
                 Some (str "https://austinchamber.org")]
|}.

(** A card without heading and without address. *)
Definition bare : Card := {|
  card_heading := None; card_address := None; card_hrefs := []
|}.

Definition no_page : Page := {| page_links := None; page_cards := [] |}.

(** The index lists Texas and Ohio (and itself); the Texas page has two
    cards; the Ohio page never shows one. *)
Definition site (url : pystr) : Page :=
  if str_eqb url Scraping.MAIN_PAGE then
    {| page_links := Some [(Some Scraping.MAIN_PAGE, str "All states");
                           (Some texas_url, str " Texas ");
                           (Some ohio_url, str "Ohio");
                           (None, str "Top")];
       page_cards := [] |}
  else if str_eqb url texas_url then
    {| page_links := None; page_cards := [austin; bare] |}
  else no_page.

Definition permissive (_ : pystr) : bool := false.

End Fixture.


(** ** What a run reads from the page

    The attributes and texts the browser hands out depend on the moment
    they are asked for.  These two loops ask for them in the order the
    scripts do and keep what came back, up to the first call that raised. *)

Section Reads.
Variable B : Browser.
Local Open Scope py_scope.

(** The [href] and the text of each anchor in turn. *)
Definition read_anchors (links : list (Elem B))
    : State B -> State B * (list (option pystr * pystr) * result unit) :=
  for_acc links
    (fun a acc =>
       href <- get_attribute a (str "href") ;;
       t <- text a ;;
       ret (acc ++ [(href, t)]))
    [].

(** The [href] of each anchor in turn. *)
Definition read_hrefs (links : list (Elem B))
    : State B -> State B * (list (option pystr) * result unit) :=
  for_acc links
    (fun a acc =>
       href <- get_attribute a (str "href") ;;
       ret (acc ++ [href]))
    [].
End Reads.

(** ** The words of the specification *)

(** An anchor of the index that leads to a state page: its [href] is
    there and not empty, its trimmed text is not empty, the [href] holds
    the path of the state pages and is not the index itself. *)
Definition region_link (href : option pystr) (label : pystr) (h : pystr) : Prop :=
  href = Some h /\ h <> [] /\ strip label <> []
  /\ contains (str "/co/chambers/") h = true
  /\ h <> Scraping.MAIN_PAGE.

(** The test of [scrape_state] on an [href], as the code has it: the
    [href] is not empty, it starts with the four letters [http], and the
    text of [BASE_URL] occurs nowhere in it. *)
Definition external (h : pystr) : Prop :=
  h <> []
  /\ startswith (str "http") h = true
  /\ contains Scraping.BASE_URL h = false.

(** No external [href] among these. *)
Definition none_external (hrefs : list (option pystr)) : Prop :=
  Forall (fun o => forall x, o = Some x -> ~ external x) hrefs.

(** The record of one chamber. *)
Definition listing (name address : pystr) (website : pyval) : pyval :=
  VDict [(str "name", VStr name); (str "address", VStr address);
         (str "website", website)].

(** A record as Region Extraction returns them. *)
Definition is_listing (v : pyval) : Prop :=
  exists name address website,
    v = listing name address website
    /\ (website = VNone
        \/ exists h, website = VStr h /\ startswith (str "http") h = true).

(** The anchor [p] qualifies, shows the name [k] and leads to [h]. *)
Definition names (k h : pystr) (p : option pystr * pystr) : Prop :=
  region_link (fst p) (snd p) h /\ strip (snd p) = k.

(** A string [json] hands back unchanged: code points of Unicode, and
    no high surrogate right before a low one (the encoder writes such a
    pair as the decoder reads one character beyond the basic plane). *)
Fixpoint text_ok (s : pystr) : bool :=
  match s with
  | [] => true
  | c :: t =>
      (c <? 1114112)%N
      && negb (is_high_surrogate c
               && match t with c' :: _ => is_low_surrogate c' | [] => false end)
      && text_ok t
  end.

(** A record whose strings [json] hands back unchanged. *)
Definition listing_ok (v : pyval) : Prop :=
  exists name address website,
    v = listing name address website
    /\ text_ok name = true /\ text_ok address = true
    /\ (website = VNone \/ exists h, website = VStr h /\ text_ok h = true).

(** ** Auxiliary definitions of the proofs *)

(** The boolean test of the scripts for an external [href]. *)
Definition is_external (h : pystr) : bool :=
  truthy h && startswith (str "http") h && negb (contains Scraping.BASE_URL h).

(** The first external [href] of a sequence, if any. *)
Fixpoint find_external (hrefs : list (option pystr)) : option pystr :=
  match hrefs with
  | [] => None
  | Some h :: rest => if is_external h then Some h else find_external rest
  | None :: rest => find_external rest
  end.

(** The boolean test of the scripts for the anchor of a state page. *)
Definition is_region_link (h label : pystr) : bool :=
  truthy h && truthy (strip label)
  && contains (str "/co/chambers/") h
  && negb (str_eqb h Scraping.MAIN_PAGE).

(** One anchor read from the index, entered in the mapping. *)
Definition add_link (d : dict pystr) (p : option pystr * pystr) : dict pystr :=
  match fst p with
  | Some h => if is_region_link h (snd p) then dict_set d (strip (snd p)) h
              else d
  | None => d
  end.

(** The [href] of the last qualifying anchor of the display name [k]. *)
Fixpoint last_named (k : pystr) (ps : list (option pystr * pystr))
    : option pystr :=
  match ps with
  | [] => None
  | p :: rest =>
      match last_named k rest with
      | Some h => Some h
      | None =>
          match fst p with
          | Some h => if is_region_link h (snd p) && str_eqb (strip (snd p)) k
                      then Some h else None
          | None => None
          end
      end
  end.

(** A string that does not start with white space. *)
Definition head_ok (s : pystr) : Prop :=
  match s with [] => True | c :: _ => isspace c = false end.

(** The input starts with the escape of a low surrogate (or with an
    escape [u] that is no number). *)
Definition low_escape (s : pystr) : bool :=
  match s with
  | b1 :: u1 :: a2 :: b2 :: c2 :: d2 :: _ =>
      (b1 =? 92)%N && (u1 =? 117)%N
      && match decode_uXXXX a2 b2 c2 d2 with
         | Some uni2 => is_low_surrogate uni2
         | None => true
         end
  | _ => false
  end.

(** The text of [v] at the nesting level [lvl] is read back as [v] by
    [scan_once] with fuel [b] or more, whatever follows it. *)
Definition parses (b lvl : nat) (v : pyval) : Prop :=
  forall f rest, b <= f -> scan_once f (json_encode lvl v ++ rest) = Some (v, rest).

(** How the encoder writes one character. *)
Inductive escaped (c : N) : pystr -> Prop :=
| esc_short e : (e =? 117)%N = false -> unescape e = Some c ->
                escaped c [92%N; e]
| esc_plain : (c =? 34)%N = false -> (c =? 92)%N = false ->
              (c <? 32)%N = false -> escaped c [c]
| esc_u : (c < 65536)%N -> escaped c (u_escape c)
| esc_pair hi lo :
    (hi < 65536)%N -> (lo < 65536)%N ->
    is_high_surrogate hi = true -> is_low_surrogate hi = false ->
    is_low_surrogate lo = true ->
    (65536 + N.lor (N.shiftl (hi - 55296) 10) (lo - 56320))%N = c ->
    escaped c (u_escape hi ++ u_escape lo).

(** One member of an object, as [json_encode] writes it at level [lvl]. *)
Definition member_text (lvl : nat) (kv : pystr * pyval) : pystr :=
  match kv with
  | (k, x) => encode_basestring_ascii k ++ str ": " ++ json_encode (S lvl) x
  end.

(** The separator of the items at level [lvl]. *)
Definition item_sep (lvl : nat) : pystr := str "," ++ newline_indent lvl.

(** What a guarded lookup leaves in its field. *)
Definition or_sentinel (r : result pystr) : pystr :=
  match r with Ok x => x | Raise _ => str "N/A" end.

(** ** The sanitizer as the specification words it *)

(** The text before the first [c] (all of it when there is none). *)
Fixpoint before (c : N) (s : pystr) : pystr :=
  match s with
  | [] => []
  | x :: t => if (x =? c)%N then [] else x :: before c t
  end.

Definition has_line_break (s : pystr) : bool := existsb (N.eqb LF) s.

Definition is_forbidden (c : N) : bool :=
  existsb (N.eqb c) [92; 47; 42; 63; 58; 34; 60; 62; 124]%N.

(** One character, replaced by an underscore when it is forbidden. *)
Definition underscore (c : N) : N := if is_forbidden c then 95%N else c.

Definition sanitize_spec (s : pystr) : pystr :=
  let t := strip s in
  let t := if has_line_break t then before LF t else t in
  List.map underscore t.

(** ** What the browser is asked to do *)

(** A call that neither starts nor quits the browser. *)
Definition in_session {E} (ev : Event E) : bool :=
  match ev with
  | EChrome _ | EQuit => false
  | _ => true
  end.

(** A call that looks at the page shown: it neither starts nor quits the
    browser, nor sends it elsewhere. *)
Definition on_page {E} (ev : Event E) : bool :=
  match ev with
  | EChrome _ | EQuit | EGet _ => false
  | _ => true
  end.

(** The addresses the browser was sent to, in order. *)
Fixpoint navigations {E} (tr : list (Event E)) : list pystr :=
  match tr with
  | [] => []
  | EGet url :: rest => url :: navigations rest
  | _ :: rest => navigations rest
  end.

(** From [s] to [s'] the file system is left alone and the browser is
    only asked about the page it shows. *)
Definition page_run {B} (s s' : State B) : Prop :=
  fs s' = fs s
  /\ exists evs, trace s' = trace s ++ evs /\ forallb on_page evs = true.

(** A computation all of whose runs are such. *)
Definition paged {B A} (c : M B A) : Prop :=
  forall s s' r, c s = (s', r) -> page_run s s'.

(** An entry of the mapping of Link Discovery as the code lets it in. *)
Definition link_entry (kv : pystr * pystr) : Prop :=
  fst kv <> [] /\ strip (fst kv) = fst kv
  /\ snd kv <> []
  /\ contains (str "/co/chambers/") (snd kv) = true
  /\ snd kv <> Scraping.MAIN_PAGE.

(** A record of Region Extraction as the code builds it: trimmed name and
    address, and a website that is [None] or an external address. *)
Definition record (v : pyval) : Prop :=
  exists name address website,
    v = listing name address website
    /\ strip name = name /\ strip address = address
    /\ (website = VNone \/ exists h, website = VStr h /\ external h).

(** The file [save_state_data] writes for a display name, seen from the
    file system [f]. *)
Definition state_file (f : FS) (state_name : pystr) : pystr :=
  abspath f (sanitize_spec state_name ++ str ".json").

(** The text [save_state_data] writes. *)
Definition state_text (state_name : pystr) (chambers : list pyval) : pystr :=
  json_encode 0 (VDict [(state_name, VList chambers)]).

(** The first three statements of [main]: start the browser, load the
    index, let it settle. *)
Definition startup {B} : M B unit :=
  bind (Chrome [str "--headless"; str "--disable-gpu"])
    (fun _ => bind (driver_get Scraping.MAIN_PAGE) (fun _ => sleep 3)).

(** What [main] does with the mapping of Link Discovery: the rest of its
    body. *)
Definition discovered {B} (state_links : dict pystr) : M B unit :=
  if dict_is_empty state_links then
    bind (print (str "No state links found. Please verify the page structure."))
      (fun _ => driver_quit)
  else
    bind (path_exists (str "chambers_by_state"))
      (fun present =>
         bind (if negb present then makedirs (str "chambers_by_state")
               else ret tt)
           (fun _ =>
              bind (chdir (str "chambers_by_state"))
                (fun _ =>
                   bind (for_each state_links (Scraping.main_state (B:=B)))
                     (fun _ => driver_quit)))).

(** ** A browser with outages, for concrete runs

    The browser of the fixture, except that navigation fails when
    [no_network] is set and that the enumeration of the containers of a
    page fails when [stale] is set. *)

Module Outage.

Definition unreachable : exn :=
  Exception WebDriverException (str "Message: unknown error: net::ERR_NAME_NOT_RESOLVED").
Definition gone : exn :=
  Exception StaleElementReferenceException (str "Message: stale element reference").

Definition browser (no_network stale : bool) : Browser := {|
  World := pystr;
  Elem := Fixture.Node;
  b_chrome := fun _ url => (url, Ok tt);
  b_get := fun url old => if no_network then (old, Raise unreachable)
                          else (url, Ok tt);
  b_wait_presence := Fixture.wait_one Fixture.site;
  b_wait_presence_all := Fixture.wait_all Fixture.site;
  b_find_elements :=
    fun scope by_ sel url =>
      match scope with
      | None => if stale then (url, Raise gone)
                else Fixture.all_in Fixture.site scope by_ sel url
      | Some _ => Fixture.all_in Fixture.site scope by_ sel url
      end;
  b_find_element := Fixture.one_in;
  b_get_attribute := Fixture.attribute;
  b_text := Fixture.text_of;
  b_quit := fun url => (url, Ok tt)
|}.

(** On the page [url], nothing printed, an empty directory. *)
Definition on_page (no_network stale : bool) (url : pystr)
    : State (browser no_network stale) := {|
  world := (url : World (browser no_network stale));
  trace := [];
  stdout := [];
  fs := {| cwd := str "/work"; dirs := [str "/work"]; files := [];
           deny := Fixture.permissive |}
|}.

End Outage.

(** ** The words of the specification on external websites *)

(** What follows the first [://] of an address (nothing when there is
    none). *)
Fixpoint after_scheme (s : pystr) : pystr :=
  match s with
  | [] => []
  | _ :: t => if startswith (str "://") s then skipn 3 s else after_scheme t
  end.

(** The text up to the first [/], [?] or [#]. *)
Fixpoint authority (s : pystr) : pystr :=
  match s with
  | [] => []
  | c :: t => if ((c =? 47) || (c =? 63) || (c =? 35))%N then []
              else c :: authority t
  end.

(** The host an address names. *)
Definition host (url : pystr) : pystr := authority (after_scheme url).

(** The address starts with an HTTP scheme. *)
Definition http_scheme (h : pystr) : bool :=
  startswith (str "http://") h || startswith (str "https://") h.

(** The address belongs to the site's own base domain: its host is the
    host of [BASE_URL]. *)
Definition own_domain (h : pystr) : bool :=
  str_eqb (host h) (host Scraping.BASE_URL).

(** Three cards for these words: one whose only link stays on the site
    over plain [http], one whose only link has a scheme of its own, one
    whose only link leaves the site and names the site in its query. *)
Definition own_http_card : Fixture.Card := {|
  Fixture.card_heading := Some (str "About");
  Fixture.card_address := Some (str "1615 H St");
  Fixture.card_hrefs := [Some (str "http://www.uschamber.com/about")]
|}.

Definition odd_scheme_card : Fixture.Card := {|
  Fixture.card_heading := Some (str "Members");
  Fixture.card_address := Some (str "2 High St");
  Fixture.card_hrefs := [Some (str "httpx://members.example.org")]
|}.

Definition referral_card : Fixture.Card := {|
  Fixture.card_heading := Some (str "X Chamber");
  Fixture.card_address := Some (str "1 X St");
  Fixture.card_hrefs := [Some (str "https://x.org/?ref=https://www.uschamber.com")]
|}.

(** ** The orchestrator around a state that times out *)

(** The state [scrape_state] returns in when the page loaded and the
    wait for a container raised [e]: the browser in the world [w] the
    wait left, the navigation and the wait recorded, two lines printed. *)
Definition timed_out {B} (s : State B) (state_name state_url : pystr)
    (w : World B) (e : exn) : State B :=
  {| world := w;
     trace := trace s ++ [EGet state_url;
                          EWaitPresenceAll 10 ByCssSelector
                            (str ".chamber-finder__content")];
     stdout := stdout s
               ++ [[LF] ++ str "Scraping state: " ++ state_name
                   ++ [LF] ++ str "URL: " ++ state_url;
                   str "Timed out waiting for chamber items on "
                   ++ state_name ++ str ": " ++ exn_str e];
     fs := fs s |}.

(** The statements of [main] that make and enter the output directory. *)
Definition output_dir_setup {B} : M B unit :=
  bind (path_exists (str "chambers_by_state"))
    (fun present =>
       bind (if negb present then makedirs (str "chambers_by_state")
             else ret tt)
         (fun _ => chdir (str "chambers_by_state"))).

(** An index that lists Ohio, whose page never shows a container, before
    Texas. *)
Definition ohio_first (url : pystr) : Fixture.Page :=
  if str_eqb url Scraping.MAIN_PAGE then
    {| Fixture.page_links := Some [(Some Fixture.ohio_url, str "Ohio");
                                   (Some Fixture.texas_url, str "Texas")];
       Fixture.page_cards := [] |}
  else Fixture.site url.

(** * Properties *)

Unset Implicit Arguments.

(** ** The model on concrete inputs *)

Example strip_unicode :
  strip ([160; 32]%N ++ str "Guam" ++ [12288; 10]%N) = str "Guam".
Proof. reflexivity. Qed.

Example sanitize_trims : Scraping.sanitize_filename (str "  New Mexico ") = Ok (str "New Mexico").
Proof. reflexivity. Qed.

Example sanitize_replaces :
  Scraping.sanitize_filename (str "a/b:c*d?e" ++ [34%N] ++ str "f<g>h|i\j")
  = Ok (str "a_b_c_d_e_f_g_h_i_j").
Proof. reflexivity. Qed.

Example sanitize_first_line :
  Scraping.sanitize_filename (str "x" ++ [13; 10]%N ++ str "y") = Ok [120; 13]%N.
Proof. reflexivity. Qed.

Example sanitize_blank : Scraping.sanitize_filename [32; 10; 32]%N = Ok [].
Proof. reflexivity. Qed.

Example encode_empty_region :
  json_encode 0 (VDict [(str "Ohio", VList [])])
  = str "{" ++ [LF] ++ str "    " ++ [34%N] ++ str "Ohio" ++ [34%N] ++ str ": []"
    ++ [LF] ++ str "}".
Proof. reflexivity. Qed.

Example encode_region :
  let q := [34%N] in
  json_encode 0
    (VDict [(str "Texas",
             VList [listing (str "Austin Chamber") (str "123 Main St")
                      (VStr (str "https://austinchamber.org"))])])
  = str "{" ++ [LF]
    ++ str "    " ++ q ++ str "Texas" ++ q ++ str ": [" ++ [LF]
    ++ str "        {" ++ [LF]
    ++ str "            " ++ q ++ str "name" ++ q ++ str ": "
    ++ q ++ str "Austin Chamber" ++ q ++ str "," ++ [LF]
    ++ str "            " ++ q ++ str "address" ++ q ++ str ": "
    ++ q ++ str "123 Main St" ++ q ++ str "," ++ [LF]
    ++ str "            " ++ q ++ str "website" ++ q ++ str ": "
    ++ q ++ str "https://austinchamber.org" ++ q ++ [LF]
    ++ str "        }" ++ [LF]
    ++ str "    ]" ++ [LF]
    ++ str "}".
Proof. reflexivity. Qed.

Example encode_escapes :
  encode_basestring_ascii [233; 128512; 34; 127; 9]%N
  = [34%N] ++ str "\u00e9\ud83d\ude00\" ++ [34%N] ++ str "\u007f\t" ++ [34%N].
Proof. reflexivity. Qed.

Example loads_empty_object_list :
  json_loads (str "{ } ") = Some (VDict [])
  /\ json_loads (str " [null, [ ], {}]") = Some (VList [VNone; VList []; VDict []]).
Proof. split; reflexivity. Qed.

(** The run on the fixture: two states found, two files written, the
    browser told to quit at the end. *)
Example run_on_fixture :
  let run := Scraping.main (Fixture.start Fixture.site Fixture.permissive) in
  snd run = Ok tt
  /\ List.map fst (files (fs (fst run)))
     = [str "/work/chambers_by_state/Texas.json";
        str "/work/chambers_by_state/Ohio.json"]
  /\ fs_read (fs (fst run)) (str "/work/chambers_by_state/Ohio.json")
     = Some (json_encode 0 (VDict [(str "Ohio", VList [])]))
  /\ last (trace (fst run)) (ESleep 0) = EQuit.
Proof. vm_compute. repeat split. Qed.

(** ** Strings *)

Lemma str_eqb_eq (a b : pystr) : str_eqb a b = true <-> a = b.
Proof.
  revert b. induction a as [|x a IH]; intros [|y b]; simpl; split;
    try congruence; try reflexivity.
  - intros H. apply andb_true_iff in H as [H1 H2].
    apply N.eqb_eq in H1. apply IH in H2. congruence.
  - intros H. injection H as -> ->. apply andb_true_iff. split.
    + apply N.eqb_refl.
    + now apply IH.
Qed.

Lemma str_eqb_refl (a : pystr) : str_eqb a a = true.
Proof. now apply str_eqb_eq. Qed.

Lemma str_eqb_neq (a b : pystr) : str_eqb a b = false <-> a <> b.
Proof.
  split.
  - intros H E. apply str_eqb_eq in E. congruence.
  - intros H. destruct (str_eqb a b) eqn:E; [|reflexivity].
    apply str_eqb_eq in E. contradiction.
Qed.

Lemma contains_char (c : N) (s : pystr) :
  contains [c] s = existsb (N.eqb c) s.
Proof.
  induction s as [|x s IH]; simpl; [reflexivity|].
  unfold chr_eqb. rewrite IH. now rewrite andb_true_r.
Qed.

Lemma split_head (c : N) (s : pystr) :
  index0 (split c s) = Ok (before c s).
Proof.
  induction s as [|x s IH]; simpl; [reflexivity|].
  unfold chr_eqb. destruct (x =? c)%N; [reflexivity|].
  destruct (split c s) as [|w ws]; simpl in *; congruence.
Qed.

Lemma re_sub_class_map (s : pystr) :
  re_sub_class [92; 47; 42; 63; 58; 34; 60; 62; 124]%N (str "_") s
  = List.map underscore s.
Proof.
  unfold re_sub_class. induction s as [|x s IH]; simpl; [reflexivity|].
  simpl in IH. rewrite IH. unfold underscore, is_forbidden, chr_eqb. simpl.
  now destruct (_ || _).
Qed.

Lemma forbidden_not_space (c : N) : is_forbidden c = true -> isspace c = false.
Proof.
  unfold is_forbidden. simpl. rewrite !orb_true_iff.
  intros H.
  repeat (destruct H as [H|H];
          [apply N.eqb_eq in H; subst; reflexivity|]).
  discriminate.
Qed.

Lemma isspace_underscore (c : N) : isspace (underscore c) = isspace c.
Proof.
  unfold underscore. destruct (is_forbidden c) eqn:E; [|reflexivity].
  now rewrite (forbidden_not_space _ E).
Qed.

Lemma underscore_idem (c : N) : underscore (underscore c) = underscore c.
Proof.
  unfold underscore. destruct (is_forbidden c) eqn:E.
  - reflexivity.
  - now rewrite E.
Qed.

Lemma underscore_LF (c : N) : (LF =? underscore c)%N = (LF =? c)%N.
Proof.
  unfold underscore. destruct (is_forbidden c) eqn:E; [|reflexivity].
  destruct (LF =? c)%N eqn:F; [|reflexivity].
  apply N.eqb_eq in F. subst c. discriminate.
Qed.

Lemma lstrip_map (s : pystr) :
  lstrip (List.map underscore s) = List.map underscore (lstrip s).
Proof.
  induction s as [|c s IH]; simpl; [reflexivity|].
  rewrite isspace_underscore. now destruct (isspace c).
Qed.

Lemma rstrip_map (s : pystr) :
  rstrip (List.map underscore s) = List.map underscore (rstrip s).
Proof.
  induction s as [|c s IH]; simpl; [reflexivity|].
  rewrite IH, isspace_underscore.
  destruct (rstrip s); simpl; [now destruct (isspace c)|reflexivity].
Qed.

Lemma strip_map (s : pystr) :
  strip (List.map underscore s) = List.map underscore (strip s).
Proof. unfold strip. now rewrite lstrip_map, rstrip_map. Qed.

Lemma lstrip_head_ok (s : pystr) : head_ok (lstrip s).
Proof.
  induction s as [|c s IH]; simpl; [exact I|].
  destruct (isspace c) eqn:E; [exact IH|exact E].
Qed.

Lemma lstrip_fixed (s : pystr) : head_ok s -> lstrip s = s.
Proof. destruct s as [|c s]; simpl; [reflexivity|]. now intros ->. Qed.

Lemma rstrip_head_ok (s : pystr) : head_ok s -> head_ok (rstrip s).
Proof.
  destruct s as [|c s]; simpl; [trivial|]. intros H.
  destruct (rstrip s); simpl; [now rewrite H|exact H].
Qed.

Lemma rstrip_idem (s : pystr) : rstrip (rstrip s) = rstrip s.
Proof.
  induction s as [|c s IH]; simpl; [reflexivity|].
  destruct (rstrip s) as [|x r] eqn:E.
  - destruct (isspace c) eqn:F; simpl; [reflexivity|now rewrite F].
  - change (rstrip (c :: x :: r)) with
      (match rstrip (x :: r) with
       | [] => if isspace c then [] else [c]
       | y :: r' => c :: y :: r'
       end).
    now rewrite IH.
Qed.

Lemma strip_idem (s : pystr) : strip (strip s) = strip s.
Proof.
  unfold strip.
  rewrite (lstrip_fixed _ (rstrip_head_ok _ (lstrip_head_ok s))).
  apply rstrip_idem.
Qed.

Lemma before_no_break (c : N) (s : pystr) :
  existsb (N.eqb c) (before c s) = false.
Proof.
  induction s as [|x s IH]; simpl; [reflexivity|].
  destruct (x =? c)%N eqn:E; simpl; [reflexivity|].
  now rewrite N.eqb_sym, E.
Qed.

Lemma lstrip_no_break (s : pystr) :
  has_line_break s = false -> has_line_break (lstrip s) = false.
Proof.
  unfold has_line_break. induction s as [|c s IH]; simpl; [trivial|].
  intros H. apply orb_false_iff in H as [H1 H2].
  destruct (isspace c); [auto|]. simpl. now rewrite H1, H2.
Qed.

Lemma rstrip_no_break (s : pystr) :
  has_line_break s = false -> has_line_break (rstrip s) = false.
Proof.
  unfold has_line_break. induction s as [|c s IH]; simpl; [trivial|].
  intros H. apply orb_false_iff in H as [H1 H2]. specialize (IH H2).
  destruct (rstrip s) as [|x r].
  - destruct (isspace c); simpl; [reflexivity|now rewrite H1].
  - simpl in *. now rewrite H1, IH.
Qed.

Lemma map_underscore_break (s : pystr) :
  has_line_break (List.map underscore s) = has_line_break s.
Proof.
  unfold has_line_break. induction s as [|c s IH]; [reflexivity|].
  cbn [existsb List.map]. now rewrite underscore_LF, IH.
Qed.

Lemma sanitize_filename_eq (s : pystr) :
  Scraping.sanitize_filename s = Ok (sanitize_spec s).
Proof.
  unfold Scraping.sanitize_filename, sanitize_spec.
  rewrite contains_char. fold (has_line_break (strip s)).
  destruct (has_line_break (strip s)).
  - rewrite split_head. now rewrite re_sub_class_map.
  - now rewrite re_sub_class_map.
Qed.

Lemma sanitize_spec_no_break (s : pystr) :
  has_line_break (sanitize_spec s) = false.
Proof.
  unfold sanitize_spec. rewrite map_underscore_break.
  destruct (has_line_break (strip s)) eqn:E; [|exact E].
  apply before_no_break.
Qed.

Lemma sanitize_spec_twice (s : pystr) :
  sanitize_spec (sanitize_spec s) = strip (sanitize_spec s).
Proof.
  assert (E : has_line_break (strip (sanitize_spec s)) = false)
    by exact (rstrip_no_break _ (lstrip_no_break _ (sanitize_spec_no_break s))).
  change (sanitize_spec (sanitize_spec s)) with
    (List.map underscore
       (if has_line_break (strip (sanitize_spec s))
        then before LF (strip (sanitize_spec s))
        else strip (sanitize_spec s))).
  rewrite E. unfold sanitize_spec. cbv zeta. rewrite strip_map, map_map.
  apply map_ext. intros c. apply underscore_idem.
Qed.

(** C2.  For every string, [sanitize_filename] returns (it never raises)
    the string obtained by trimming the white space at both ends, then
    keeping the text before the first line break when there is one, then
    replacing every \ / * ? : double-quote < > | by an underscore. *)
Theorem sanitize_filename_spec (s : pystr) :
  Scraping.sanitize_filename s
  = Ok (List.map underscore
          (if has_line_break (strip s) then before LF (strip s) else strip s)).
Proof.
  unfold Scraping.sanitize_filename.
  rewrite contains_char. fold (has_line_break (strip s)).
  destruct (has_line_break (strip s)).
  - rewrite split_head. now rewrite re_sub_class_map.
  - now rewrite re_sub_class_map.
Qed.

(** C3, as the code has it.  Sanitizing a sanitized name trims it once
    more and changes nothing else; a name whose trimmed form holds no
    line break is sanitized to a fixed point. *)
Theorem sanitize_filename_twice (s : pystr) :
  exists t,
    Scraping.sanitize_filename s = Ok t
    /\ Scraping.sanitize_filename t = Ok (strip t)
    /\ (contains [LF] (strip s) = false -> Scraping.sanitize_filename t = Ok t).
Proof.
  exists (sanitize_spec s). rewrite !sanitize_filename_eq. split; [reflexivity|].
  rewrite sanitize_spec_twice. split; [reflexivity|].
  rewrite contains_char. fold (has_line_break (strip s)). intros H.
  unfold sanitize_spec. rewrite H, strip_map, strip_idem. reflexivity.
Qed.

Lemma sanitize_filename_twice_witness :
  exists t,
    Scraping.sanitize_filename (str " New York ") = Ok t
    /\ Scraping.sanitize_filename t = Ok (strip t)
    /\ Scraping.sanitize_filename t = Ok t.
Proof.
  destruct (sanitize_filename_twice (str " New York ")) as (t & H1 & H2 & H3).
  exists t. split; [exact H1|]. split; [exact H2|].
  apply H3. reflexivity.
Defined.

(** C3 fails as stated: the first line of a trimmed name may end in white
    space, which the second pass removes. *)
Lemma sanitize_filename_not_idempotent :
  exists t u,
    Scraping.sanitize_filename [97; 32; 10; 98]%N = Ok t
    /\ Scraping.sanitize_filename t = Ok u
    /\ u <> t.
Proof.
  exists [97; 32]%N, [97]%N. repeat split; try reflexivity. discriminate.
Qed.

(** ** Loops *)

Lemma for_acc_invariant B X L (P : L -> Prop) (body : X -> L -> M B L) :
  (forall x l s s1 l1, P l -> body x l s = (s1, Ok l1) -> P l1) ->
  forall xs l s s' l' r,
    P l -> for_acc xs body l s = (s', (l', r)) -> P l'.
Proof.
  intros Hbody xs. induction xs as [|x xs IH]; intros l s s' l' r Hl H.
  - simpl in H. now injection H as <- <- <-.
  - simpl in H. destruct (body x l s) as [s1 [l1|e]] eqn:E.
    + eapply IH; [|exact H]. eapply Hbody; eauto.
    + now injection H as <- <- <-.
Qed.

(** ** Region Extraction: one chamber *)

Section Chamber.
Variable B : Browser.

Lemma truthy_true (h : pystr) : truthy h = true <-> h <> [].
Proof. destruct h; simpl; split; congruence. Qed.

Lemma is_external_iff (h : pystr) : is_external h = true <-> external h.
Proof.
  unfold is_external, external.
  rewrite !andb_true_iff, negb_true_iff, truthy_true. tauto.
Qed.

Lemma find_external_some (hrefs : list (option pystr)) (h : pystr) :
  find_external hrefs = Some h <->
  exists pre post,
    hrefs = pre ++ Some h :: post /\ external h /\ none_external pre.
Proof.
  unfold none_external. split.
  - induction hrefs as [|[x|] rest IH]; simpl; [discriminate| |].
    + destruct (is_external x) eqn:E.
      * intros [= ->]. exists [], rest.
        split; [reflexivity|]. split; [now apply is_external_iff|constructor].
      * intros H. destruct (IH H) as (pre & post & -> & H1 & H2).
        exists (Some x :: pre), post.
        split; [reflexivity|]. split; [exact H1|].
        constructor; [|exact H2]. intros y [= ->] Hy.
        apply is_external_iff in Hy. congruence.
    + intros H. destruct (IH H) as (pre & post & -> & H1 & H2).
      exists (None :: pre), post.
      split; [reflexivity|]. split; [exact H1|].
      constructor; [|exact H2]. discriminate.
  - intros (pre & post & -> & H1 & H2).
    induction H2 as [|o pre Ho _ IH]; simpl.
    + apply is_external_iff in H1. now rewrite H1.
    + destruct o as [x|]; [|exact IH].
      destruct (is_external x) eqn:E; [|exact IH].
      apply is_external_iff in E. now elim (Ho x).
Qed.

Lemma find_external_none (hrefs : list (option pystr)) :
  find_external hrefs = None <-> none_external hrefs.
Proof.
  unfold none_external. split.
  - induction hrefs as [|[x|] rest IH]; simpl; intros H.
    + constructor.
    + destruct (is_external x) eqn:E; [discriminate|].
      constructor; [|auto]. intros y [= ->] Hy.
      apply is_external_iff in Hy. congruence.
    + constructor; [|auto]. discriminate.
  - induction 1 as [|o rest Ho _ IH]; simpl; [reflexivity|].
    destruct o as [x|]; [|exact IH].
    destruct (is_external x) eqn:E; [|exact IH].
    apply is_external_iff in E. now elim (Ho x).
Qed.

Lemma first_external_cons (a : Elem B) (rest : list (Elem B)) (s : State B) :
  Scraping.first_external (a :: rest) s
  = match get_attribute a (str "href") s with
    | (s1, Ok (Some h)) =>
        if is_external h then (s1, Ok (Some h))
        else Scraping.first_external rest s1
    | (s1, Ok None) => Scraping.first_external rest s1
    | (s1, Raise e) => (s1, Raise e)
    end.
Proof.
  cbn [Scraping.first_external]. unfold bind at 1.
  destruct (get_attribute a (str "href") s) as [s1 [[h|]|e]];
    try reflexivity.
  unfold is_external. now destruct (_ && _ && _).
Qed.

(** The scan of the scripts finds what [find_external] finds among the
    [href]s that could be read; when a read raises first, it raises. *)
Lemma first_external_reads (links : list (Elem B)) :
  forall acc s s2 hrefs r,
    for_acc links
      (fun a acc => bind (get_attribute a (str "href"))
                      (fun href => ret (acc ++ [href]))) acc s
    = (s2, (hrefs, r)) ->
    exists hs s',
      hrefs = acc ++ hs
      /\ (Scraping.first_external links s = (s', Ok (find_external hs))
          \/ (find_external hs = None
              /\ exists e, Scraping.first_external links s = (s', Raise e))).
Proof.
  induction links as [|a rest IH]; intros acc s s2 hrefs r H.
  - cbn in H. injection H as <- <- <-. exists [], s.
    rewrite app_nil_r. split; [reflexivity|]. left. reflexivity.
  - cbn [for_acc] in H. unfold bind at 1 in H.
    rewrite first_external_cons.
    destruct (get_attribute a (str "href") s) as [s1 [href|e]] eqn:E.
    + unfold ret at 1 in H.
      apply IH in H as (hs & s' & -> & H).
      exists (href :: hs). rewrite <- app_assoc. cbn [app find_external].
      destruct href as [h|].
      * destruct (is_external h).
        -- exists s1. split; [reflexivity|]. left. reflexivity.
        -- exists s'. split; [reflexivity|]. exact H.
      * exists s'. split; [reflexivity|]. exact H.
    + injection H as <- <- <-. exists [], s1. rewrite app_nil_r.
      split; [reflexivity|]. right. split; [reflexivity|]. now exists e.
Qed.

Lemma chamber_website_reads (item : Elem B) (s s1 : State B) links :
  find_elements (Some item) ByTagName (str "a") s = (s1, Ok links) ->
  forall s2 hrefs r,
    read_hrefs links s1 = (s2, (hrefs, r)) ->
    exists s', Scraping.chamber_website item s = (s', Ok (find_external hrefs)).
Proof.
  intros Hf s2 hrefs r Hr.
  apply first_external_reads in Hr as (hs & s' & -> & H). simpl.
  unfold Scraping.chamber_website, try_except, bind. rewrite Hf.
  destruct H as [H|[Hn [e H]]]; rewrite H.
  - now exists s'.
  - exists s'. now rewrite Hn.
Qed.

Lemma chamber_website_fails (item : Elem B) (s s1 : State B) e :
  find_elements (Some item) ByTagName (str "a") s = (s1, Raise e) ->
  Scraping.chamber_website item s = (s1, Ok None).
Proof.
  intros Hf. unfold Scraping.chamber_website, try_except, bind.
  now rewrite Hf.
Qed.

Lemma first_external_http (links : list (Elem B)) :
  forall s s' h,
    Scraping.first_external links s = (s', Ok (Some h)) ->
    is_external h = true.
Proof.
  induction links as [|a rest IH]; intros s s' h.
  - discriminate.
  - rewrite first_external_cons.
    destruct (get_attribute a (str "href") s) as [s1 [[x|]|e]];
      [| |discriminate].
    + destruct (is_external x) eqn:E.
      * intros [= <- <-]. exact E.
      * apply IH.
    + apply IH.
Qed.

Lemma chamber_website_total (item : Elem B) (s : State B) :
  exists s' w,
    Scraping.chamber_website item s = (s', Ok w)
    /\ (w = None \/ exists h, w = Some h /\ is_external h = true).
Proof.
  unfold Scraping.chamber_website, try_except, bind.
  destruct (find_elements (Some item) ByTagName (str "a") s)
    as [s1 [links|e]].
  - destruct (Scraping.first_external links s1) as [s2 [[h|]|e]] eqn:E.
    + exists s2, (Some h). split; [reflexivity|]. right. exists h.
      split; [reflexivity|]. eapply first_external_http; eauto.
    + exists s2, None. auto.
    + exists s2, None. auto.
  - exists s1, None. auto.
Qed.

Lemma chamber_run (item : Elem B) (chambers : list pyval) s s1 rn s2 ra :
  Scraping.heading_text item s = (s1, rn) ->
  Scraping.address_text item s1 = (s2, ra) ->
  forall s' w,
    Scraping.chamber_website item s2 = (s', Ok w) ->
    Scraping.chamber item chambers s
    = (s', Ok (chambers ++ [listing (or_sentinel rn) (or_sentinel ra)
                                    (opt_val w)])).
Proof.
  intros Hn Ha s' w Hw.
  unfold Scraping.chamber, bind, Scraping.chamber_name,
    Scraping.chamber_address, try_except.
  rewrite Hn.
  destruct rn as [n|en]; simpl; rewrite Ha;
    destruct ra as [a|ea]; simpl; rewrite Hw; reflexivity.
Qed.

Lemma chamber_total (item : Elem B) (chambers : list pyval) s :
  exists s' v,
    Scraping.chamber item chambers s = (s', Ok (chambers ++ [v]))
    /\ is_listing v.
Proof.
  destruct (Scraping.heading_text item s) as [s1 rn] eqn:Hn.
  destruct (Scraping.address_text item s1) as [s2 ra] eqn:Ha.
  destruct (chamber_website_total item s2) as (s' & w & Hw & Hs).
  exists s', (listing (or_sentinel rn) (or_sentinel ra) (opt_val w)).
  split; [eapply chamber_run; eauto|].
  exists (or_sentinel rn), (or_sentinel ra), (opt_val w).
  split; [reflexivity|].
  destruct Hs as [->|(h & -> & E)]; [now left|right].
  exists h. split; [reflexivity|].
  unfold is_external in E. rewrite !andb_true_iff in E. tauto.
Qed.

Lemma chambers_loop_total (items : list (Elem B)) :
  forall chambers s,
    exists s' ls,
      for_acc items (Scraping.chamber (B:=B)) chambers s
      = (s', (chambers ++ ls, Ok tt))
      /\ List.length ls = List.length items
      /\ Forall is_listing ls.
Proof.
  induction items as [|item rest IH]; intros chambers s.
  - exists s, []. rewrite app_nil_r. repeat split; constructor.
  - destruct (chamber_total item chambers s) as (s1 & v & Hv & Hl).
    destruct (IH (chambers ++ [v]) s1) as (s' & ls & H & Hlen & Hall).
    exists s', (v :: ls). simpl. rewrite Hv, H, <- app_assoc. simpl.
    repeat split; [now rewrite Hlen|now constructor].
Qed.
End Chamber.

(** ** Region Extraction: one state page *)

Section Region.
Variable B : Browser.

Lemma bind_ok A C (c : M B A) (k : A -> M B C) s s' b :
  bind c k s = (s', Ok b) ->
  exists s1 a, c s = (s1, Ok a) /\ k a s1 = (s', Ok b).
Proof.
  unfold bind. destruct (c s) as [s1 [a|e]]; [|discriminate].
  intros H. now exists s1, a.
Qed.

(** Every return of [scrape_state] hands back chambers built by the
    loop, or none. *)
Lemma scrape_state_returns (state_name state_url : pystr) s s' chambers :
  Scraping.scrape_state (B:=B) state_name state_url s = (s', Ok chambers) ->
  chambers = []
  \/ exists items s0 s1,
       for_acc items (Scraping.chamber (B:=B)) [] s0 = (s1, (chambers, Ok tt)).
Proof.
  unfold Scraping.scrape_state. intros H.
  apply bind_ok in H as (sa & [] & _ & H).
  apply bind_ok in H as (sb & [] & _ & H).
  destruct (wait_presence_all 10 ByCssSelector
              (str ".chamber-finder__content") sb) as [sc [l|e]].
  - apply bind_ok in H as (sd & [] & _ & H).
    destruct (find_elements None ByCssSelector
                (str ".chamber-finder__content") sd) as [se [items|e]].
    + destruct (chambers_loop_total B items [] se) as (sf & ls & Hl & _).
      rewrite Hl in H. injection H as <- <-.
      right. now exists items, se, sf.
    + left. unfold bind, print, ret in H. simpl in H. congruence.
  - left. unfold bind, print, ret in H. simpl in H. congruence.
Qed.
End Region.

(** C1, as the code has it.  The sentinel of the scripts is ["N/A"]: when
    the lookup of the heading text raises (the heading is absent, or
    reading it fails) the name of the record is ["N/A"], and likewise for
    the address; the record is appended all the same, and the loop over
    the containers of a page appends one record per container. *)
Theorem chamber_sentinels (B : Browser) (item : Elem B) (chambers : list pyval)
    (s s1 s2 : State B) (rn ra : result pystr) :
  Scraping.heading_text item s = (s1, rn) ->
  Scraping.address_text item s1 = (s2, ra) ->
  (exists s' name address website,
      Scraping.chamber item chambers s
      = (s', Ok (chambers ++ [listing name address website]))
      /\ (forall e, rn = Raise e -> name = str "N/A")
      /\ (forall e, ra = Raise e -> address = str "N/A"))
  /\ (forall items s0,
        exists s' ls,
          for_acc items (Scraping.chamber (B:=B)) chambers s0
          = (s', (chambers ++ ls, Ok tt))
          /\ List.length ls = List.length items).
Proof.
  intros Hn Ha. split.
  - destruct (chamber_website_total B item s2) as (s' & w & Hw & _).
    exists s', (or_sentinel rn), (or_sentinel ra), (opt_val w).
    split; [eapply chamber_run; eauto|].
    split; intros e ->; reflexivity.
  - intros items s0.
    destruct (chambers_loop_total B items chambers s0) as (s' & ls & H & Hl & _).
    now exists s', ls.
Qed.

(** C5, as the code has it.  The website of a record is the first [href],
    in the order of the anchors of its container, that is not empty,
    starts with the four letters [http] and does not hold the text of
    [BASE_URL] anywhere; it is [None] when the anchors cannot be
    enumerated, and when no [href] read before a failing read is such. *)
Theorem website_is_first_external (B : Browser) (item : Elem B)
    (chambers : list pyval) (s s1 s2 s3 : State B) (rn ra : result pystr)
    (rl : result (list (Elem B))) :
  Scraping.heading_text item s = (s1, rn) ->
  Scraping.address_text item s1 = (s2, ra) ->
  find_elements (Some item) ByTagName (str "a") s2 = (s3, rl) ->
  exists s' website,
    Scraping.chamber item chambers s
    = (s', Ok (chambers ++ [listing (or_sentinel rn) (or_sentinel ra)
                                    (opt_val website)]))
    /\ match rl with
       | Raise _ => website = None
       | Ok links =>
           forall s4 hrefs r,
             read_hrefs links s3 = (s4, (hrefs, r)) ->
             (forall h,
                 website = Some h <->
                 exists pre post,
                   hrefs = pre ++ Some h :: post
                   /\ external h /\ none_external pre)
             /\ (website = None <-> none_external hrefs)
       end.
Proof.
  intros Hn Ha Hl.
  destruct (chamber_website_total B item s2) as (s' & w & Hw & _).
  exists s', w. split; [eapply chamber_run; eauto|].
  destruct rl as [links|e].
  - intros s4 hrefs r Hr.
    destruct (chamber_website_reads B item s2 s3 links Hl s4 hrefs r Hr)
      as (s'' & Hw').
    rewrite Hw in Hw'. injection Hw' as _ ->.
    split; [intros h; apply find_external_some|apply find_external_none].
  - rewrite (chamber_website_fails B item s2 s3 e Hl) in Hw. congruence.
Qed.

(** C10.  Whatever the browser does, every element of a sequence that
    [scrape_state] returns is a dictionary with the keys [name],
    [address] and [website] in this order, the first two bound to strings
    and the last to [None] or to a string that starts with [http]. *)
Theorem scrape_state_listings (B : Browser) (state_name state_url : pystr)
    (s s' : State B) (chambers : list pyval) :
  Scraping.scrape_state state_name state_url s = (s', Ok chambers) ->
  Forall is_listing chambers.
Proof.
  intros H. apply scrape_state_returns in H as [->|(items & s0 & s1 & H)].
  - constructor.
  - destruct (chambers_loop_total B items [] s0) as (sf & ls & Hl & _ & Hall).
    rewrite Hl in H. injection H as _ <-. exact Hall.
Qed.

(** A page whose containers are enumerated yields one record per
    container, in their order. *)
Lemma scrape_state_one_per_container (B : Browser)
    (state_name state_url : pystr) (s : State B) (w1 w2 w3 : World B)
    (seen items : list (Elem B)) :
  b_get B state_url (world s) = (w1, Ok tt) ->
  b_wait_presence_all B 10 ByCssSelector (str ".chamber-finder__content") w1
  = (w2, Ok seen) ->
  b_find_elements B None ByCssSelector (str ".chamber-finder__content") w2
  = (w3, Ok items) ->
  exists s' chambers,
    Scraping.scrape_state state_name state_url s = (s', Ok chambers)
    /\ List.length chambers = List.length items
    /\ Forall is_listing chambers.
Proof.
  intros Hg Hw Hf.
  unfold Scraping.scrape_state, bind, print, driver_get, wait_presence_all,
    find_elements, sleep, invoke.
  cbn [world trace stdout fs]. rewrite Hg. cbn [world trace stdout fs].
  rewrite Hw. cbn [world trace stdout fs]. rewrite Hf.
  match goal with
  | |- context [for_acc items _ [] ?s0] =>
      destruct (chambers_loop_total B items [] s0) as (s' & ls & H & Hl & Ha)
  end.
  rewrite H. now exists s', ls.
Qed.

Lemma chamber_sentinels_witness :
  exists s' name address website,
    Scraping.chamber (B:=Fixture.browser Fixture.site)
      (Fixture.NCard Fixture.bare) []
      (Fixture.start Fixture.site Fixture.permissive)
    = (s', Ok ([] ++ [listing name address website]))
    /\ name = str "N/A" /\ address = str "N/A".
Proof.
  destruct (chamber_sentinels (Fixture.browser Fixture.site)
              (Fixture.NCard Fixture.bare) []
              (Fixture.start Fixture.site Fixture.permissive)
              _ _ _ _ eq_refl eq_refl)
    as [(s' & name & address & website & H & Hn & Ha) _].
  exists s', name, address, website.
  split; [exact H|].
  split; [eapply Hn|eapply Ha]; reflexivity.
Defined.

(** C1 fails as stated: a container without heading gets the name
    ["N/A"], not ["unknown"]. *)
Lemma missing_name_is_not_unknown :
  exists s1 e s' fields,
    Scraping.heading_text (B:=Fixture.browser Fixture.site)
      (Fixture.NCard Fixture.bare)
      (Fixture.start Fixture.site Fixture.permissive) = (s1, Raise e)
    /\ Scraping.chamber (B:=Fixture.browser Fixture.site)
         (Fixture.NCard Fixture.bare) []
         (Fixture.start Fixture.site Fixture.permissive)
       = (s', Ok [VDict fields])
    /\ dict_get fields (str "name") = Some (VStr (str "N/A"))
    /\ dict_get fields (str "name") <> Some (VStr (str "unknown")).
Proof.
  do 4 eexists. split; [reflexivity|]. split; [reflexivity|].
  split; [reflexivity|]. vm_compute. discriminate.
Qed.

Lemma website_is_first_external_witness :
  exists s' website,
    Scraping.chamber (B:=Fixture.browser Fixture.site)
      (Fixture.NCard Fixture.austin) []
      (Fixture.start Fixture.site Fixture.permissive)
    = (s', Ok ([] ++ [listing (str "Austin Chamber") (str "123 Main St")
                              (opt_val website)]))
    /\ website = Some (str "https://austinchamber.org").
Proof.
  destruct (website_is_first_external (Fixture.browser Fixture.site)
              (Fixture.NCard Fixture.austin) []
              (Fixture.start Fixture.site Fixture.permissive)
              _ _ _ _ _ _ eq_refl eq_refl eq_refl)
    as (s' & website & H & Hw).
  exists s', website. split; [exact H|].
  destruct (Hw _ _ _ eq_refl) as [Hsome _].
  apply Hsome.
  exists [None; Some (str "https://www.uschamber.com/co")], [].
  split; [reflexivity|]. split.
  - split; [intros E; vm_compute in E; discriminate|].
    split; reflexivity.
  - constructor; [discriminate|]. constructor; [|constructor].
    intros x [= <-] (_ & _ & Hc). vm_compute in Hc. discriminate.
Defined.

(** C5 fails as stated.  The code tests that the [href] starts with the
    four letters [http] and that the text of [BASE_URL] is no part of it.
    So a link to the host of the site over plain [http] is taken as the
    website, and so is a link whose scheme is not an HTTP scheme; a link
    that leaves the site but names the site in its query is passed
    over. *)
Lemma website_on_own_domain :
  let s := Fixture.start Fixture.site Fixture.permissive in
  let website card :=
    snd (Scraping.chamber (B:=Fixture.browser Fixture.site)
           (Fixture.NCard card) [] s) in
  let own := str "http://www.uschamber.com/about" in
  let odd := str "httpx://members.example.org" in
  let away := str "https://x.org/?ref=https://www.uschamber.com" in
  (http_scheme own = true /\ own_domain own = true
   /\ website own_http_card
      = Ok [listing (str "About") (str "1615 H St") (VStr own)])
  /\ (http_scheme odd = false
      /\ website odd_scheme_card
         = Ok [listing (str "Members") (str "2 High St") (VStr odd)])
  /\ (http_scheme away = true /\ own_domain away = false
      /\ website referral_card
         = Ok [listing (str "X Chamber") (str "1 X St") VNone]).
Proof. vm_compute. repeat split. Qed.

Lemma scrape_state_listings_witness :
  Forall is_listing
    [listing (str "Austin Chamber") (str "123 Main St")
       (VStr (str "https://austinchamber.org"));
     listing (str "N/A") (str "N/A") VNone].
Proof.
  apply (scrape_state_listings (Fixture.browser Fixture.site)
           (str "Texas") Fixture.texas_url
           (Fixture.start Fixture.site Fixture.permissive)
           (fst (Scraping.scrape_state (B:=Fixture.browser Fixture.site)
                   (str "Texas") Fixture.texas_url
                   (Fixture.start Fixture.site Fixture.permissive)))).
  vm_compute. reflexivity.
Defined.

(** ** The orchestrator *)

Lemma driver_quit_trace (B : Browser) (s s' : State B) (r : result unit) :
  driver_quit s = (s', r) -> trace s' = trace s ++ [EQuit].
Proof.
  unfold driver_quit, invoke. destruct (b_quit B (world s)) as [w r'].
  now intros [= <- _].
Qed.

(** C8, as the code has it.  Every run of [main] that returns (the early
    exit without state links, and the runs whose states timed out or
    could not be enumerated, included) has called [driver.quit] as its
    last action on the browser. *)
Theorem main_quits_on_return (B : Browser) (s s' : State B) :
  Scraping.main s = (s', Ok tt) ->
  exists tr, trace s' = tr ++ [EQuit].
Proof.
  unfold Scraping.main. intros H.
  apply bind_ok in H as (s1 & [] & _ & H).
  apply bind_ok in H as (s2 & [] & _ & H).
  apply bind_ok in H as (s3 & [] & _ & H).
  apply bind_ok in H as (s4 & state_links & _ & H).
  destruct (dict_is_empty state_links).
  - apply bind_ok in H as (s5 & [] & _ & H).
    apply driver_quit_trace in H. eauto.
  - apply bind_ok in H as (s5 & present & _ & H).
    apply bind_ok in H as (s6 & [] & _ & H).
    apply bind_ok in H as (s7 & [] & _ & H).
    apply bind_ok in H as (s8 & [] & _ & H).
    apply driver_quit_trace in H. eauto.
Qed.

Lemma main_quits_on_return_witness :
  exists tr,
    trace (fst (Scraping.main (Fixture.start Fixture.site Fixture.permissive)))
    = tr ++ [EQuit].
Proof.
  apply (main_quits_on_return (Fixture.browser Fixture.site)
           (Fixture.start Fixture.site Fixture.permissive)).
  vm_compute. reflexivity.
Defined.

(** C8 fails as stated: when the file of a state cannot be written the
    run ends with the error and the browser is never told to quit. *)
Lemma main_leaks_session :
  let refuse p := str_eqb p (str "/work/chambers_by_state/Texas.json") in
  let run := Scraping.main (Fixture.start Fixture.site refuse) in
  snd run = Raise (Exception OSError (str "/work/chambers_by_state/Texas.json"))
  /\ ~ In EQuit (trace (fst run)).
Proof.
  split; [vm_compute; reflexivity|].
  vm_compute. intros H.
  repeat (destruct H as [H|H]; [discriminate|]). exact H.
Qed.

(** ** Link Discovery *)

Section Links.
Variable B : Browser.

Lemma dict_get_set V (d : dict V) (k k' : pystr) (v : V) :
  dict_get (dict_set d k v) k'
  = if str_eqb k k' then Some v else dict_get d k'.
Proof.
  induction d as [|[k0 v0] d IH]; simpl; [reflexivity|].
  destruct (str_eqb k0 k) eqn:E0; simpl.
  - apply str_eqb_eq in E0. subst k0. now destruct (str_eqb k k').
  - rewrite IH. destruct (str_eqb k0 k') eqn:E1; [|reflexivity].
    destruct (str_eqb k k') eqn:E2; [|reflexivity].
    apply str_eqb_eq in E1, E2. subst. now rewrite str_eqb_refl in E0.
Qed.

Lemma dict_set_keys V (d : dict V) (k : pystr) (v : V) (x : pystr) :
  In x (List.map fst (dict_set d k v)) -> In x (List.map fst d) \/ x = k.
Proof.
  induction d as [|[k0 v0] d IH]; simpl.
  - intros [<-|[]]. now right.
  - destruct (str_eqb k0 k); simpl; [tauto|].
    intros [<-|H]; [tauto|]. destruct (IH H); tauto.
Qed.

Lemma dict_set_nodup V (d : dict V) (k : pystr) (v : V) :
  NoDup (List.map fst d) -> NoDup (List.map fst (dict_set d k v)).
Proof.
  induction d as [|[k0 v0] d IH]; simpl; intros H.
  - repeat constructor. intros [].
  - inversion H as [|? ? Hn Hd]; subst.
    destruct (str_eqb k0 k) eqn:E; simpl; [now constructor|].
    constructor; [|auto]. intros Hin.
    apply dict_set_keys in Hin as [Hin| ->]; [contradiction|].
    now rewrite str_eqb_refl in E.
Qed.

Lemma dict_get_in V (d : dict V) (k : pystr) (v : V) :
  NoDup (List.map fst d) -> (In (k, v) d <-> dict_get d k = Some v).
Proof.
  induction d as [|[k0 v0] d IH]; simpl; intros H.
  - split; [intros []|discriminate].
  - inversion H as [|? ? Hn Hd]; subst. specialize (IH Hd).
    destruct (str_eqb k0 k) eqn:E.
    + apply str_eqb_eq in E. subst k0. split.
      * intros [[= ->]|Hin]; [reflexivity|].
        elim Hn. apply in_map_iff. now exists (k, v).
      * intros [= ->]. now left.
    + apply str_eqb_neq in E. rewrite <- IH. split.
      * intros [[= -> _]|Hin]; [congruence|exact Hin].
      * intros Hin. now right.
Qed.

Lemma add_link_nodup (ps : list (option pystr * pystr)) :
  forall d, NoDup (List.map fst d) ->
            NoDup (List.map fst (fold_left add_link ps d)).
Proof.
  induction ps as [|p ps IH]; intros d H; simpl; [exact H|].
  apply IH. unfold add_link. destruct (fst p) as [h|]; [|exact H].
  destruct (is_region_link h (snd p)); [|exact H].
  now apply dict_set_nodup.
Qed.

Lemma is_region_link_iff (h label : pystr) :
  is_region_link h label = true <-> region_link (Some h) label h.
Proof.
  unfold is_region_link, region_link.
  rewrite !andb_true_iff, negb_true_iff, !truthy_true, str_eqb_neq.
  intuition.
Qed.

Lemma names_iff (k h : pystr) (p : option pystr * pystr) :
  names k h p <->
  fst p = Some h
  /\ is_region_link h (snd p) && str_eqb (strip (snd p)) k = true.
Proof.
  unfold names. rewrite andb_true_iff, str_eqb_eq, is_region_link_iff.
  unfold region_link. intuition.
Qed.

Lemma last_named_none (k : pystr) (ps : list (option pystr * pystr)) :
  last_named k ps = None <-> Forall (fun q => forall h, ~ names k h q) ps.
Proof.
  induction ps as [|p ps IH]; simpl.
  - split; [constructor|reflexivity].
  - destruct (last_named k ps) as [h0|].
    + split; [discriminate|]. intros H. inversion H; subst.
      now apply IH.
    + split.
      * intros H. constructor; [|now apply IH].
        intros h Hn. apply names_iff in Hn as [Hf Hb].
        rewrite Hf, Hb in H. discriminate.
      * intros H. inversion H as [|? ? Hp _]; subst.
        destruct (fst p) as [h|] eqn:Hf; [|reflexivity].
        destruct (is_region_link h (snd p) && str_eqb (strip (snd p)) k)
          eqn:Hb; [|reflexivity].
        elim (Hp h). now apply names_iff.
Qed.

Lemma last_named_some (k h : pystr) (ps : list (option pystr * pystr)) :
  last_named k ps = Some h <->
  exists pre p post,
    ps = pre ++ p :: post
    /\ names k h p
    /\ Forall (fun q => forall h', ~ names k h' q) post.
Proof.
  split.
  - revert h. induction ps as [|p ps IH]; intros h; simpl; [discriminate|].
    destruct (last_named k ps) as [h0|] eqn:E.
    + intros [= ->]. destruct (IH h eq_refl) as (pre & q & post & -> & H).
      now exists (p :: pre), q, post.
    + intros H. exists [], p, ps. split; [reflexivity|].
      split; [|now apply last_named_none].
      apply names_iff. destruct (fst p) as [x|]; [|discriminate].
      destruct (is_region_link x (snd p) && str_eqb (strip (snd p)) k)
        eqn:Hb; [|discriminate].
      injection H as <-. auto.
  - intros (pre & p & post & -> & Hn & Hpost).
    induction pre as [|q pre IH]; simpl.
    + apply last_named_none in Hpost. rewrite Hpost.
      apply names_iff in Hn as [-> ->]. reflexivity.
    + now rewrite IH.
Qed.

Lemma add_link_get (ps : list (option pystr * pystr)) :
  forall d k,
    dict_get (fold_left add_link ps d) k
    = match last_named k ps with
      | Some h => Some h
      | None => dict_get d k
      end.
Proof.
  induction ps as [|p ps IH]; intros d k; simpl; [reflexivity|].
  rewrite IH. destruct (last_named k ps); [reflexivity|].
  unfold add_link. destruct (fst p) as [h|]; [|reflexivity].
  destruct (is_region_link h (snd p)); simpl; [|reflexivity].
  rewrite dict_get_set. now destruct (str_eqb (strip (snd p)) k).
Qed.

Lemma state_link_run (a : Elem B) (d : dict pystr) (s : State B) :
  Scraping.state_link a d s
  = match get_attribute a (str "href") s with
    | (s1, Ok href) =>
        match text a s1 with
        | (s2, Ok t) => (s2, Ok (add_link d (href, t)))
        | (s2, Raise e) => (s2, Raise e)
        end
    | (s1, Raise e) => (s1, Raise e)
    end.
Proof.
  unfold Scraping.state_link, bind.
  destruct (get_attribute a (str "href") s) as [s1 [href|e]]; [|reflexivity].
  destruct (text a s1) as [s2 [t|e]]; [|reflexivity].
  unfold add_link, is_region_link. cbn [fst snd].
  destruct href as [h|]; [|reflexivity].
  now destruct (_ && _ && _ && _).
Qed.

(** The loop of the scripts enters in the mapping exactly the anchors
    that could be read, and stops where the reading stops. *)
Lemma state_links_reads (links : list (Elem B)) :
  forall acc d s s2 pairs r,
    for_acc links
      (fun a acc =>
         bind (get_attribute a (str "href"))
           (fun href => bind (text a)
                          (fun t => ret (acc ++ [(href, t)])))) acc s
    = (s2, (pairs, r)) ->
    exists ps,
      pairs = acc ++ ps
      /\ (r = Ok tt -> List.length ps = List.length links)
      /\ for_acc links (Scraping.state_link (B:=B)) d s
         = (s2, (fold_left add_link ps d, r)).
Proof.
  induction links as [|a rest IH]; intros acc d s s2 pairs r H.
  - cbn in H. injection H as <- <- <-. exists [].
    rewrite app_nil_r. repeat split.
  - cbn [for_acc] in *. rewrite state_link_run. unfold bind in H at 1 2.
    destruct (get_attribute a (str "href") s) as [s1 [href|e]].
    + destruct (text a s1) as [s3 [t|e]].
      * unfold ret at 1 in H.
        apply (IH _ (add_link d (href, t))) in H as (ps & -> & Hl & H).
        exists ((href, t) :: ps). rewrite <- app_assoc.
        split; [reflexivity|]. split; [|exact H].
        intros Hr. simpl. now rewrite Hl.
      * injection H as <- <- <-. exists []. rewrite app_nil_r.
        repeat split. discriminate.
    + injection H as <- <- <-. exists []. rewrite app_nil_r.
      repeat split. discriminate.
Qed.
End Links.

(** C4.  On a run where the container of the state list is found and its
    anchors are enumerated, the mapping binds the name [k] to the address
    [h] exactly when some anchor read from the page qualifies (its [href]
    is there and not empty, its trimmed text is not empty, the [href]
    holds [/co/chambers/] and is not the index page), shows [k] as its
    trimmed text and [h] as its [href], and no qualifying anchor after it
    shows [k]; the names of the mapping are distinct.  Every anchor is
    read unless a read raises. *)
Theorem get_state_links_spec (B : Browser) (s s1 s2 s3 : State B)
    (container : Elem B) (links : list (Elem B))
    (pairs : list (option pystr * pystr)) (r : result unit) :
  wait_presence 10 ById (str "chamber-finder-js") s = (s1, Ok container) ->
  find_elements (Some container) ByTagName (str "a") s1 = (s2, Ok links) ->
  read_anchors links s2 = (s3, (pairs, r)) ->
  exists s' state_links,
    Scraping.get_state_links s = (s', Ok state_links)
    /\ (r = Ok tt -> List.length pairs = List.length links)
    /\ NoDup (List.map fst state_links)
    /\ forall k h,
         In (k, h) state_links <->
         exists pre p post,
           pairs = pre ++ p :: post
           /\ names k h p
           /\ Forall (fun q => forall h', ~ names k h' q) post.
Proof.
  intros Hw Hf Hr.
  apply (state_links_reads B links [] []) in Hr as (ps & -> & Hl & Hr).
  cbn [app] in *.
  assert (Hget : forall k h,
             dict_get (fold_left add_link ps []) k = Some h <->
             exists pre p post,
               ps = pre ++ p :: post
               /\ names k h p
               /\ Forall (fun q => forall h', ~ names k h' q) post).
  { intros k h. rewrite add_link_get, <- last_named_some.
    destruct (last_named k ps); simpl; split; congruence. }
  assert (Hnd : NoDup (List.map fst (fold_left add_link ps [])))
    by (apply add_link_nodup; constructor).
  assert (Hin : forall k h,
             In (k, h) (fold_left add_link ps []) <->
             exists pre p post,
               ps = pre ++ p :: post
               /\ names k h p
               /\ Forall (fun q => forall h', ~ names k h' q) post).
  { intros k h. rewrite <- Hget. now apply dict_get_in. }
  clear Hget.
  unfold Scraping.get_state_links. rewrite Hw, Hf, Hr.
  destruct r as [[]|e].
  - exists s3, (fold_left add_link ps []). auto.
  - eexists _, (fold_left add_link ps []).
    split; [reflexivity|]. auto.
Qed.

Lemma get_state_links_spec_witness :
  exists s' state_links,
    Scraping.get_state_links
      (Fixture.on_page Fixture.site Scraping.MAIN_PAGE Fixture.permissive)
    = (s', Ok state_links)
    /\ dict_get state_links (str "Texas") = Some Fixture.texas_url.
Proof.
  edestruct (get_state_links_spec (Fixture.browser Fixture.site)
               (Fixture.on_page Fixture.site Scraping.MAIN_PAGE
                  Fixture.permissive))
    as (s' & d & H & _ & Hnd & Hiff);
    [vm_compute; reflexivity ..|].
  exists s', d. split; [exact H|].
  apply (dict_get_in _ d _ _ Hnd), Hiff.
  exists [(Some Scraping.MAIN_PAGE, str "All states")],
         (Some Fixture.texas_url, str " Texas "),
         [(Some Fixture.ohio_url, str "Ohio"); (None, str "Top")].
  split; [reflexivity|]. split.
  - apply names_iff. split; reflexivity.
  - constructor; [|constructor; [|constructor]];
      intros h' Hn; apply names_iff in Hn as [Hf Hn];
      [injection Hf as <-; vm_compute in Hn|]; discriminate.
Defined.

(** The two scripts differ in their comments only. *)

(** C9.  Each function of [scraping.py] is the function of the same name
    of [scrapping.py]: same result, same final state (browser, calls,
    output, files), for every browser and every input. *)
Theorem scripts_agree :
  Scraping.BASE_URL = Scrapping.BASE_URL
  /\ Scraping.MAIN_PAGE = Scrapping.MAIN_PAGE
  /\ (forall name, Scraping.sanitize_filename name = Scrapping.sanitize_filename name)
  /\ (forall (B : Browser) (s : State B),
        Scraping.get_state_links s = Scrapping.get_state_links s)
  /\ (forall (B : Browser) state_name state_url (s : State B),
        Scraping.scrape_state state_name state_url s
        = Scrapping.scrape_state state_name state_url s)
  /\ (forall (B : Browser) state_name chambers (s : State B),
        Scraping.save_state_data state_name chambers s
        = Scrapping.save_state_data state_name chambers s)
  /\ (forall (B : Browser) (s : State B), Scraping.main s = Scrapping.main s).
Proof. repeat split. Qed.

(** ** Persistence: strings through [json] *)

Ltac Zify.zify_post_hook ::= Z.to_euclidean_division_equations.

Lemma hexval_hexdigit (k : N) : (k < 16)%N -> hexval (hexdigit k) = Some k.
Proof.
  intros H.
  assert (In k (List.map N.of_nat (seq 0 16))) as Hin.
  { apply in_map_iff. exists (N.to_nat k). split; [lia|].
    apply in_seq. lia. }
  clear H. revert k Hin. apply Forall_forall.
  repeat (constructor; [reflexivity|]). constructor.
Qed.

Lemma decode_hex4 (v : N) :
  (v < 65536)%N ->
  match hex4 v with
  | [a; b; c; d] => decode_uXXXX a b c d = Some v
  | _ => False
  end.
Proof.
  intros H. unfold hex4, decode_uXXXX.
  rewrite !hexval_hexdigit by (apply N.mod_lt; discriminate).
  f_equal. lia.
Qed.

Lemma land_pow2_small (a y : N) :
  (y < 1024)%N -> N.land (a * 1024) y = 0%N.
Proof.
  intros H. apply N.bits_inj_0. intros n. rewrite N.land_spec.
  destruct (N.lt_ge_cases n 10) as [Hn|Hn].
  - change 1024%N with (2 ^ 10)%N. now rewrite N.mul_pow2_bits_low.
  - rewrite <- (N.mod_small y (2 ^ 10)) by exact H.
    rewrite N.mod_pow2_bits_high by exact Hn. apply andb_false_r.
Qed.

Lemma lor_pow2_small (a y : N) :
  (y < 1024)%N -> N.lor (a * 1024) y = (a * 1024 + y)%N.
Proof.
  intros H. pose proof (land_pow2_small a y H) as Hl.
  rewrite <- (N.lxor_lor _ _ Hl). symmetry. now apply N.add_nocarry_lxor.
Qed.

Lemma land_1023 (n : N) : N.land n 1023 = (n mod 1024)%N.
Proof. change 1023%N with (N.ones 10). now rewrite N.land_ones. Qed.

Lemma shiftr_10 (n : N) : N.shiftr n 10 = (n / 1024)%N.
Proof. now rewrite N.shiftr_div_pow2. Qed.

Lemma shiftl_10 (n : N) : N.shiftl n 10 = (n * 1024)%N.
Proof. now rewrite N.shiftl_mul_pow2. Qed.

(** The two halves the encoder writes for a character beyond the basic
    plane. *)
Lemma surrogates_of (c : N) :
  (65536 <= c < 1114112)%N ->
  let n := (c - 65536)%N in
  let hi := N.lor 55296 (N.land (N.shiftr n 10) 1023) in
  let lo := N.lor 56320 (N.land n 1023) in
  (hi < 65536)%N /\ (lo < 65536)%N
  /\ is_high_surrogate hi = true /\ is_low_surrogate hi = false
  /\ is_low_surrogate lo = true
  /\ (65536 + N.lor (N.shiftl (hi - 55296) 10) (lo - 56320))%N = c.
Proof.
  intros H n hi lo.
  assert (Hhi : hi = (55296 + n / 1024)%N).
  { unfold hi. rewrite land_1023, shiftr_10.
    change 55296%N with (54 * 1024)%N.
    rewrite lor_pow2_small by (apply N.mod_lt; discriminate).
    unfold n. lia. }
  assert (Hlo : lo = (56320 + n mod 1024)%N).
  { unfold lo. rewrite land_1023.
    change 56320%N with (55 * 1024)%N.
    now rewrite lor_pow2_small by (apply N.mod_lt; discriminate). }
  assert (Hc : (65536 + N.lor (N.shiftl (hi - 55296) 10) (lo - 56320))%N = c).
  { rewrite shiftl_10.
    replace (lo - 56320)%N with (n mod 1024)%N by lia.
    rewrite lor_pow2_small by (apply N.mod_lt; discriminate).
    unfold n in *. lia. }
  unfold is_high_surrogate, is_low_surrogate.
  repeat split; try exact Hc; try lia;
    rewrite ?andb_true_iff, ?andb_false_iff, ?N.leb_le, ?N.leb_gt;
    unfold n in *; lia.
Qed.

(** ** Persistence: [scanstring] on what the encoder writes *)

Lemma scanstring_lit (c : N) (t : pystr) :
  (c =? 34)%N = false -> (c =? 92)%N = false -> (c <? 32)%N = false ->
  scanstring (c :: t) = push c (scanstring t).
Proof. intros H1 H2 H3. cbn [scanstring]. now rewrite H1, H2, H3. Qed.

Lemma scanstring_esc (e x : N) (t : pystr) :
  (e =? 117)%N = false -> unescape e = Some x ->
  scanstring (92%N :: e :: t) = push x (scanstring t).
Proof.
  intros H1 H2. cbn [scanstring].
  change (92 =? 34)%N with false. change (92 =? 92)%N with true.
  cbv iota. now rewrite H1, H2.
Qed.

Lemma scanstring_u (a b c d uni : N) (t : pystr) :
  decode_uXXXX a b c d = Some uni ->
  is_high_surrogate uni && low_escape t = false ->
  scanstring (92%N :: 117%N :: a :: b :: c :: d :: t) = push uni (scanstring t).
Proof.
  intros H1 H2. cbn [scanstring].
  change (92 =? 34)%N with false. change (92 =? 92)%N with true.
  change (117 =? 117)%N with true. cbv iota. rewrite H1.
  destruct t as [|b1 [|u1 [|a2 [|b2 [|c2 [|d2 t3]]]]]]; try reflexivity.
  unfold low_escape in H2.
  destruct (is_high_surrogate uni); [|reflexivity].
  destruct (b1 =? 92)%N; [|reflexivity].
  destruct (u1 =? 117)%N; [|reflexivity].
  cbn [andb] in *.
  destruct (decode_uXXXX a2 b2 c2 d2) as [uni2|]; [|discriminate].
  now rewrite H2.
Qed.

Lemma scanstring_pair (a b c d a2 b2 c2 d2 hi lo : N) (t : pystr) :
  decode_uXXXX a b c d = Some hi -> is_high_surrogate hi = true ->
  decode_uXXXX a2 b2 c2 d2 = Some lo -> is_low_surrogate lo = true ->
  scanstring (92%N :: 117%N :: a :: b :: c :: d
              :: 92%N :: 117%N :: a2 :: b2 :: c2 :: d2 :: t)
  = push (65536 + N.lor (N.shiftl (hi - 55296) 10) (lo - 56320))%N
         (scanstring t).
Proof.
  intros H1 H2 H3 H4. cbn [scanstring].
  change (92 =? 34)%N with false. change (92 =? 92)%N with true.
  change (117 =? 117)%N with true. cbv iota.
  rewrite H1, H2. cbn [andb]. now rewrite H3, H4.
Qed.

Lemma escape_char_escaped (c : N) :
  (c <? 1114112)%N = true -> escaped c (escape_char c).
Proof.
  intros Hc. apply N.ltb_lt in Hc. unfold escape_char.
  destruct (c =? 34)%N eqn:E1;
    [apply N.eqb_eq in E1; subst; apply esc_short; auto|].
  destruct (c =? 92)%N eqn:E2;
    [apply N.eqb_eq in E2; subst; apply esc_short; auto|].
  destruct (c =? 10)%N eqn:E3;
    [apply N.eqb_eq in E3; subst; apply esc_short; auto|].
  destruct (c =? 13)%N eqn:E4;
    [apply N.eqb_eq in E4; subst; apply esc_short; auto|].
  destruct (c =? 9)%N eqn:E5;
    [apply N.eqb_eq in E5; subst; apply esc_short; auto|].
  destruct (c =? 8)%N eqn:E6;
    [apply N.eqb_eq in E6; subst; apply esc_short; auto|].
  destruct (c =? 12)%N eqn:E7;
    [apply N.eqb_eq in E7; subst; apply esc_short; auto|].
  destruct ((32 <=? c) && (c <=? 126))%N eqn:E8.
  - apply andb_true_iff in E8 as [E8 _]. apply N.leb_le in E8.
    apply esc_plain; auto. apply N.ltb_ge. exact E8.
  - destruct (c <? 65536)%N eqn:E9.
    + apply esc_u. now apply N.ltb_lt.
    + apply N.ltb_ge in E9.
      destruct (surrogates_of c (conj E9 Hc)) as (H1 & H2 & H3 & H4 & H5 & H6).
      now apply esc_pair.
Qed.

Lemma decode_hex4_digits (v : N) :
  (v < 65536)%N ->
  decode_uXXXX (hexdigit ((v / 4096) mod 16)) (hexdigit ((v / 256) mod 16))
    (hexdigit ((v / 16) mod 16)) (hexdigit (v mod 16)) = Some v.
Proof. intros H. now apply (decode_hex4 v) in H. Qed.

Lemma low_escape_first (b1 : N) (t : pystr) :
  (b1 =? 92)%N = false -> low_escape (b1 :: t) = false.
Proof.
  intros H. destruct t as [|u1 [|a2 [|b2 [|c2 [|d2 t]]]]]; try reflexivity.
  cbn [low_escape]. now rewrite H.
Qed.

Lemma low_escape_second (b1 u1 : N) (t : pystr) :
  (u1 =? 117)%N = false -> low_escape (b1 :: u1 :: t) = false.
Proof.
  intros H. destruct t as [|a2 [|b2 [|c2 [|d2 t]]]]; try reflexivity.
  cbn [low_escape]. rewrite H. now rewrite andb_false_r.
Qed.

Lemma low_escape_u (v : N) (t : pystr) :
  (v < 65536)%N -> is_low_surrogate v = false ->
  low_escape (u_escape v ++ t) = false.
Proof.
  intros H1 H2. unfold u_escape, hex4. cbn [app low_escape].
  rewrite decode_hex4_digits by exact H1. rewrite H2. apply andb_false_r.
Qed.

(** After a high surrogate the encoder never writes the escape of a low
    one, unless the string holds one there. *)
Lemma low_escape_encoded (s rest : pystr) :
  text_ok s = true ->
  match s with c :: _ => is_low_surrogate c = false | [] => True end ->
  low_escape (flat_map escape_char s ++ 34%N :: rest) = false.
Proof.
  destruct s as [|c s]; intros Hok Hlow.
  - now apply low_escape_first.
  - cbn [text_ok] in Hok. rewrite !andb_true_iff in Hok.
    destruct Hok as [[Hc _] _]. cbn [flat_map]. rewrite <- app_assoc.
    destruct (escape_char_escaped c Hc) as [e He _| H1 H2 _| Hu |hi lo Hhi _ _ Hl _ _].
    + now apply low_escape_second.
    + now apply low_escape_first.
    + now apply low_escape_u.
    + rewrite <- app_assoc. now apply low_escape_u.
Qed.

Lemma scanstring_encoded (s rest : pystr) :
  text_ok s = true ->
  scanstring (flat_map escape_char s ++ 34%N :: rest) = Some (s, rest).
Proof.
  induction s as [|c s IH]; intros Hok; [reflexivity|].
  pose proof Hok as Hok'.
  cbn [text_ok] in Hok. rewrite !andb_true_iff, negb_true_iff in Hok.
  destruct Hok as [[Hc Hpair] Hs]. specialize (IH Hs).
  cbn [flat_map]. rewrite <- app_assoc.
  destruct (escape_char_escaped c Hc)
    as [e He Hun| H1 H2 H3| Hu |hi lo Hhi Hlo Hh _ Hl Heq].
  - cbn [app]. rewrite (scanstring_esc e c _ He Hun), IH. reflexivity.
  - cbn [app]. rewrite (scanstring_lit c _ H1 H2 H3), IH. reflexivity.
  - unfold u_escape, hex4. cbn [app].
    rewrite (scanstring_u _ _ _ _ c _ (decode_hex4_digits c Hu)), IH;
      [reflexivity|].
    destruct (is_high_surrogate c); [|reflexivity]. cbn [andb] in *.
    apply low_escape_encoded; [exact Hs|].
    destruct s as [|c' s]; [exact I|exact Hpair].
  - unfold u_escape, hex4. cbn [app].
    rewrite (scanstring_pair _ _ _ _ _ _ _ _ hi lo _
               (decode_hex4_digits hi Hhi) Hh (decode_hex4_digits lo Hlo) Hl).
    rewrite IH, Heq. reflexivity.
Qed.


(** ** Persistence: values through [json] *)

Lemma scan_once_str (f : nat) (t : pystr) :
  scan_once (S f) (34%N :: t)
  = match scanstring t with
    | Some (x, r) => Some (VStr x, r)
    | None => None
    end.
Proof. reflexivity. Qed.

Lemma scan_once_obj (f : nat) (t : pystr) :
  scan_once (S f) (123%N :: t) = JSONObject (scan_once f) f t.
Proof. reflexivity. Qed.

Lemma scan_once_arr (f : nat) (t : pystr) :
  scan_once (S f) (91%N :: t) = JSONArray (scan_once f) f t.
Proof. reflexivity. Qed.

Lemma skip_ws_head (c : N) (t : pystr) :
  is_json_ws c = false -> skip_ws (c :: t) = c :: t.
Proof. intros H. cbn [skip_ws]. now rewrite H. Qed.

Lemma skip_ws_indent (lvl : nat) (t : pystr) :
  skip_ws (newline_indent lvl ++ t) = skip_ws t.
Proof.
  unfold newline_indent. cbn [app skip_ws].
  change (is_json_ws LF) with true. cbv iota.
  induction (4 * lvl) as [|n IH]; [reflexivity|]. exact IH.
Qed.

Lemma encode_head (lvl : nat) (v : pyval) :
  exists c t, json_encode lvl v = c :: t /\ is_json_ws c = false.
Proof.
  destruct v as [|x|[|y l]|[|kv d]]; cbn [json_encode];
    eexists _, _; (split; [reflexivity|reflexivity]).
Qed.

Lemma skip_ws_encoded (lvl : nat) (v : pyval) (t : pystr) :
  skip_ws (json_encode lvl v ++ t) = json_encode lvl v ++ t.
Proof.
  destruct (encode_head lvl v) as (c & u & -> & H). now apply skip_ws_head.
Qed.

Lemma encode_dict (lvl : nat) (kv : pystr * pyval) (d : list (pystr * pyval)) :
  json_encode lvl (VDict (kv :: d))
  = 123%N :: newline_indent (S lvl)
    ++ join (item_sep (S lvl)) (List.map (member_text lvl) (kv :: d))
    ++ newline_indent lvl ++ [125%N].
Proof. reflexivity. Qed.

Lemma encode_list (lvl : nat) (x : pyval) (l : list pyval) :
  json_encode lvl (VList (x :: l))
  = 91%N :: newline_indent (S lvl)
    ++ join (item_sep (S lvl)) (List.map (json_encode (S lvl)) (x :: l))
    ++ newline_indent lvl ++ [93%N].
Proof. reflexivity. Qed.

Lemma parses_none (lvl : nat) : parses 1 lvl VNone.
Proof. intros [|f] rest H; [lia|]. reflexivity. Qed.

Lemma parses_str (lvl : nat) (x : pystr) :
  text_ok x = true -> parses 1 lvl (VStr x).
Proof.
  intros Hx [|f] rest H; [lia|].
  cbn [json_encode]. unfold encode_basestring_ascii.
  cbn [app]. rewrite scan_once_str, <- app_assoc. cbn [app].
  now rewrite scanstring_encoded.
Qed.

Lemma object_pairs_member (scan : pystr -> option (pyval * pystr))
    (n : nat) (k s0 s2 s3 : pystr) (v : pyval) :
  scanstring s0 = Some (k, 58%N :: s2) ->
  scan (skip_ws s2) = Some (v, s3) ->
  object_pairs scan (S n) (34%N :: s0)
  = match skip_ws s3 with
    | c' :: s4 =>
        if (c' =? 125)%N then Some ([(k, v)], s4)
        else if (c' =? 44)%N then
          match object_pairs scan n (skip_ws s4) with
          | Some (kvs, s5) => Some ((k, v) :: kvs, s5)
          | None => None
          end
        else None
    | [] => None
    end.
Proof.
  intros H1 H2. cbn [object_pairs].
  change (34 =? 34)%N with true. cbv iota. rewrite H1.
  rewrite skip_ws_head by reflexivity.
  change (58 =? 58)%N with true. cbv iota. now rewrite H2.
Qed.

Lemma member_head (lvl : nat) (kv : pystr * pyval) (d : list (pystr * pyval)) :
  exists t, join (item_sep (S lvl)) (List.map (member_text lvl) (kv :: d))
            = 34%N :: t.
Proof.
  destruct kv as [k x]. cbn [List.map join member_text].
  unfold encode_basestring_ascii.
  destruct (List.map (member_text lvl) d); cbn [app]; eexists; reflexivity.
Qed.

Lemma object_pairs_encoded (f b lvl : nat) (d : list (pystr * pyval)) :
  Forall (fun kv => text_ok (fst kv) = true /\ parses b (S lvl) (snd kv)) d ->
  b <= f -> d <> [] ->
  forall n rest,
    List.length d <= n ->
    object_pairs (scan_once f) n
      (join (item_sep (S lvl)) (List.map (member_text lvl) d)
       ++ newline_indent lvl ++ 125%N :: rest)
    = Some (d, rest).
Proof.
  intros Hd Hf. induction Hd as [|[k x] d [Hk Hx] Hd IH]; [congruence|].
  intros _ [|n] rest Hn; [cbn in Hn; lia|].
  cbn [fst snd] in *.
  assert (Hstep : forall tail,
             object_pairs (scan_once f) (S n)
               (member_text lvl (k, x) ++ tail)
             = match skip_ws tail with
               | c' :: s4 =>
                   if (c' =? 125)%N then Some ([(k, x)], s4)
                   else if (c' =? 44)%N then
                     match object_pairs (scan_once f) n (skip_ws s4) with
                     | Some (kvs, s5) => Some ((k, x) :: kvs, s5)
                     | None => None
                     end
                   else None
               | [] => None
               end).
  { intros tail. unfold member_text, encode_basestring_ascii.
    change (str ": ") with [58; 32]%N.
    rewrite <- !app_assoc. cbn [app].
    apply object_pairs_member
      with (s2 := 32%N :: json_encode (S lvl) x ++ tail).
    - now rewrite scanstring_encoded.
    - cbn [skip_ws]. change (is_json_ws 32) with true. cbv iota.
      rewrite skip_ws_encoded. now apply Hx. }
  destruct d as [|kv d].
  - cbn [List.map join]. rewrite Hstep, skip_ws_indent.
    now rewrite skip_ws_head by reflexivity.
  - change (join (item_sep (S lvl)) (List.map (member_text lvl) ((k, x) :: kv :: d)))
      with (member_text lvl (k, x) ++ item_sep (S lvl)
            ++ join (item_sep (S lvl)) (List.map (member_text lvl) (kv :: d))).
    rewrite <- !app_assoc. rewrite Hstep.
    unfold item_sep at 1. change (str ",") with [44%N].
    rewrite <- !app_assoc. cbn [app].
    rewrite skip_ws_head by reflexivity.
    change (44 =? 125)%N with false. change (44 =? 44)%N with true. cbv iota.
    rewrite skip_ws_indent.
    destruct (member_head lvl kv d) as [t Ht].
    rewrite Ht at 1. cbn [app]. rewrite skip_ws_head by reflexivity.
    rewrite app_comm_cons, <- Ht.
    rewrite IH; [reflexivity|discriminate|cbn in *; lia].
Qed.

Lemma items_head (lvl : nat) (x : pyval) (l : list pyval) (t : pystr) :
  skip_ws (join (item_sep lvl) (List.map (json_encode lvl) (x :: l)) ++ t)
  = join (item_sep lvl) (List.map (json_encode lvl) (x :: l)) ++ t.
Proof.
  cbn [List.map join].
  destruct (encode_head lvl x) as (c & u & -> & H).
  destruct (List.map (json_encode lvl) l); cbn [app]; now apply skip_ws_head.
Qed.

Lemma array_items_encoded (f b lvl : nat) (l : list pyval) :
  Forall (parses b (S lvl)) l -> b <= f -> l <> [] ->
  forall n rest,
    List.length l <= n ->
    array_items (scan_once f) n
      (join (item_sep (S lvl)) (List.map (json_encode (S lvl)) l)
       ++ newline_indent lvl ++ 93%N :: rest)
    = Some (l, rest).
Proof.
  intros Hl Hf. induction Hl as [|x l Hx Hl IH]; [congruence|].
  intros _ [|n] rest Hn; [cbn in Hn; lia|].
  destruct l as [|y l].
  - cbn [List.map join array_items]. rewrite (Hx f _ Hf), skip_ws_indent.
    now rewrite skip_ws_head by reflexivity.
  - change (join (item_sep (S lvl)) (List.map (json_encode (S lvl)) (x :: y :: l)))
      with (json_encode (S lvl) x ++ item_sep (S lvl)
            ++ join (item_sep (S lvl)) (List.map (json_encode (S lvl)) (y :: l))).
    rewrite <- !app_assoc. cbn [array_items]. rewrite (Hx f _ Hf).
    unfold item_sep at 1. change (str ",") with [44%N].
    rewrite <- !app_assoc. cbn [app].
    rewrite skip_ws_head by reflexivity.
    change (44 =? 93)%N with false. change (44 =? 44)%N with true. cbv iota.
    rewrite skip_ws_indent, items_head.
    rewrite IH; [reflexivity|discriminate|cbn in *; lia].
Qed.

Lemma JSONObject_members (scan : pystr -> option (pyval * pystr))
    (fuel : nat) (s t : pystr) :
  skip_ws s = 34%N :: t ->
  JSONObject scan fuel s
  = match object_pairs scan fuel (34%N :: t) with
    | Some (kvs, s2) => Some (VDict (dict_of_pairs kvs), s2)
    | None => None
    end.
Proof. intros H. unfold JSONObject. now rewrite H. Qed.

Lemma JSONArray_items (scan : pystr -> option (pyval * pystr))
    (fuel : nat) (s : pystr) (c : N) (t : pystr) :
  skip_ws s = c :: t -> (c =? 93)%N = false ->
  JSONArray scan fuel s
  = match array_items scan fuel (c :: t) with
    | Some (vs, s2) => Some (VList vs, s2)
    | None => None
    end.
Proof. intros H Hc. unfold JSONArray. now rewrite H, Hc. Qed.

Lemma parses_dict (b lvl : nat) (d : list (pystr * pyval)) :
  Forall (fun kv => text_ok (fst kv) = true /\ parses b (S lvl) (snd kv)) d ->
  dict_of_pairs d = d ->
  parses (S (Nat.max b (List.length d))) lvl (VDict d).
Proof.
  intros Hd Hk [|f] rest Hf; [lia|].
  destruct d as [|kv d]; [reflexivity|].
  rewrite encode_dict. cbn [app]. rewrite scan_once_obj.
  rewrite <- !app_assoc. cbn [app].
  destruct (member_head lvl kv d) as [t Ht].
  rewrite (JSONObject_members _ _ _ (t ++ newline_indent lvl ++ 125%N :: rest)).
  - rewrite app_comm_cons, <- Ht.
    rewrite (object_pairs_encoded f b lvl (kv :: d) Hd);
      [now rewrite Hk|lia|discriminate|lia].
  - rewrite skip_ws_indent, Ht. cbn [app]. now apply skip_ws_head.
Qed.

Lemma parses_list (b lvl : nat) (l : list pyval) :
  Forall (parses b (S lvl)) l ->
  parses (S (Nat.max b (List.length l))) lvl (VList l).
Proof.
  intros Hl [|f] rest Hf; [lia|].
  destruct l as [|x l]; [reflexivity|].
  rewrite encode_list. cbn [app]. rewrite scan_once_arr.
  rewrite <- !app_assoc. cbn [app].
  destruct (encode_head (S lvl) x) as (c & u & Hc & Hws).
  assert (Hne : (c =? 93)%N = false).
  { destruct x as [|s|[|z l']|[|kv d]]; cbn [json_encode] in Hc;
      injection Hc as <- _; reflexivity. }
  assert (Hhd : exists u',
             join (item_sep (S lvl)) (List.map (json_encode (S lvl)) (x :: l))
             = c :: u').
  { cbn [List.map join]. rewrite Hc.
    destruct (List.map (json_encode (S lvl)) l); cbn [app]; eexists; reflexivity. }
  destruct Hhd as [u' Hu].
  rewrite (JSONArray_items _ _ _ c (u' ++ newline_indent lvl ++ 93%N :: rest)).
  - rewrite app_comm_cons, <- Hu.
    rewrite (array_items_encoded f b lvl (x :: l) Hl);
      [reflexivity|lia|discriminate|lia].
  - rewrite skip_ws_indent, items_head, Hu. reflexivity.
  - exact Hne.
Qed.

Lemma parses_listing (lvl : nat) (v : pyval) :
  listing_ok v -> parses 4 lvl v.
Proof.
  intros (name & address & website & -> & Hn & Ha & Hw).
  apply (parses_dict 1 lvl
           [(str "name", VStr name); (str "address", VStr address);
            (str "website", website)]); [|reflexivity].
  repeat constructor; cbn [fst snd]; try reflexivity;
    try (now apply parses_str).
  destruct Hw as [->|(h & -> & Hh)];
    [apply parses_none|now apply parses_str].
Qed.

Lemma join_length (lvl : nat) (sep : pystr) (l : list pyval) :
  List.length l <= List.length (join sep (List.map (json_encode lvl) l)).
Proof.
  induction l as [|x l IH]; [apply Nat.le_0_l|].
  cbn [List.map join List.length].
  destruct (encode_head lvl x) as (c & u & -> & _).
  destruct (List.map (json_encode lvl) l) as [|y ys] eqn:E.
  - destruct l; [cbn; lia|discriminate].
  - rewrite !length_app. cbn [List.length] in *. lia.
Qed.

Lemma encode_list_length (lvl : nat) (l : list pyval) :
  List.length l + 2 <= List.length (json_encode lvl (VList l)).
Proof.
  destruct l as [|x l]; [cbn; lia|].
  rewrite encode_list. cbn [List.length]. rewrite !length_app.
  pose proof (join_length (S lvl) (item_sep (S lvl)) (x :: l)) as H.
  unfold newline_indent at 2. cbn [List.length] in *. lia.
Qed.

(** What [save_state_data] writes for well-formed text is read back as
    the object it was given. *)
Lemma loads_encoded (state_name : pystr) (chambers : list pyval) :
  text_ok state_name = true ->
  Forall listing_ok chambers ->
  json_loads (json_encode 0 (VDict [(state_name, VList chambers)]))
  = Some (VDict [(state_name, VList chambers)]).
Proof.
  intros Hn Hc.
  assert (Hp : parses (S (Nat.max (S (Nat.max 4 (List.length chambers))) 1)) 0
                 (VDict [(state_name, VList chambers)])).
  { apply (parses_dict (S (Nat.max 4 (List.length chambers))) 0
             [(state_name, VList chambers)]); [|reflexivity].
    constructor; [|constructor]. split; [exact Hn|].
    apply (parses_list 4 1 chambers). eapply Forall_impl; [|exact Hc].
    intros v. apply parses_listing. }
  unfold json_loads.
  destruct (encode_head 0 (VDict [(state_name, VList chambers)]))
    as (c & u & Hc' & Hws).
  rewrite Hc' at 2. rewrite skip_ws_head by exact Hws. rewrite <- Hc'.
  rewrite <- (app_nil_r (json_encode 0 _)) at 2.
  rewrite Hp; [reflexivity|].
  rewrite encode_dict. cbn [List.map join member_text List.length].
  rewrite !length_app.
  pose proof (encode_list_length 1 chambers).
  unfold newline_indent. cbn [List.length]. lia.
Qed.

(** C6, as the code has it.  When [save_state_data] returns, the file
    named after the sanitized display name (with [.json]) holds a text
    that [json] reads back as the object whose one key is the display
    name itself and whose value is the list of the records, field for
    field, [None] included -- provided no string of the display name and
    of the records holds a high surrogate right before a low one. *)
Theorem save_state_data_roundtrip (B : Browser) (state_name : pystr)
    (chambers : list pyval) (s s' : State B) :
  text_ok state_name = true ->
  Forall listing_ok chambers ->
  Scraping.save_state_data state_name chambers s = (s', Ok tt) ->
  exists safe content,
    Scraping.sanitize_filename state_name = Ok safe
    /\ fs_read (fs s') (abspath (fs s) (safe ++ str ".json")) = Some content
    /\ json_loads content = Some (VDict [(state_name, VList chambers)]).
Proof.
  intros Hn Hc H.
  exists (sanitize_spec state_name),
         (json_encode 0 (VDict [(state_name, VList chambers)])).
  split; [apply sanitize_filename_eq|].
  split; [|now apply loads_encoded].
  unfold Scraping.save_state_data in H.
  rewrite sanitize_filename_eq in H.
  unfold bind, lift_result, write_file, print in H.
  destruct (deny (fs s) (abspath (fs s) (sanitize_spec state_name ++ str ".json")));
    [discriminate|].
  injection H as <-. unfold fs_read. cbn [fs with_fs files].
  now rewrite dict_get_set, str_eqb_refl.
Qed.

Lemma save_state_data_roundtrip_witness :
  let chambers :=
    [listing (str "Austin Chamber") (str "123 Main St")
       (VStr (str "https://austinchamber.org"));
     listing (str "N/A") (str "N/A") VNone] in
  exists safe content,
    Scraping.sanitize_filename (str "Texas") = Ok safe
    /\ fs_read
         (fs (fst (Scraping.save_state_data (B:=Fixture.browser Fixture.site)
                     (str "Texas") chambers
                     (Fixture.start Fixture.site Fixture.permissive))))
         (abspath (fs (Fixture.start Fixture.site Fixture.permissive))
            (safe ++ str ".json"))
       = Some content
    /\ json_loads content = Some (VDict [(str "Texas", VList chambers)]).
Proof.
  intros chambers.
  apply (save_state_data_roundtrip (Fixture.browser Fixture.site)
           (str "Texas") chambers
           (Fixture.start Fixture.site Fixture.permissive)).
  - reflexivity.
  - constructor; [|constructor; [|constructor]].
    + exists (str "Austin Chamber"), (str "123 Main St"),
        (VStr (str "https://austinchamber.org")).
      repeat split; try reflexivity. right. eexists. split; reflexivity.
    + exists (str "N/A"), (str "N/A"), VNone.
      repeat split; try reflexivity. now left.
  - vm_compute. reflexivity.
Defined.

(** C6 fails as stated: a high surrogate followed by a low one is
    written as the escape of one character beyond the basic plane, and
    read back as that character. *)
Lemma surrogate_pair_not_restored :
  let chambers := [listing [55357; 56832]%N (str "a") VNone] in
  let run :=
    Scraping.save_state_data (B:=Fixture.browser Fixture.site)
      (str "T") chambers (Fixture.start Fixture.site Fixture.permissive) in
  snd run = Ok tt
  /\ exists content,
       fs_read (fs (fst run)) (str "/work/T.json") = Some content
       /\ json_loads content
          = Some (VDict [(str "T", VList [listing [128512]%N (str "a") VNone])])
       /\ json_loads content <> Some (VDict [(str "T", VList chambers)]).
Proof.
  split; [vm_compute; reflexivity|].
  eexists. split; [vm_compute; reflexivity|].
  split; [vm_compute; reflexivity|].
  vm_compute. discriminate.
Qed.

(** ** The sanitizer: what its result looks like *)

Lemma underscore_not_forbidden (c : N) : is_forbidden (underscore c) = false.
Proof.
  unfold underscore. destruct (is_forbidden c) eqn:E; [reflexivity|exact E].
Qed.

Lemma lstrip_nil (s : pystr) :
  lstrip s = [] <-> Forall (fun c => isspace c = true) s.
Proof.
  induction s as [|c s IH]; simpl.
  - split; [constructor|reflexivity].
  - destruct (isspace c) eqn:E.
    + rewrite IH. split; [now constructor|now inversion 1].
    + split; [discriminate|]. inversion 1; congruence.
Qed.

Lemma rstrip_nil (s : pystr) : head_ok s -> rstrip s = [] -> s = [].
Proof.
  destruct s as [|c s]; [reflexivity|]. simpl. intros H.
  destruct (rstrip s); [now rewrite H|discriminate].
Qed.

Lemma strip_nil (s : pystr) :
  strip s = [] <-> Forall (fun c => isspace c = true) s.
Proof.
  rewrite <- lstrip_nil. unfold strip. split.
  - apply rstrip_nil, lstrip_head_ok.
  - now intros ->.
Qed.

Lemma strip_head_ok (s : pystr) : head_ok (strip s).
Proof. apply rstrip_head_ok, lstrip_head_ok. Qed.

Lemma first_line_head (t : pystr) :
  head_ok t ->
  match t with
  | [] => (if has_line_break t then before LF t else t) = []
  | c :: _ => exists u, (if has_line_break t then before LF t else t) = c :: u
  end.
Proof.
  destruct t as [|c t]; [reflexivity|]. intros H.
  destruct (has_line_break (c :: t)); [|now exists t].
  cbn [before]. destruct (c =? LF)%N eqn:E; [|now eexists].
  apply N.eqb_eq in E. subst c. discriminate.
Qed.

Lemma no_break_forall (t : pystr) :
  has_line_break t = false -> Forall (fun c => c <> LF) t.
Proof.
  unfold has_line_break. induction t as [|c t IH]; [constructor|].
  cbn [existsb]. intros H. apply orb_false_iff in H as [H1 H2].
  constructor; [|auto]. apply N.eqb_neq in H1. congruence.
Qed.

Lemma sanitize_spec_clean (s : pystr) :
  Forall (fun c => is_forbidden c = false /\ c <> LF) (sanitize_spec s)
  /\ head_ok (sanitize_spec s).
Proof.
  split.
  - pose proof (no_break_forall _ (sanitize_spec_no_break s)) as Hb.
    assert (Hf : Forall (fun c => is_forbidden c = false) (sanitize_spec s)).
    { unfold sanitize_spec. cbv zeta. apply Forall_map, Forall_forall.
      intros c _. apply underscore_not_forbidden. }
    rewrite Forall_forall in *. intros c Hc. split; auto.
  - unfold sanitize_spec. cbv zeta.
    pose proof (first_line_head (strip s) (strip_head_ok s)) as H.
    pose proof (strip_head_ok s) as Hh.
    destruct (strip s) as [|c t]; [now rewrite H|].
    destruct H as [u ->]. cbn [List.map head_ok] in *.
    now rewrite isspace_underscore.
Qed.

(** The result of the sanitizer is free of the nine characters and of
    line feeds, and does not start with white space. *)
Theorem sanitize_filename_clean (s : pystr) :
  exists t,
    Scraping.sanitize_filename s = Ok t
    /\ Forall (fun c => is_forbidden c = false /\ c <> LF) t
    /\ head_ok t.
Proof.
  exists (sanitize_spec s). split; [apply sanitize_filename_eq|].
  apply sanitize_spec_clean.
Qed.

(** The sanitizer returns the empty string exactly on the strings made
    of white space only (the empty one included). *)
Theorem sanitize_filename_empty_iff (s : pystr) :
  Scraping.sanitize_filename s = Ok []
  <-> Forall (fun c => isspace c = true) s.
Proof.
  rewrite sanitize_filename_eq, <- strip_nil. unfold sanitize_spec. cbv zeta.
  pose proof (first_line_head (strip s) (strip_head_ok s)) as H.
  destruct (strip s) as [|c t].
  - rewrite H. split; reflexivity.
  - destruct H as [u ->]. split; [discriminate|discriminate].
Qed.

(** The names the sanitizer leaves as they are: the trimmed ones, of one
    line, without any of the nine characters. *)
Theorem sanitize_filename_fixed_iff (s : pystr) :
  Scraping.sanitize_filename s = Ok s
  <-> strip s = s
      /\ Forall (fun c => is_forbidden c = false /\ c <> LF) s.
Proof.
  split.
  - intros H. pose proof H as H'. rewrite sanitize_filename_eq in H'.
    injection H' as H'. split.
    + pose proof (sanitize_spec_twice s) as T. now rewrite !H' in T.
    + pose proof (sanitize_spec_clean s) as [Hc _]. now rewrite H' in Hc.
  - intros [Hs Hc]. rewrite sanitize_filename_eq. f_equal.
    unfold sanitize_spec. cbv zeta. rewrite Hs.
    assert (Hb : has_line_break s = false).
    { unfold has_line_break. clear Hs.
      induction Hc as [|c t [_ Hc] _ IH]; [reflexivity|].
      cbn [existsb]. rewrite IH, orb_false_r. apply N.eqb_neq. congruence. }
    rewrite Hb. clear Hs Hb.
    induction Hc as [|c t [Hc _] _ IH]; [reflexivity|].
    cbn [List.map]. rewrite IH. unfold underscore. now rewrite Hc.
Qed.



(** ** Runs that only look at the page *)

Section Paged.
Variable B : Browser.

Lemma page_run_refl (s : State B) : page_run s s.
Proof. split; [reflexivity|]. exists []. now rewrite app_nil_r. Qed.

Lemma page_run_trans (s1 s2 s3 : State B) :
  page_run s1 s2 -> page_run s2 s3 -> page_run s1 s3.
Proof.
  intros [F1 (e1 & T1 & P1)] [F2 (e2 & T2 & P2)]. split; [congruence|].
  exists (e1 ++ e2). rewrite T2, T1, app_assoc. split; [reflexivity|].
  now rewrite forallb_app, P1, P2.
Qed.

Lemma paged_ret A (a : A) : paged (ret (B:=B) a).
Proof. intros s s' r [= <- _]. apply page_run_refl. Qed.

Lemma paged_bind A C (c : M B A) (k : A -> M B C) :
  paged c -> (forall a, paged (k a)) -> paged (bind c k).
Proof.
  intros Hc Hk s s' r. unfold bind.
  destruct (c s) as [s1 [a|e]] eqn:E.
  - intros H. eapply page_run_trans; [eapply Hc|eapply Hk]; eauto.
  - intros [= <- _]. eapply Hc; eauto.
Qed.

Lemma paged_try A (c : M B A) (h : exn -> M B A) :
  paged c -> (forall e, paged (h e)) -> paged (try_except c h).
Proof.
  intros Hc Hh s s' r. unfold try_except.
  destruct (c s) as [s1 [a|e]] eqn:E.
  - intros [= <- _]. eapply Hc; eauto.
  - intros H. eapply page_run_trans; [eapply Hc|eapply Hh]; eauto.
Qed.

Lemma paged_invoke A (ev : Event (Elem B))
    (op : World B -> World B * result A) :
  on_page ev = true -> paged (invoke ev op).
Proof.
  intros Hev s s' r. unfold invoke. destruct (op (world s)) as [w r'].
  intros [= <- _]. split; [reflexivity|]. exists [ev]. cbn.
  now rewrite Hev.
Qed.

Lemma paged_print (line : pystr) : paged (print (B:=B) line).
Proof. intros s s' r [= <- _]. split; [reflexivity|]. exists []. cbn. now rewrite app_nil_r. Qed.

Lemma paged_sleep (n : N) : paged (sleep (B:=B) n).
Proof. intros s s' r [= <- _]. split; [reflexivity|]. now exists [ESleep n]. Qed.

Lemma page_run_for_acc X L (body : X -> L -> M B L) :
  (forall x l, paged (body x l)) ->
  forall xs l s s' l' r,
    for_acc xs body l s = (s', (l', r)) -> page_run s s'.
Proof.
  intros Hb xs. induction xs as [|x xs IH]; intros l s s' l' r; cbn [for_acc].
  - intros [= <- _ _]. apply page_run_refl.
  - destruct (body x l s) as [s1 [l1|e]] eqn:E.
    + intros H. eapply page_run_trans; [eapply Hb|eapply IH]; eauto.
    + intros [= <- _ _]. eapply Hb; eauto.
Qed.

Lemma paged_state_link (a : Elem B) (d : dict pystr) :
  paged (Scraping.state_link a d).
Proof.
  unfold Scraping.state_link.
  apply paged_bind; [now apply paged_invoke|]. intros href.
  apply paged_bind; [now apply paged_invoke|]. intros t.
  destruct href as [h|]; [|apply paged_ret].
  destruct (_ && _ && _ && _); apply paged_ret.
Qed.

Lemma paged_first_external (links : list (Elem B)) :
  paged (Scraping.first_external links).
Proof.
  induction links as [|a rest IH]; cbn [Scraping.first_external].
  - apply paged_ret.
  - apply paged_bind; [now apply paged_invoke|]. intros [h|]; [|exact IH].
    destruct (_ && _ && _); [apply paged_ret|exact IH].
Qed.

Lemma paged_chamber (item : Elem B) (chambers : list pyval) :
  paged (Scraping.chamber item chambers).
Proof.
  unfold Scraping.chamber, Scraping.chamber_name, Scraping.chamber_address,
    Scraping.chamber_website, Scraping.heading_text, Scraping.address_text.
  repeat first
    [ apply paged_ret
    | apply paged_first_external
    | apply paged_invoke; reflexivity
    | apply paged_bind; [|intros ?]
    | apply paged_try; [|intros ?] ].
Qed.

Lemma paged_handler A (line : pystr) (a : A) :
  paged (bind (print (B:=B) line) (fun _ => ret a)).
Proof. apply paged_bind; [apply paged_print|intros _; apply paged_ret]. Qed.

Lemma paged_get_state_links : paged (Scraping.get_state_links (B:=B)).
Proof.
  intros s s' r. unfold Scraping.get_state_links.
  destruct (wait_presence 10 ById (str "chamber-finder-js") s)
    as [s1 [container|e]] eqn:Hw;
    (assert (R1 : page_run s s1)
      by (unfold wait_presence in Hw; eapply paged_invoke; [|exact Hw];
          reflexivity)).
  - destruct (find_elements (Some container) ByTagName (str "a") s1)
      as [s2 [links|e]] eqn:Hf;
      (assert (R2 : page_run s1 s2)
        by (unfold find_elements in Hf; eapply paged_invoke; [|exact Hf];
            reflexivity)).
    + destruct (for_acc links (Scraping.state_link (B:=B)) [] s2)
        as [s3 [d [[]|e]]] eqn:Hl;
        pose proof (page_run_for_acc _ _ _ paged_state_link _ _ _ _ _ _ Hl) as R3.
      * intros [= <- _]. eauto using page_run_trans.
      * intros H. apply paged_handler in H. eauto using page_run_trans.
    + intros H. apply paged_handler in H. eauto using page_run_trans.
  - intros H. apply paged_handler in H. eauto using page_run_trans.
Qed.
End Paged.

(** ** Link Discovery: errors and entries *)

Section Discovery.
Variable B : Browser.

Lemma get_state_links_total (s : State B) :
  exists s' d, Scraping.get_state_links s = (s', Ok d).
Proof.
  unfold Scraping.get_state_links.
  destruct (wait_presence 10 ById (str "chamber-finder-js") s)
    as [s1 [container|e]]; [|eexists _, _; reflexivity].
  destruct (find_elements (Some container) ByTagName (str "a") s1)
    as [s2 [links|e]]; [|eexists _, _; reflexivity].
  destruct (for_acc links (Scraping.state_link (B:=B)) [] s2)
    as [s3 [d [[]|e]]]; eexists _, _; reflexivity.
Qed.

Lemma dict_set_Forall V (P : pystr * V -> Prop) (d : dict V) (k : pystr) (v : V) :
  Forall P d -> P (k, v) -> Forall P (dict_set d k v).
Proof.
  intros Hd Hk. induction Hd as [|[k0 v0] d H0 Hd IH]; simpl.
  - now constructor.
  - destruct (str_eqb k0 k) eqn:E.
    + apply str_eqb_eq in E. subst k0. now constructor.
    + now constructor.
Qed.

Lemma add_link_entries (d : dict pystr) (p : option pystr * pystr) :
  Forall link_entry d -> Forall link_entry (add_link d p).
Proof.
  intros Hd. unfold add_link. destruct (fst p) as [h|]; [|exact Hd].
  destruct (is_region_link h (snd p)) eqn:E; [|exact Hd].
  apply dict_set_Forall; [exact Hd|].
  apply is_region_link_iff in E as (_ & H1 & H2 & H3 & H4).
  unfold link_entry. cbn [fst snd]. rewrite strip_idem. auto.
Qed.

Lemma state_link_entries (a : Elem B) (d d1 : dict pystr) (s s1 : State B) :
  Forall link_entry d ->
  Scraping.state_link a d s = (s1, Ok d1) -> Forall link_entry d1.
Proof.
  intros Hd. rewrite state_link_run.
  destruct (get_attribute a (str "href") s) as [s2 [href|e]]; [|discriminate].
  destruct (text a s2) as [s3 [t|e]]; [|discriminate].
  intros [= _ <-]. now apply add_link_entries.
Qed.
End Discovery.

(** Link Discovery never raises: whatever the browser does it returns a
    mapping, having left the file system alone and asked the browser
    about the page it shows only (no navigation, no quit). *)
Theorem get_state_links_contained (B : Browser) (s : State B) :
  exists s' state_links,
    Scraping.get_state_links s = (s', Ok state_links)
    /\ fs s' = fs s
    /\ exists evs, trace s' = trace s ++ evs /\ forallb on_page evs = true.
Proof.
  destruct (get_state_links_total B s) as (s' & d & H).
  exists s', d. split; [exact H|]. exact (paged_get_state_links B _ _ _ H).
Qed.

(** When the wait for the container of the state list times out, Link
    Discovery returns the empty mapping: the wait is its only call to the
    browser, and the error is printed. *)
Theorem get_state_links_timeout (B : Browser) (s : State B) (w : World B)
    (e : exn) :
  b_wait_presence B 10 ById (str "chamber-finder-js") (world s) = (w, Raise e) ->
  Scraping.get_state_links s
  = ({| world := w;
        trace := trace s ++ [EWaitPresence 10 ById (str "chamber-finder-js")];
        stdout := stdout s
                  ++ [str "Error while trying to get state links: " ++ exn_str e];
        fs := fs s |}, Ok []).
Proof.
  intros H. unfold Scraping.get_state_links, wait_presence, invoke.
  rewrite H. reflexivity.
Qed.

Lemma get_state_links_timeout_witness :
  Scraping.get_state_links
    (Fixture.on_page Fixture.site Fixture.ohio_url Fixture.permissive)
  = ({| world := Fixture.ohio_url : World (Fixture.browser Fixture.site);
        trace := [EWaitPresence 10 ById (str "chamber-finder-js")];
        stdout := [str "Error while trying to get state links: Message: "];
        fs := fs (Fixture.on_page Fixture.site Fixture.ohio_url
                    Fixture.permissive) |}, Ok []).
Proof.
  apply (get_state_links_timeout (Fixture.browser Fixture.site)
           (Fixture.on_page Fixture.site Fixture.ohio_url Fixture.permissive)
           Fixture.ohio_url Fixture.timeout).
  reflexivity.
Defined.

(** Every entry of the mapping Link Discovery returns, on whatever run,
    has a name that is trimmed and not empty and an address that is not
    empty, holds [/co/chambers/] and is not the index page. *)
Theorem get_state_links_entries (B : Browser) (s s' : State B)
    (state_links : dict pystr) :
  Scraping.get_state_links s = (s', Ok state_links) ->
  Forall link_entry state_links.
Proof.
  unfold Scraping.get_state_links.
  destruct (wait_presence 10 ById (str "chamber-finder-js") s)
    as [s1 [container|e]]; [|intros [= _ <-]; constructor].
  destruct (find_elements (Some container) ByTagName (str "a") s1)
    as [s2 [links|e]]; [|intros [= _ <-]; constructor].
  destruct (for_acc links (Scraping.state_link (B:=B)) [] s2)
    as [s3 [d r]] eqn:Hl.
  assert (Hd : Forall link_entry d).
  { eapply (for_acc_invariant B _ _ (Forall link_entry)); [|constructor|exact Hl].
    intros x l s0 s4 l1 Hl0 Hx. eapply state_link_entries; eauto. }
  destruct r as [[]|e]; intros [= _ <-]; exact Hd.
Qed.

Lemma get_state_links_entries_witness :
  Forall link_entry [(str "Texas", Fixture.texas_url);
                     (str "Ohio", Fixture.ohio_url)].
Proof.
  apply (get_state_links_entries (Fixture.browser Fixture.site)
           (Fixture.on_page Fixture.site Scraping.MAIN_PAGE Fixture.permissive)
           (fst (Scraping.get_state_links
                   (Fixture.on_page Fixture.site Scraping.MAIN_PAGE
                      Fixture.permissive)))).
  vm_compute. reflexivity.
Defined.

(** ** Region Extraction: errors, records and calls *)

Section Extraction.
Variable B : Browser.

Lemma or_sentinel_trimmed (item : Elem B) (c : M B pystr) (s s1 : State B)
    (r : result pystr) :
  (forall s s1 n, c s = (s1, Ok n) -> strip n = n) ->
  c s = (s1, r) -> strip (or_sentinel r) = or_sentinel r.
Proof. intros Hc H. destruct r as [n|e]; [eapply Hc; eauto|reflexivity]. Qed.

Lemma heading_text_trimmed (item : Elem B) (s s1 : State B) (n : pystr) :
  Scraping.heading_text item s = (s1, Ok n) -> strip n = n.
Proof.
  unfold Scraping.heading_text, bind, ret.
  destruct (find_element item ByTagName (str "h3") s) as [s2 [h|e]];
    [|discriminate].
  destruct (text h s2) as [s3 [t|e]]; [|discriminate].
  intros [= _ <-]. apply strip_idem.
Qed.

Lemma address_text_trimmed (item : Elem B) (s s1 : State B) (n : pystr) :
  Scraping.address_text item s = (s1, Ok n) -> strip n = n.
Proof.
  unfold Scraping.address_text, bind, ret.
  destruct (find_element item ByCssSelector (str ".chamber-finder__address") s)
    as [s2 [h|e]]; [|discriminate].
  destruct (text h s2) as [s3 [t|e]]; [|discriminate].
  intros [= _ <-]. apply strip_idem.
Qed.

Lemma chamber_record (item : Elem B) (chambers : list pyval) (s : State B) :
  exists s' v,
    Scraping.chamber item chambers s = (s', Ok (chambers ++ [v])) /\ record v.
Proof.
  destruct (Scraping.heading_text item s) as [s1 rn] eqn:Hn.
  destruct (Scraping.address_text item s1) as [s2 ra] eqn:Ha.
  destruct (chamber_website_total B item s2) as (s' & w & Hw & Hs).
  exists s', (listing (or_sentinel rn) (or_sentinel ra) (opt_val w)).
  split; [eapply chamber_run; eauto|].
  exists (or_sentinel rn), (or_sentinel ra), (opt_val w).
  split; [reflexivity|]. split; [|split].
  - destruct rn as [n|e]; [eapply heading_text_trimmed; eauto|reflexivity].
  - destruct ra as [n|e]; [eapply address_text_trimmed; eauto|reflexivity].
  - destruct Hs as [->|(h & -> & E)]; [now left|right].
    exists h. split; [reflexivity|]. now apply is_external_iff.
Qed.

Lemma chambers_loop_records (items : list (Elem B)) :
  forall chambers s,
    exists s' ls,
      for_acc items (Scraping.chamber (B:=B)) chambers s
      = (s', (chambers ++ ls, Ok tt))
      /\ Forall record ls.
Proof.
  induction items as [|item rest IH]; intros chambers s.
  - exists s, []. rewrite app_nil_r. split; constructor.
  - destruct (chamber_record item chambers s) as (s1 & v & Hv & Hl).
    destruct (IH (chambers ++ [v]) s1) as (s' & ls & H & Hall).
    exists s', (v :: ls). cbn [for_acc]. rewrite Hv, H, <- app_assoc.
    split; [reflexivity|now constructor].
Qed.

(** What [scrape_state] does once the page is loaded: it returns, and
    the run only looked at the page. *)
Lemma scrape_state_loaded (state_name : pystr) (s : State B) :
  let rest :=
    fun s =>
      match wait_presence_all 10 ByCssSelector
              (str ".chamber-finder__content") s with
      | (s1, Raise e) =>
          bind (print (str "Timed out waiting for chamber items on "
                       ++ state_name ++ str ": " ++ exn_str e))
            (fun _ => ret []) s1
      | (s1, Ok _) =>
          bind (sleep 2)
            (fun _ s2 =>
               match find_elements None ByCssSelector
                       (str ".chamber-finder__content") s2 with
               | (s3, Raise e) =>
                   bind (print (str "Error scraping chambers for " ++ state_name
                                ++ str ": " ++ exn_str e))
                     (fun _ => ret []) s3
               | (s3, Ok chamber_items) =>
                   match for_acc chamber_items (Scraping.chamber (B:=B)) [] s3 with
                   | (s4, (chambers, Ok _)) => (s4, Ok chambers)
                   | (s4, (chambers, Raise e)) =>
                       bind (print (str "Error scraping chambers for "
                                    ++ state_name ++ str ": " ++ exn_str e))
                         (fun _ => ret chambers) s4
                   end
               end) s1
      end in
  exists s' chambers,
    rest s = (s', Ok chambers) /\ page_run s s' /\ Forall record chambers.
Proof.
  intros rest. unfold rest.
  destruct (wait_presence_all 10 ByCssSelector (str ".chamber-finder__content") s)
    as [s1 [seen|e]] eqn:Hw;
    (assert (R1 : page_run s s1)
      by (unfold wait_presence_all in Hw; eapply paged_invoke; [|exact Hw];
          reflexivity)).
  - unfold bind at 1.
    destruct (sleep 2 s1) as [s2 [[]|e]] eqn:Hs; [|discriminate].
    pose proof (paged_sleep B _ _ _ _ Hs) as R2.
    destruct (find_elements None ByCssSelector (str ".chamber-finder__content") s2)
      as [s3 [items|e]] eqn:Hf;
      (assert (R3 : page_run s2 s3)
        by (unfold find_elements in Hf; eapply paged_invoke; [|exact Hf];
            reflexivity)).
    + destruct (chambers_loop_records items [] s3) as (s4 & ls & Hl & Hrec).
      pose proof (page_run_for_acc B _ _ _ (paged_chamber B) _ _ _ _ _ _ Hl) as R4.
      rewrite Hl. exists s4, ls. eauto 6 using page_run_trans.
    + eexists _, []. split; [reflexivity|]. split; [|constructor].
      eapply page_run_trans;
        [|eapply (paged_handler B _ _ ([] : list pyval)); reflexivity].
      eauto using page_run_trans.
  - eexists _, []. split; [reflexivity|]. split; [|constructor].
    eapply page_run_trans;
      [exact R1|eapply (paged_handler B _ _ ([] : list pyval)); reflexivity].
Qed.
End Extraction.

(** When the page cannot be loaded, [scrape_state] raises what
    [driver.get] raised: nothing is caught, and the navigation is its only
    call to the browser. *)
Theorem scrape_state_navigation_fails (B : Browser)
    (state_name state_url : pystr) (s : State B) (w : World B) (e : exn) :
  b_get B state_url (world s) = (w, Raise e) ->
  Scraping.scrape_state state_name state_url s
  = ({| world := w;
        trace := trace s ++ [EGet state_url];
        stdout := stdout s
                  ++ [[LF] ++ str "Scraping state: " ++ state_name
                      ++ [LF] ++ str "URL: " ++ state_url];
        fs := fs s |}, Raise e).
Proof.
  intros H. unfold Scraping.scrape_state, bind, print, driver_get, invoke.
  cbn [world trace stdout fs]. now rewrite H.
Qed.

(** Once the page is loaded [scrape_state] returns, whatever the browser
    does next: it has navigated once, at the start, then only looked at
    the page, and has left the file system alone; what it returns are
    records with trimmed names and addresses and external websites. *)
Theorem scrape_state_returns_when_loaded (B : Browser)
    (state_name state_url : pystr) (s : State B) (w : World B) :
  b_get B state_url (world s) = (w, Ok tt) ->
  exists s' chambers evs,
    Scraping.scrape_state state_name state_url s = (s', Ok chambers)
    /\ fs s' = fs s
    /\ trace s' = trace s ++ EGet state_url :: evs
    /\ forallb on_page evs = true
    /\ Forall record chambers.
Proof.
  intros H.
  destruct (scrape_state_loaded B state_name
              {| world := w; trace := trace s ++ [EGet state_url];
                 stdout := stdout s
                           ++ [[LF] ++ str "Scraping state: " ++ state_name
                               ++ [LF] ++ str "URL: " ++ state_url];
                 fs := fs s |})
    as (s' & chambers & Hr & [Hfs (evs & Ht & Hp)] & Hrec).
  exists s', chambers, evs.
  cbn [fs trace] in *. rewrite Ht, <- app_assoc. repeat split; auto.
  rewrite <- Hr.
  unfold Scraping.scrape_state, bind, print, driver_get, invoke.
  cbn [world trace stdout fs]. now rewrite H.
Qed.

Lemma scrape_state_navigation_fails_witness :
  exists s',
    Scraping.scrape_state (str "Texas") Fixture.texas_url
      (Outage.on_page true false Scraping.MAIN_PAGE)
    = (s', Raise Outage.unreachable)
    /\ trace s' = [EGet Fixture.texas_url].
Proof.
  eexists. split.
  - apply (scrape_state_navigation_fails (Outage.browser true false)
             (str "Texas") Fixture.texas_url
             (Outage.on_page true false Scraping.MAIN_PAGE)
             Scraping.MAIN_PAGE Outage.unreachable).
    reflexivity.
  - reflexivity.
Defined.

Lemma scrape_state_returns_when_loaded_witness :
  exists s' chambers evs,
    Scraping.scrape_state (str "Texas") Fixture.texas_url
      (Fixture.start Fixture.site Fixture.permissive)
    = (s', Ok chambers)
    /\ fs s' = fs (Fixture.start Fixture.site Fixture.permissive)
    /\ trace s'
       = trace (Fixture.start Fixture.site Fixture.permissive)
         ++ EGet Fixture.texas_url :: evs
    /\ forallb on_page evs = true
    /\ Forall record chambers.
Proof.
  apply (scrape_state_returns_when_loaded (Fixture.browser Fixture.site)
           (str "Texas") Fixture.texas_url
           (Fixture.start Fixture.site Fixture.permissive) Fixture.texas_url).
  reflexivity.
Defined.

(** When the containers of a loaded page were seen by the wait but
    cannot be enumerated afterwards, [scrape_state] returns the empty
    list and prints the error: the failure is not raised. *)
Theorem scrape_state_enumeration_fails (B : Browser)
    (state_name state_url : pystr) (s : State B) (w1 w2 w3 : World B)
    (seen : list (Elem B)) (e : exn) :
  b_get B state_url (world s) = (w1, Ok tt) ->
  b_wait_presence_all B 10 ByCssSelector (str ".chamber-finder__content") w1
  = (w2, Ok seen) ->
  b_find_elements B None ByCssSelector (str ".chamber-finder__content") w2
  = (w3, Raise e) ->
  Scraping.scrape_state state_name state_url s
  = ({| world := w3;
        trace := trace s
                 ++ [EGet state_url;
                     EWaitPresenceAll 10 ByCssSelector
                       (str ".chamber-finder__content");
                     ESleep 2;
                     EFindElements None ByCssSelector
                       (str ".chamber-finder__content")];
        stdout := stdout s
                  ++ [[LF] ++ str "Scraping state: " ++ state_name
                      ++ [LF] ++ str "URL: " ++ state_url;
                      str "Error scraping chambers for " ++ state_name
                      ++ str ": " ++ exn_str e];
        fs := fs s |}, Ok []).
Proof.
  intros Hg Hw Hf.
  unfold Scraping.scrape_state, bind, print, driver_get, wait_presence_all,
    find_elements, sleep, invoke, ret.
  cbn [world trace stdout fs]. rewrite Hg. cbn [world trace stdout fs].
  rewrite Hw. cbn [world trace stdout fs]. rewrite Hf.
  cbn [world trace stdout fs]. rewrite <- !app_assoc. reflexivity.
Qed.

Lemma scrape_state_enumeration_fails_witness :
  exists s',
    Scraping.scrape_state (str "Texas") Fixture.texas_url
      (Outage.on_page false true Scraping.MAIN_PAGE)
    = (s', Ok [])
    /\ stdout s'
       = [[LF] ++ str "Scraping state: Texas" ++ [LF] ++ str "URL: "
          ++ Fixture.texas_url;
          str "Error scraping chambers for Texas: Message: stale element reference"].
Proof.
  eexists. split.
  - apply (scrape_state_enumeration_fails (Outage.browser false true)
             (str "Texas") Fixture.texas_url
             (Outage.on_page false true Scraping.MAIN_PAGE)
             Fixture.texas_url Fixture.texas_url Fixture.texas_url
             (List.map Fixture.NCard [Fixture.austin; Fixture.bare])
             Outage.gone); reflexivity.
  - reflexivity.
Defined.

(** ** Persistence: failure, frame and overwriting *)

Section Saving.
Variable B : Browser.

(** The two runs of [save_state_data]. *)
Lemma save_state_data_run (state_name : pystr) (chambers : list pyval)
    (s : State B) :
  Scraping.save_state_data state_name chambers s
  = if deny (fs s) (state_file (fs s) state_name)
    then (s, Raise (Exception OSError (state_file (fs s) state_name)))
    else ({| world := world s; trace := trace s;
             stdout := stdout s
                       ++ [str "Saved data for " ++ state_name ++ str " in "
                           ++ sanitize_spec state_name ++ str ".json"];
             fs := {| cwd := cwd (fs s); dirs := dirs (fs s);
                      files := dict_set (files (fs s))
                                 (state_file (fs s) state_name)
                                 (state_text state_name chambers);
                      deny := deny (fs s) |} |}, Ok tt).
Proof.
  unfold Scraping.save_state_data. rewrite sanitize_filename_eq.
  unfold bind, lift_result, write_file, print, with_fs, state_file, state_text.
  now destruct (deny _ _).
Qed.

Lemma dict_set_has_key V (d : dict V) (k : pystr) (v : V) :
  In k (List.map fst (dict_set d k v)).
Proof.
  induction d as [|[k0 v0] d IH]; simpl; [now left|].
  destruct (str_eqb k0 k) eqn:E; simpl.
  - left. now apply str_eqb_eq.
  - now right.
Qed.

Lemma dict_set_keeps_keys V (d : dict V) (k : pystr) (v : V) (x : pystr) :
  In x (List.map fst d) -> In x (List.map fst (dict_set d k v)).
Proof.
  induction d as [|[k0 v0] d IH]; simpl; [intros []|].
  destruct (str_eqb k0 k); simpl; tauto.
Qed.

Lemma dict_set_same_keys V (d : dict V) (k : pystr) (v : V) :
  In k (List.map fst d) -> List.map fst (dict_set d k v) = List.map fst d.
Proof.
  induction d as [|[k0 v0] d IH]; simpl; [intros []|].
  destruct (str_eqb k0 k) eqn:E; simpl; [reflexivity|].
  intros [->|H]; [now rewrite str_eqb_refl in E|]. now rewrite IH.
Qed.
End Saving.

(** A [save_state_data] that raises has printed nothing and has not
    involved the browser; the working directory, the directories and every
    file but the file of the state are as before. *)
Theorem save_state_data_raises_early (B : Browser) (state_name : pystr)
    (chambers : list pyval) (s s' : State B) (e : exn) :
  Scraping.save_state_data state_name chambers s = (s', Raise e) ->
  stdout s' = stdout s /\ trace s' = trace s /\ world s' = world s
  /\ cwd (fs s') = cwd (fs s) /\ dirs (fs s') = dirs (fs s)
  /\ forall path,
       path <> state_file (fs s) state_name ->
       fs_read (fs s') path = fs_read (fs s) path.
Proof.
  rewrite save_state_data_run.
  destruct (deny (fs s) (state_file (fs s) state_name)); [|discriminate].
  intros [= <- _]. repeat split.
Qed.

Lemma save_state_data_raises_early_witness :
  let s := Fixture.start Fixture.site (fun _ => true) in
  let s' := fst (Scraping.save_state_data (str "Texas") [] s) in
  stdout s' = stdout s /\ trace s' = trace s
  /\ fs_read (fs s') (str "/work/Ohio.json")
     = fs_read (fs s) (str "/work/Ohio.json").
Proof.
  intros s s'.
  destruct (save_state_data_raises_early (Fixture.browser Fixture.site)
              (str "Texas") [] s s'
              (Exception OSError (str "/work/Texas.json")))
    as (H1 & H2 & _ & _ & _ & H6); [vm_compute; reflexivity|].
  split; [exact H1|]. split; [exact H2|].
  apply H6. intros E. vm_compute in E. discriminate.
Defined.

(** A save that returns has touched one file only: the browser and its
    record of calls, the working directory, the directories and every
    other file are as before; one line is printed. *)
Theorem save_state_data_frame (B : Browser) (state_name : pystr)
    (chambers : list pyval) (s s' : State B) :
  Scraping.save_state_data state_name chambers s = (s', Ok tt) ->
  world s' = world s /\ trace s' = trace s
  /\ List.length (stdout s') = S (List.length (stdout s))
  /\ cwd (fs s') = cwd (fs s) /\ dirs (fs s') = dirs (fs s)
  /\ fs_read (fs s') (state_file (fs s) state_name)
     = Some (state_text state_name chambers)
  /\ forall path,
       path <> state_file (fs s) state_name ->
       fs_read (fs s') path = fs_read (fs s) path.
Proof.
  rewrite save_state_data_run.
  destruct (deny (fs s) (state_file (fs s) state_name)); [discriminate|].
  intros [= <-]. cbn [world trace stdout fs cwd dirs files]. unfold fs_read.
  cbn [files]. rewrite length_app. cbn [List.length].
  repeat split; try reflexivity; try lia.
  - now rewrite dict_get_set, str_eqb_refl.
  - intros path Hp. rewrite dict_get_set.
    destruct (str_eqb (state_file (fs s) state_name) path) eqn:E; [|reflexivity].
    apply str_eqb_eq in E. congruence.
Qed.

Lemma save_state_data_frame_witness :
  let s := Fixture.start Fixture.site Fixture.permissive in
  let s' := fst (Scraping.save_state_data (str "Texas") [] s) in
  trace s' = trace s
  /\ fs_read (fs s') (str "/work/Texas.json") = Some (state_text (str "Texas") [])
  /\ fs_read (fs s') (str "/work/Ohio.json") = None.
Proof.
  intros s s'.
  destruct (save_state_data_frame (Fixture.browser Fixture.site)
              (str "Texas") [] s s') as (_ & H2 & _ & _ & _ & H6 & H7);
    [vm_compute; reflexivity|].
  split; [exact H2|]. split; [exact H6|].
  rewrite H7; [reflexivity|]. intros E. vm_compute in E. discriminate.
Defined.

(** Two display names with the same sanitized form share one file: the
    second save replaces what the first one wrote, and no second file
    appears. *)
Theorem save_state_data_collision (B : Browser) (name1 name2 : pystr)
    (chambers1 chambers2 : list pyval) (s s1 s2 : State B) :
  Scraping.sanitize_filename name1 = Scraping.sanitize_filename name2 ->
  Scraping.save_state_data name1 chambers1 s = (s1, Ok tt) ->
  Scraping.save_state_data name2 chambers2 s1 = (s2, Ok tt) ->
  state_file (fs s) name1 = state_file (fs s1) name2
  /\ fs_read (fs s2) (state_file (fs s) name1)
     = Some (state_text name2 chambers2)
  /\ List.map fst (files (fs s2)) = List.map fst (files (fs s1)).
Proof.
  rewrite !sanitize_filename_eq. intros [= Hn].
  rewrite !save_state_data_run.
  destruct (deny (fs s) (state_file (fs s) name1)); [discriminate|].
  intros [= <-]. cbn [fs].
  assert (Hf : state_file (fs s) name1
               = state_file {| cwd := cwd (fs s); dirs := dirs (fs s);
                               files := dict_set (files (fs s))
                                          (state_file (fs s) name1)
                                          (state_text name1 chambers1);
                               deny := deny (fs s) |} name2).
  { unfold state_file, abspath. cbn [cwd]. now rewrite Hn. }
  rewrite <- Hf. cbn [deny].
  destruct (deny (fs s) (state_file (fs s) name1)); [discriminate|].
  intros [= <-]. cbn [fs files]. unfold fs_read. cbn [files].
  split; [reflexivity|]. split.
  - now rewrite dict_get_set, str_eqb_refl.
  - apply dict_set_same_keys, dict_set_has_key.
Qed.

Lemma save_state_data_collision_witness :
  let s := Fixture.start Fixture.site Fixture.permissive in
  let s1 := fst (Scraping.save_state_data (str "A/B") [] s) in
  let s2 := fst (Scraping.save_state_data (str "A:B") [VNone] s1) in
  fs_read (fs s2) (state_file (fs s) (str "A/B"))
  = Some (state_text (str "A:B") [VNone])
  /\ List.map fst (files (fs s2)) = [str "/work/A_B.json"].
Proof.
  intros s s1 s2.
  destruct (save_state_data_collision (Fixture.browser Fixture.site)
              (str "A/B") (str "A:B") [] [VNone] s s1 s2)
    as (_ & H2 & H3); [reflexivity|vm_compute; reflexivity ..|].
  split; [exact H2|]. rewrite H3. reflexivity.
Defined.

(** ** The orchestrator: calls, navigation and files *)

Section Orchestration.
Variable B : Browser.

Lemma on_page_in_session (evs : list (Event (Elem B))) :
  forallb on_page evs = true -> forallb in_session evs = true.
Proof.
  induction evs as [|ev evs IH]; [reflexivity|]. cbn [forallb].
  rewrite !andb_true_iff. intros [H1 H2]. split; [|auto].
  now destruct ev.
Qed.

Lemma navigations_app (a b : list (Event (Elem B))) :
  navigations (a ++ b) = navigations a ++ navigations b.
Proof.
  induction a as [|ev a IH]; [reflexivity|].
  destruct ev; cbn [app navigations]; now rewrite IH.
Qed.

Lemma navigations_on_page (evs : list (Event (Elem B))) :
  forallb on_page evs = true -> navigations evs = [].
Proof.
  induction evs as [|ev evs IH]; [reflexivity|]. cbn [forallb].
  rewrite andb_true_iff. intros [H1 H2].
  destruct ev; try discriminate; cbn [navigations]; auto.
Qed.

(** Any run of [scrape_state]: one navigation, then the page only. *)
Lemma scrape_state_calls (state_name state_url : pystr) (s s' : State B)
    (r : result (list pyval)) :
  Scraping.scrape_state state_name state_url s = (s', r) ->
  fs s' = fs s
  /\ exists evs,
       trace s' = trace s ++ EGet state_url :: evs
       /\ forallb on_page evs = true.
Proof.
  destruct (b_get B state_url (world s)) as [w [[]|e]] eqn:Hg.
  - destruct (scrape_state_loaded B state_name
                {| world := w; trace := trace s ++ [EGet state_url];
                   stdout := stdout s
                             ++ [[LF] ++ str "Scraping state: " ++ state_name
                                 ++ [LF] ++ str "URL: " ++ state_url];
                   fs := fs s |})
      as (s1 & chambers & Hr & [Hfs (evs & Ht & Hp)] & _).
    intros H.
    assert (E : Scraping.scrape_state state_name state_url s = (s1, Ok chambers)).
    { rewrite <- Hr.
      unfold Scraping.scrape_state, bind, print, driver_get, invoke.
      cbn [world trace stdout fs]. now rewrite Hg. }
    rewrite E in H. injection H as <- <-.
    cbn [fs trace] in *. split; [exact Hfs|]. exists evs.
    now rewrite Ht, <- app_assoc.
  - unfold Scraping.scrape_state, bind, print, driver_get, invoke.
    cbn [world trace stdout fs]. rewrite Hg. intros [= <- _].
    split; [reflexivity|]. now exists [].
Qed.

(** Any run of the body of the loop of [main]. *)
Lemma main_state_run (state_name state_url : pystr) (s s' : State B)
    (r : result unit) :
  Scraping.main_state (state_name, state_url) s = (s', r) ->
  (exists evs,
      trace s' = trace s ++ EGet state_url :: evs
      /\ forallb on_page evs = true)
  /\ cwd (fs s') = cwd (fs s) /\ dirs (fs s') = dirs (fs s)
  /\ deny (fs s') = deny (fs s)
  /\ (r = Ok tt ->
      exists chambers,
        files (fs s')
        = dict_set (files (fs s)) (state_file (fs s) state_name)
            (state_text state_name chambers)).
Proof.
  unfold Scraping.main_state, bind.
  destruct (Scraping.scrape_state state_name state_url s)
    as [s1 [chambers|e]] eqn:Hs;
    apply scrape_state_calls in Hs as [Hfs Htr].
  - rewrite save_state_data_run, Hfs.
    destruct (deny (fs s) (state_file (fs s) state_name)).
    + intros [= <- <-]. rewrite Hfs. repeat split; auto. discriminate.
    + intros [= <- <-]. cbn [trace fs cwd dirs deny files].
      repeat split; auto. intros _. now exists chambers.
  - intros [= <- <-]. rewrite Hfs. repeat split; auto. discriminate.
Qed.

(** Any run of the loop of [main]: the states are visited in the order
    of the mapping, once each, up to the first one that fails. *)
Lemma regions_calls (regions : list (pystr * pystr)) :
  forall (s s' : State B) (r : result unit),
    for_each regions (Scraping.main_state (B:=B)) s = (s', r) ->
    exists evs k,
      trace s' = trace s ++ evs
      /\ forallb in_session evs = true
      /\ navigations evs = List.map snd (firstn k regions)
      /\ (r = Ok tt -> k = List.length regions).
Proof.
  induction regions as [|[name url] rest IH]; intros s s' r; cbn [for_each].
  - intros [= <- <-]. exists [], 0. now rewrite app_nil_r.
  - unfold bind.
    destruct (Scraping.main_state (name, url) s) as [s1 [[]|e]] eqn:Hm;
      apply main_state_run in Hm as ((evs & Ht & Hp) & _).
    + intros H. apply IH in H as (evs' & k & Ht' & Hp' & Hn & Hk).
      exists ((EGet url :: evs) ++ evs'), (S k).
      rewrite Ht', Ht, <- app_assoc. split; [reflexivity|].
      rewrite forallb_app, navigations_app, Hp'. cbn [forallb in_session navigations].
      rewrite (on_page_in_session _ Hp), (navigations_on_page _ Hp), Hn.
      repeat split. intros Hr. cbn [List.length]. now rewrite Hk.
    + intros [= <- <-]. exists (EGet url :: evs), 1.
      split; [exact Ht|]. cbn [forallb in_session navigations firstn List.map snd].
      rewrite (on_page_in_session _ Hp), (navigations_on_page _ Hp).
      repeat split. discriminate.
Qed.

(** A loop of [main] that returns has written the file of each state of
    the mapping, and no other; the working directory has not moved. *)
Lemma regions_files (regions : list (pystr * pystr)) :
  forall (s s' : State B),
    for_each regions (Scraping.main_state (B:=B)) s = (s', Ok tt) ->
    cwd (fs s') = cwd (fs s) /\ dirs (fs s') = dirs (fs s)
    /\ forall path,
         In path (List.map fst (files (fs s'))) <->
         In path (List.map fst (files (fs s)))
         \/ exists name url,
              In (name, url) regions /\ path = state_file (fs s) name.
Proof.
  induction regions as [|[name url] rest IH]; intros s s'; cbn [for_each].
  - intros [= <-]. repeat split; auto.
    intros [H|(n & u & [] & _)]. exact H.
  - unfold bind.
    destruct (Scraping.main_state (name, url) s) as [s1 [[]|e]] eqn:Hm;
      [|discriminate].
    apply main_state_run in Hm as (_ & Hc & Hd & _ & Hf).
    destruct (Hf eq_refl) as [chambers Hfiles].
    intros H. apply IH in H as (Hc' & Hd' & Hk).
    split; [congruence|]. split; [congruence|].
    assert (Hsf : forall n, state_file (fs s1) n = state_file (fs s) n)
      by (intros n; unfold state_file, abspath; now rewrite Hc).
    intros path. rewrite Hk, Hfiles. split.
    + intros [H|(n & u & Hin & ->)].
      * apply dict_set_keys in H as [H| ->]; [now left|].
        right. exists name, url. split; [now left|reflexivity].
      * right. exists n, u. rewrite Hsf. split; [now right|reflexivity].
    + intros [H|(n & u & [[= <- <-]|Hin] & ->)].
      * left. now apply dict_set_keeps_keys.
      * left. apply dict_set_has_key.
      * right. exists n, u. now rewrite Hsf.
Qed.

Lemma startup_run (s s3 : State B) :
  startup s = (s3, Ok tt) ->
  fs s3 = fs s
  /\ trace s3
     = trace s ++ [EChrome [str "--headless"; str "--disable-gpu"];
                   EGet Scraping.MAIN_PAGE; ESleep 3].
Proof.
  unfold startup, bind, Chrome, driver_get, sleep, invoke.
  destruct (b_chrome B _ (world s)) as [w1 [[]|e]]; [|discriminate].
  cbn [world trace stdout fs].
  destruct (b_get B Scraping.MAIN_PAGE w1) as [w2 [[]|e]]; [|discriminate].
  intros [= <-]. cbn [fs trace]. now rewrite <- !app_assoc.
Qed.

Lemma main_eq (s : State B) :
  Scraping.main s
  = bind startup
      (fun _ => bind (Scraping.get_state_links (B:=B)) discovered) s.
Proof.
  unfold Scraping.main, startup, discovered, bind.
  destruct (Chrome _ s) as [s1 [[]|e]]; [|reflexivity].
  destruct (driver_get Scraping.MAIN_PAGE s1) as [s2 [[]|e]]; reflexivity.
Qed.

Lemma invoke_trace A (ev : Event (Elem B)) (op : World B -> World B * result A)
    (s s' : State B) (r : result A) :
  invoke ev op s = (s', r) -> trace s' = trace s ++ [ev] /\ fs s' = fs s.
Proof.
  unfold invoke. destruct (op (world s)) as [w r']. now intros [= <- _].
Qed.

Lemma startup_calls (s s3 : State B) (r : result unit) :
  startup s = (s3, r) ->
  fs s3 = fs s
  /\ exists evs,
       trace s3
       = trace s ++ EChrome [str "--headless"; str "--disable-gpu"] :: evs
       /\ forallb in_session evs = true.
Proof.
  unfold startup, bind.
  destruct (Chrome _ s) as [s1 [[]|e]] eqn:H1;
    apply invoke_trace in H1 as [T1 F1].
  - destruct (driver_get Scraping.MAIN_PAGE s1) as [s2 [[]|e]] eqn:H2;
      apply invoke_trace in H2 as [T2 F2].
    + intros [= <- _]. cbn [fs trace]. split; [congruence|].
      exists [EGet Scraping.MAIN_PAGE; ESleep 3].
      rewrite T2, T1, <- !app_assoc. now split.
    + intros [= <- _]. split; [congruence|].
      exists [EGet Scraping.MAIN_PAGE]. rewrite T2, T1, <- !app_assoc.
      now split.
  - intros [= <- _]. split; [exact F1|]. exists []. now split.
Qed.

(** The part of [discovered] before the loop: the output directory is
    made if need be and entered; the browser is not involved. *)
Lemma enter_output (s s' : State B) (k : M B unit) (r : result unit) :
  bind (path_exists (str "chambers_by_state"))
    (fun present =>
       bind (if negb present then makedirs (str "chambers_by_state")
             else ret tt)
         (fun _ => bind (chdir (str "chambers_by_state")) (fun _ => k))) s
  = (s', r) ->
  (s' = s /\ exists e, r = Raise e)
  \/ exists s5,
       k s5 = (s', r)
       /\ world s5 = world s /\ trace s5 = trace s /\ stdout s5 = stdout s
       /\ cwd (fs s5) = abspath (fs s) (str "chambers_by_state")
       /\ In (cwd (fs s5)) (dirs (fs s5))
       /\ files (fs s5) = files (fs s).
Proof.
  unfold bind at 1. unfold path_exists.
  destruct (fs_exists (fs s) (str "chambers_by_state")) eqn:Hex; cbn [negb].
  - unfold bind at 1. unfold ret at 1. unfold bind at 1. unfold chdir.
    destruct (existsb _ (dirs (fs s))) eqn:Hd.
    + intros H. right. eexists. split; [exact H|].
      cbn [world trace stdout fs with_fs cwd dirs files].
      repeat split; try reflexivity.
      apply existsb_exists in Hd as (x & Hx & E).
      apply str_eqb_eq in E. now subst x.
    + intros [= <- <-]. left. split; [reflexivity|]. now eexists.
  - unfold bind at 1. unfold makedirs. rewrite Hex, orb_false_r.
    destruct (deny (fs s) _) eqn:Hdeny.
    + intros [= <- <-]. left. split; [reflexivity|]. now eexists.
    + unfold bind at 1. unfold chdir.
      cbn [fs with_fs dirs cwd abspath].
      rewrite existsb_app. cbn [existsb].
      change (cwd (fs s) ++ str "/" ++ str "chambers_by_state")
        with (abspath (fs s) (str "chambers_by_state")).
      rewrite str_eqb_refl, orb_true_r. cbn [orb].
      intros H. right. eexists. split; [exact H|].
      cbn [world trace stdout fs with_fs cwd dirs files].
      repeat split; try reflexivity.
      apply in_or_app. right. now left.
Qed.
End Orchestration.

(** Whatever happens, [main] handles one browser session in order: the
    browser is started first and once, it is never asked anything after
    [driver.quit], and [driver.quit] is called at most once -- exactly
    once when [main] returns. *)
Theorem main_session (B : Browser) (s s' : State B) (r : result unit) :
  Scraping.main s = (s', r) ->
  exists evs q,
    trace s'
    = trace s ++ EChrome [str "--headless"; str "--disable-gpu"] :: evs ++ q
    /\ forallb in_session evs = true
    /\ (q = [] \/ q = [EQuit])
    /\ (r = Ok tt -> q = [EQuit]).
Proof.
  rewrite main_eq. unfold bind at 1.
  destruct (startup s) as [s3 [[]|e]] eqn:H3;
    apply startup_calls in H3 as (_ & evs3 & T3 & P3).
  2:{ intros [= <- <-]. exists evs3, []. rewrite app_nil_r.
      repeat split; auto. discriminate. }
  unfold bind at 1.
  destruct (get_state_links_total B s3) as (s4 & links & H4). rewrite H4.
  apply paged_get_state_links in H4 as (_ & evs4 & T4 & P4).
  apply on_page_in_session in P4.
  assert (Hend : forall s5 evs5,
             trace s5 = trace s4 ++ evs5 -> forallb in_session evs5 = true ->
             forall q, trace s' = trace s5 ++ q ->
             trace s' = trace s ++ EChrome [str "--headless"; str "--disable-gpu"]
                                   :: (evs3 ++ evs4 ++ evs5) ++ q
             /\ forallb in_session (evs3 ++ evs4 ++ evs5) = true).
  { intros s5 evs5 T5 P5 q Tq. rewrite Tq, T5, T4, T3.
    rewrite !forallb_app, P3, P4, P5, <- !app_assoc. now split. }
  unfold discovered. destruct (dict_is_empty links).
  - unfold bind, print. cbn [fst snd]. intros H.
    pose proof (driver_quit_trace B _ _ _ H) as Tq. cbn [trace] in Tq.
    destruct (Hend s4 [] (eq_sym (app_nil_r _)) eq_refl [EQuit] Tq) as [T P].
    eexists _, [EQuit]. repeat split; eauto.
  - intros H. apply enter_output in H as [[-> [e ->]]|(s5 & H & _ & T5 & _)].
    + destruct (Hend s4 [] (eq_sym (app_nil_r _)) eq_refl []
                  (eq_sym (app_nil_r _))) as [T P].
      eexists _, []. repeat split; eauto. discriminate.
    + unfold bind in H.
      destruct (for_each links (Scraping.main_state (B:=B)) s5)
        as [s6 [[]|e]] eqn:H6;
        apply regions_calls in H6 as (evs6 & k & T6 & P6 & _).
      * pose proof (driver_quit_trace B _ _ _ H) as Tq.
        rewrite T5 in T6.
        destruct (Hend s6 evs6 T6 P6 [EQuit] Tq) as [T P].
        eexists _, [EQuit]. repeat split; eauto.
      * injection H as <- <-. rewrite T5 in T6.
        destruct (Hend s6 evs6 T6 P6 [] (eq_sym (app_nil_r _))) as [T P].
        eexists _, []. repeat split; eauto. discriminate.
Qed.

Lemma main_session_witness :
  exists evs q,
    trace (fst (Scraping.main (Fixture.start Fixture.site Fixture.permissive)))
    = trace (Fixture.start Fixture.site Fixture.permissive)
      ++ EChrome [str "--headless"; str "--disable-gpu"] :: evs ++ q
    /\ forallb in_session evs = true
    /\ q = [EQuit].
Proof.
  destruct (main_session (Fixture.browser Fixture.site)
              (Fixture.start Fixture.site Fixture.permissive)
              (fst (Scraping.main (Fixture.start Fixture.site Fixture.permissive)))
              (Ok tt))
    as (evs & q & T & P & _ & Q); [vm_compute; reflexivity|].
  exists evs, q. auto.
Defined.

(** A run of [main] that returns has sent the browser to the index page
    and then to the page of each state of the mapping, once each, in the
    order of the mapping, and nowhere else. *)
Theorem main_navigations (B : Browser) (s s' : State B) :
  Scraping.main s = (s', Ok tt) ->
  exists s3 s4 state_links,
    startup s = (s3, Ok tt)
    /\ Scraping.get_state_links s3 = (s4, Ok state_links)
    /\ navigations (trace s')
       = navigations (trace s)
         ++ Scraping.MAIN_PAGE :: List.map snd state_links.
Proof.
  rewrite main_eq. intros H.
  apply bind_ok in H as (s3 & [] & H3 & H).
  apply bind_ok in H as (s4 & links & H4 & H).
  exists s3, s4, links. split; [exact H3|]. split; [exact H4|].
  apply startup_run in H3 as [_ T3].
  apply paged_get_state_links in H4 as (_ & evs4 & T4 & P4).
  assert (N4 : navigations (trace s4)
               = navigations (trace s) ++ [Scraping.MAIN_PAGE]).
  { rewrite T4, T3, !navigations_app, (navigations_on_page _ _ P4).
    now rewrite app_nil_r. }
  unfold discovered in H. destruct links as [|kv links]; cbn [dict_is_empty] in H.
  - apply bind_ok in H as (s5 & [] & Hp & H).
    apply driver_quit_trace in H. injection Hp as <-. cbn [trace] in H.
    rewrite H, navigations_app, N4. cbn [navigations List.map].
    now rewrite app_nil_r.
  - apply enter_output in H as [[_ [e He]]|(s5 & H & _ & T5 & _)];
      [discriminate|].
    apply bind_ok in H as (s6 & [] & H6 & H).
    apply driver_quit_trace in H.
    apply regions_calls in H6 as (evs6 & k & T6 & _ & N6 & K6).
    rewrite (K6 eq_refl), firstn_all in N6.
    rewrite H, T6, T5, !navigations_app, N4, N6. cbn [navigations].
    now rewrite app_nil_r, <- app_assoc.
Qed.

Lemma main_navigations_witness :
  navigations
    (trace (fst (Scraping.main (Fixture.start Fixture.site Fixture.permissive))))
  = [Scraping.MAIN_PAGE; Fixture.texas_url; Fixture.ohio_url].
Proof.
  destruct (main_navigations (Fixture.browser Fixture.site)
              (Fixture.start Fixture.site Fixture.permissive)
              (fst (Scraping.main (Fixture.start Fixture.site Fixture.permissive))))
    as (s3 & s4 & links & H3 & H4 & N); [vm_compute; reflexivity|].
  rewrite N. vm_compute in H3. injection H3 as <-.
  vm_compute in H4. injection H4 as _ <-. reflexivity.
Defined.

(** When Link Discovery comes back with an empty mapping, [main] prints
    its notice and quits the browser: no directory is made, no file is
    written, no state page is visited; it returns what [driver.quit]
    returns. *)
Theorem main_early_exit (B : Browser) (s s3 s4 : State B) (w : World B)
    (r : result unit) :
  startup s = (s3, Ok tt) ->
  Scraping.get_state_links s3 = (s4, Ok []) ->
  b_quit B (world s4) = (w, r) ->
  Scraping.main s
  = ({| world := w;
        trace := trace s4 ++ [EQuit];
        stdout := stdout s4
                  ++ [str "No state links found. Please verify the page structure."];
        fs := fs s |}, r).
Proof.
  intros H3 H4 Hq. rewrite main_eq. unfold bind at 1. rewrite H3.
  unfold bind at 1. rewrite H4.
  apply startup_run in H3 as [F3 _].
  apply paged_get_state_links in H4 as [F4 _].
  unfold discovered. cbn [dict_is_empty].
  unfold bind, print, driver_quit, invoke. cbn [world trace stdout fs].
  rewrite Hq. now rewrite F4, F3.
Qed.

Lemma main_early_exit_witness :
  let s := Fixture.start (fun _ => Fixture.no_page) Fixture.permissive in
  let run := Scraping.main s in
  snd run = Ok tt
  /\ fs (fst run) = fs s
  /\ navigations (trace (fst run)) = [Scraping.MAIN_PAGE].
Proof.
  intros s run. unfold run.
  rewrite (main_early_exit (Fixture.browser (fun _ => Fixture.no_page)) s
             (fst (startup s))
             (fst (Scraping.get_state_links (fst (startup s))))
             Scraping.MAIN_PAGE (Ok tt));
    [|vm_compute; reflexivity ..].
  cbn [fst snd fs]. split; [reflexivity|]. split; [reflexivity|].
  vm_compute. reflexivity.
Defined.

(** A run of [main] that returns with a mapping that is not empty has
    ended in the directory [chambers_by_state], which exists, and the
    files it has added are the files of the states of the mapping, each
    right in this directory under the sanitized name of its state. *)
Theorem main_output_files (B : Browser) (s s3 s4 s' : State B)
    (state_links : dict pystr) :
  startup s = (s3, Ok tt) ->
  Scraping.get_state_links s3 = (s4, Ok state_links) ->
  state_links <> [] ->
  Scraping.main s = (s', Ok tt) ->
  let out := abspath (fs s) (str "chambers_by_state") in
  cwd (fs s') = out
  /\ In out (dirs (fs s'))
  /\ forall path,
       In path (List.map fst (files (fs s'))) <->
       In path (List.map fst (files (fs s)))
       \/ exists name url safe,
            In (name, url) state_links
            /\ Scraping.sanitize_filename name = Ok safe
            /\ path = out ++ str "/" ++ safe ++ str ".json".
Proof.
  intros H3 H4 Hne. rewrite main_eq. unfold bind at 1. rewrite H3.
  unfold bind at 1. rewrite H4.
  apply startup_run in H3 as [F3 _].
  apply paged_get_state_links in H4 as [F4 _].
  unfold discovered. destruct state_links as [|kv links]; [congruence|].
  cbn [dict_is_empty]. intros H.
  apply enter_output in H as [[_ [e He]]|(s5 & H & _ & _ & _ & C5 & D5 & L5)];
    [discriminate|].
  apply bind_ok in H as (s6 & [] & H6 & H).
  apply invoke_trace in H as [_ Fq].
  apply regions_files in H6 as (C6 & D6 & K6).
  rewrite F4, F3 in *. cbv zeta. rewrite Fq, C6, D6.
  split; [exact C5|]. split; [now rewrite <- C5|].
  intros path. rewrite K6, L5. split.
  - intros [Hp|(name & url & Hin & ->)]; [now left|right].
    exists name, url, (sanitize_spec name).
    split; [exact Hin|]. split; [apply sanitize_filename_eq|].
    unfold state_file, abspath. now rewrite C5.
  - intros [Hp|(name & url & safe & Hin & Hs & ->)]; [now left|right].
    exists name, url. split; [exact Hin|].
    rewrite sanitize_filename_eq in Hs. injection Hs as <-.
    unfold state_file, abspath. now rewrite C5.
Qed.

Lemma main_output_files_witness :
  let s := Fixture.start Fixture.site Fixture.permissive in
  let s' := fst (Scraping.main s) in
  cwd (fs s') = str "/work/chambers_by_state"
  /\ In (str "/work/chambers_by_state/Texas.json") (List.map fst (files (fs s'))).
Proof.
  intros s s'.
  destruct (main_output_files (Fixture.browser Fixture.site) s
              (fst (startup s))
              (fst (Scraping.get_state_links (fst (startup s))))
              s'
              [(str "Texas", Fixture.texas_url); (str "Ohio", Fixture.ohio_url)])
    as (C & _ & K);
    [vm_compute; reflexivity| vm_compute; reflexivity| discriminate
    | vm_compute; reflexivity|].
  split; [exact C|].
  apply (proj2 (K (str "/work/chambers_by_state/Texas.json"))). right.
  exists (str "Texas"), Fixture.texas_url, (str "Texas").
  split; [now left|]. split; reflexivity.
Defined.

(** The loop of [main] stops at the first state whose extraction or
    saving raises: the error leaves the loop, and the states after it in
    the mapping are never visited. *)
Theorem main_loop_stops_at_failure (B : Browser)
    (before after : list (pystr * pystr)) (state_name state_url : pystr)
    (s s1 s2 : State B) (e : exn) :
  for_each before (Scraping.main_state (B:=B)) s = (s1, Ok tt) ->
  Scraping.main_state (state_name, state_url) s1 = (s2, Raise e) ->
  for_each (before ++ (state_name, state_url) :: after)
    (Scraping.main_state (B:=B)) s
  = (s2, Raise e)
  /\ navigations (trace s2)
     = navigations (trace s) ++ List.map snd before ++ [state_url].
Proof.
  intros Hb Hf. split.
  - revert s Hb. induction before as [|kv rest IH]; intros s; cbn [for_each app].
    + intros [= ->]. unfold bind. now rewrite Hf.
    + unfold bind.
      destruct (Scraping.main_state kv s) as [s0 [[]|e0]]; [|discriminate].
      apply IH.
  - apply regions_calls in Hb as (evs & k & T & _ & N & K).
    rewrite (K eq_refl), firstn_all in N.
    apply main_state_run in Hf as ((evs' & T' & P') & _).
    rewrite T', T, !navigations_app, N. cbn [navigations].
    now rewrite (navigations_on_page _ _ P'), <- app_assoc.
Qed.

Lemma main_loop_stops_at_failure_witness :
  let s := Fixture.start Fixture.site
             (fun p => str_eqb p (str "/work/Ohio.json")) in
  let body := Scraping.main_state (B:=Fixture.browser Fixture.site) in
  let s1 := fst (for_each [(str "Texas", Fixture.texas_url)] body s) in
  let s2 := fst (body (str "Ohio", Fixture.ohio_url) s1) in
  for_each ([(str "Texas", Fixture.texas_url)]
            ++ (str "Ohio", Fixture.ohio_url)
               :: [(str "Utah", str "https://www.uschamber.com/co/chambers/utah")])
    body s
  = (s2, Raise (Exception OSError (str "/work/Ohio.json")))
  /\ navigations (trace s2)
     = navigations (trace s)
       ++ List.map snd [(str "Texas", Fixture.texas_url)] ++ [Fixture.ohio_url].
Proof.
  intros s body s1 s2.
  apply (main_loop_stops_at_failure (Fixture.browser Fixture.site)
           [(str "Texas", Fixture.texas_url)]
           [(str "Utah", str "https://www.uschamber.com/co/chambers/utah")]
           (str "Ohio") Fixture.ohio_url s s1 s2
           (Exception OSError (str "/work/Ohio.json")));
    vm_compute; reflexivity.
Defined.

Lemma scrape_state_one_per_container_witness :
  exists s' chambers,
    Scraping.scrape_state (str "Texas") Fixture.texas_url
      (Fixture.start Fixture.site Fixture.permissive)
    = (s', Ok chambers)
    /\ List.length chambers
       = List.length (List.map Fixture.NCard [Fixture.austin; Fixture.bare]).
Proof.
  destruct (scrape_state_one_per_container (Fixture.browser Fixture.site)
              (str "Texas") Fixture.texas_url
              (Fixture.start Fixture.site Fixture.permissive)
              Fixture.texas_url Fixture.texas_url Fixture.texas_url
              (List.map Fixture.NCard [Fixture.austin; Fixture.bare])
              (List.map Fixture.NCard [Fixture.austin; Fixture.bare]))
    as (s' & chambers & H & L & _); [reflexivity ..|].
  exists s', chambers. split; [exact H|exact L].
Defined.

(** ** The orchestrator around a state that times out *)

Section Timeout.
Variable B : Browser.

Lemma scrape_state_timed_out (state_name state_url : pystr) (s : State B)
    (w1 w2 : World B) (e : exn) :
  b_get B state_url (world s) = (w1, Ok tt) ->
  b_wait_presence_all B 10 ByCssSelector (str ".chamber-finder__content") w1
  = (w2, Raise e) ->
  Scraping.scrape_state state_name state_url s
  = (timed_out s state_name state_url w2 e, Ok []).
Proof.
  intros Hg Hw.
  unfold Scraping.scrape_state, bind, print, driver_get, wait_presence_all,
    invoke, ret, timed_out.
  cbn [world trace stdout fs]. rewrite Hg. cbn [world trace stdout fs].
  rewrite Hw. cbn [world trace stdout fs]. now rewrite <- !app_assoc.
Qed.

Lemma for_each_split X (body : X -> M B unit) (before after : list X) (x : X) :
  forall s s1,
    for_each before body s = (s1, Ok tt) ->
    for_each (before ++ x :: after) body s
    = bind (body x) (fun _ => for_each after body) s1.
Proof.
  induction before as [|y rest IH]; intros s s1; cbn [for_each app].
  - now intros [= ->].
  - unfold bind at 1 2.
    destruct (body y s) as [s0 [[]|e0]]; [|discriminate]. apply IH.
Qed.

Lemma discovered_not_empty (state_links : dict pystr) (s : State B) :
  state_links <> [] ->
  discovered state_links s
  = bind output_dir_setup
      (fun _ => bind (for_each state_links (Scraping.main_state (B:=B)))
                  (fun _ => driver_quit)) s.
Proof.
  destruct state_links as [|kv links]; [congruence|]. intros _.
  unfold discovered, output_dir_setup. cbn [dict_is_empty].
  unfold bind.
  destruct (path_exists (str "chambers_by_state") s) as [s1 [present|e]];
    [|reflexivity].
  destruct ((if negb present then makedirs (str "chambers_by_state")
             else ret tt) s1) as [s2 [[]|e]]; [|reflexivity].
  destruct (chdir (str "chambers_by_state") s2) as [s3 [[]|e]]; reflexivity.
Qed.

(** What [main] is, seen from the state that timed out. *)
Lemma main_from_state (before after : list (pystr * pystr))
    (state_name state_url : pystr) (s s3 s4 s5 s6 : State B) :
  startup s = (s3, Ok tt) ->
  Scraping.get_state_links s3
  = (s4, Ok (before ++ (state_name, state_url) :: after)) ->
  output_dir_setup s4 = (s5, Ok tt) ->
  for_each before (Scraping.main_state (B:=B)) s5 = (s6, Ok tt) ->
  Scraping.main s
  = bind (Scraping.main_state (state_name, state_url))
      (fun _ => bind (for_each after (Scraping.main_state (B:=B)))
                  (fun _ => driver_quit)) s6.
Proof.
  intros H3 H4 H5 H6. rewrite main_eq. unfold bind at 1. rewrite H3.
  unfold bind at 1. rewrite H4.
  rewrite discovered_not_empty by (now destruct before).
  unfold bind at 1. rewrite H5. unfold bind at 1.
  rewrite (for_each_split _ _ before after _ _ _ H6).
  unfold bind.
  now destruct (Scraping.main_state (state_name, state_url) s6) as [s7 [[]|e]].
Qed.

(** The calls of the rest of the run, from the next state on. *)
Lemma next_state_first (name url : pystr) (rest : list (pystr * pystr))
    (s s' : State B) (r : result unit) :
  bind (for_each ((name, url) :: rest) (Scraping.main_state (B:=B)))
    (fun _ => driver_quit) s = (s', r) ->
  exists evs, trace s' = trace s ++ EGet url :: evs.
Proof.
  cbn [for_each]. unfold bind.
  destruct (Scraping.main_state (name, url) s) as [s1 [[]|e]] eqn:H1;
    apply main_state_run in H1 as ((evs1 & T1 & _) & _).
  - destruct (for_each rest (Scraping.main_state (B:=B)) s1)
      as [s2 [[]|e]] eqn:H2;
      apply regions_calls in H2 as (evs2 & k & T2 & _).
    + intros H. apply driver_quit_trace in H.
      exists (evs1 ++ evs2 ++ [EQuit]).
      rewrite H, T2, T1, <- !app_assoc. reflexivity.
    + intros [= <- _]. exists (evs1 ++ evs2).
      rewrite T2, T1, <- !app_assoc. reflexivity.
  - intros [= <- _]. now exists evs1.
Qed.
End Timeout.

(** C7, as the code has it.  When the page of a state of the mapping
    loads and the wait for a chamber container raises, [scrape_state]
    returns the empty list at once: the browser has been asked to load the
    page once and to wait once, nothing more.  [main] then saves the empty
    list for this state.  When this save returns, the run goes on with
    the states after it in the mapping, and the next thing the browser is
    asked is to load the page of the next state; when the save raises,
    the run ends there with its error. *)
Theorem timeout_then_next_region (B : Browser)
    (before after : list (pystr * pystr)) (state_name state_url : pystr)
    (s s3 s4 s5 s6 : State B) (w1 w2 : World B) (e : exn) :
  startup s = (s3, Ok tt) ->
  Scraping.get_state_links s3
  = (s4, Ok (before ++ (state_name, state_url) :: after)) ->
  output_dir_setup s4 = (s5, Ok tt) ->
  for_each before (Scraping.main_state (B:=B)) s5 = (s6, Ok tt) ->
  b_get B state_url (world s6) = (w1, Ok tt) ->
  b_wait_presence_all B 10 ByCssSelector (str ".chamber-finder__content") w1
  = (w2, Raise e) ->
  Scraping.scrape_state state_name state_url s6
  = (timed_out s6 state_name state_url w2 e, Ok [])
  /\ Scraping.main s
     = bind (Scraping.save_state_data state_name [])
         (fun _ => bind (for_each after (Scraping.main_state (B:=B)))
                     (fun _ => driver_quit))
         (timed_out s6 state_name state_url w2 e)
  /\ (forall s8,
        Scraping.save_state_data state_name []
          (timed_out s6 state_name state_url w2 e) = (s8, Ok tt) ->
        world s8 = w2
        /\ trace s8 = trace s6 ++ [EGet state_url;
                                   EWaitPresenceAll 10 ByCssSelector
                                     (str ".chamber-finder__content")]
        /\ Scraping.main s
           = bind (for_each after (Scraping.main_state (B:=B)))
               (fun _ => driver_quit) s8
        /\ forall next_name next_url rest s' r,
             after = (next_name, next_url) :: rest ->
             Scraping.main s = (s', r) ->
             exists evs, trace s' = trace s8 ++ EGet next_url :: evs)
  /\ (forall s8 e',
        Scraping.save_state_data state_name []
          (timed_out s6 state_name state_url w2 e) = (s8, Raise e') ->
        Scraping.main s = (s8, Raise e')).
Proof.
  intros H3 H4 H5 H6 Hg Hw.
  pose proof (scrape_state_timed_out B state_name state_url s6 w1 w2 e Hg Hw)
    as Ht.
  assert (Hm : Scraping.main s
               = bind (Scraping.save_state_data state_name [])
                   (fun _ => bind (for_each after (Scraping.main_state (B:=B)))
                               (fun _ => driver_quit))
                   (timed_out s6 state_name state_url w2 e)).
  { rewrite (main_from_state B before after state_name state_url
               s s3 s4 s5 s6 H3 H4 H5 H6).
    unfold Scraping.main_state. unfold bind at 1 2. now rewrite Ht. }
  split; [exact Ht|]. split; [exact Hm|]. split.
  - intros s8 Hs.
    assert (Hc : Scraping.main s
                 = bind (for_each after (Scraping.main_state (B:=B)))
                     (fun _ => driver_quit) s8).
    { rewrite Hm. unfold bind at 1. now rewrite Hs. }
    pose proof Hs as Hs'. rewrite save_state_data_run in Hs'.
    destruct (deny _ _); [discriminate|]. injection Hs' as <-.
    cbn [world trace timed_out].
    split; [reflexivity|]. split; [reflexivity|]. split; [exact Hc|].
    intros next_name next_url rest s' r -> Hr. rewrite Hc in Hr.
    apply next_state_first in Hr. exact Hr.
  - intros s8 e' Hs. rewrite Hm. unfold bind at 1. now rewrite Hs.
Qed.

Lemma timeout_then_next_region_witness :
  let B := Fixture.browser ohio_first in
  let s := Fixture.start ohio_first Fixture.permissive in
  let s3 := fst (startup s) in
  let s4 := fst (Scraping.get_state_links s3) in
  let s5 := fst (output_dir_setup s4) in
  let s7 := timed_out s5 (str "Ohio") Fixture.ohio_url
              (Fixture.ohio_url : World B) Fixture.timeout in
  let s8 := fst (Scraping.save_state_data (str "Ohio") [] s7) in
  Scraping.scrape_state (str "Ohio") Fixture.ohio_url s5 = (s7, Ok [])
  /\ Scraping.main s
     = bind (for_each [(str "Texas", Fixture.texas_url)]
               (Scraping.main_state (B:=B)))
         (fun _ => driver_quit) s8
  /\ exists evs,
       trace (fst (Scraping.main s))
       = trace s8 ++ EGet Fixture.texas_url :: evs.
Proof.
  intros B s s3 s4 s5 s7 s8.
  destruct (timeout_then_next_region B [] [(str "Texas", Fixture.texas_url)]
              (str "Ohio") Fixture.ohio_url s s3 s4 s5 s5
              Fixture.ohio_url Fixture.ohio_url Fixture.timeout)
    as (H1 & _ & H3 & _); [vm_compute; reflexivity ..|].
  destruct (H3 s8) as (_ & _ & H4 & H5); [vm_compute; reflexivity|].
  split; [exact H1|]. split; [exact H4|].
  apply (H5 (str "Texas") Fixture.texas_url []
           (fst (Scraping.main s)) (snd (Scraping.main s)) eq_refl).
  vm_compute. reflexivity.
Defined.

(** C7 fails as stated: Ohio times out, its file is refused, and the run
    ends with the error of the file system; Texas, the next state of the
    mapping, is never visited. *)
Lemma timeout_then_refused_save :
  let refuse p := str_eqb p (str "/work/chambers_by_state/Ohio.json") in
  let run := Scraping.main (Fixture.start ohio_first refuse) in
  Fixture.wait_all ohio_first 10 ByCssSelector (str ".chamber-finder__content")
    Fixture.ohio_url = (Fixture.ohio_url, Raise Fixture.timeout)
  /\ snd run = Raise (Exception OSError (str "/work/chambers_by_state/Ohio.json"))
  /\ navigations (trace (fst run)) = [Scraping.MAIN_PAGE; Fixture.ohio_url].
Proof. vm_compute. repeat split. Qed.
